(** * Audio-Transcoder: a shallow embedding of [transcode_and_move_audio_files.py]

    The script walks a source tree, runs an external encoder or decoder on
    every eligible file, and relocates the results together with their
    companion files under a destination tree.

    Conventions of the embedding.
    - Python [str] is [string]; [int] is [Z]; [float] is a binary64
      [spec_float] ([prec = 53], [emax = 1024]) with round-to-nearest-even,
      so that [a / b], [round] and [math.floor] give what Python gives.
    - [os.path] is the POSIX flavour ([os.sep = "/"], [os.extsep = "."]).
    - [str.lower] and [str.capitalize] act on the ASCII letters.
    - Function attributes ([move_or_copy_file.total_count], ...) are fields of
      one record [Statics]; the operating system is a type class [OS] over an
      abstract world; every function of the script that has an effect is a
      computation in the monad [M] (state, trace of effects, exceptions).
    - An exception that no handler of the script catches ends the
      computation with [Raise]; the state is the one in which it was raised.
    - [os.walk] is read when a loop starts: the transcode loop adds files
      only to directories that are already listed.
    - [logging.*] calls write to the log file what the neighbouring [print]
      writes to the console; the trace records the console lines only.
    - The command line is taken after [argparse]: a record [Args]. *)

From Stdlib Require Import ZArith String Ascii List Bool Lia DecimalString.
From Stdlib Require Import Floats.SpecFloat.
Import ListNotations.
Open Scope string_scope.
Open Scope Z_scope.

(* ------------------------------------------------------------------ *)
(** * Python strings *)

Module PyStr.

Definition is_upper (c : ascii) : bool :=
  let n := nat_of_ascii c in (65 <=? n)%nat && (n <=? 90)%nat.

Definition is_lower (c : ascii) : bool :=
  let n := nat_of_ascii c in (97 <=? n)%nat && (n <=? 122)%nat.

Definition lower_ascii (c : ascii) : ascii :=
  if is_upper c then ascii_of_nat (nat_of_ascii c + 32) else c.

Definition upper_ascii (c : ascii) : ascii :=
  if is_lower c then ascii_of_nat (nat_of_ascii c - 32) else c.

(** [s.lower()] *)
Fixpoint lower (s : string) : string :=
  match s with
  | EmptyString => EmptyString
  | String c s' => String (lower_ascii c) (lower s')
  end.

(** [s.capitalize()] *)
Definition capitalize (s : string) : string :=
  match s with
  | EmptyString => EmptyString
  | String c s' => String (upper_ascii c) (lower s')
  end.

(** [s[n:]] *)
Fixpoint drop (n : nat) (s : string) : string :=
  match n, s with
  | O, _ => s
  | S _, EmptyString => EmptyString
  | S n', String _ s' => drop n' s'
  end.

(** [s[:n]] *)
Fixpoint take (n : nat) (s : string) : string :=
  match n, s with
  | O, _ => EmptyString
  | S _, EmptyString => EmptyString
  | S n', String c s' => String c (take n' s')
  end.

(** [s.startswith(p)] *)
Definition startswith (p s : string) : bool := String.prefix p s.

(** [s.endswith(c)] for a one-character [c] *)
Fixpoint endswith_char (c : ascii) (s : string) : bool :=
  match s with
  | EmptyString => false
  | String a EmptyString => Ascii.eqb a c
  | String _ s' => endswith_char c s'
  end.

(** [sub in s] for two strings: substring test *)
Fixpoint contains (sub s : string) : bool :=
  if String.prefix sub s then true
  else match s with
       | EmptyString => false
       | String _ s' => contains sub s'
       end.

(** [s.partition(sep)[2]]: what follows the first occurrence of [sep],
    the empty string when [sep] does not occur ([sep] is not empty). *)
Fixpoint partition_tail (sep s : string) : string :=
  if String.prefix sep s then drop (String.length sep) s
  else match s with
       | EmptyString => EmptyString
       | String _ s' => partition_tail sep s'
       end.

(** [s.rfind(c)] for a one-character [c]: the last index, or [-1] *)
Fixpoint rfind_from (c : ascii) (s : string) (i : Z) (found : Z) : Z :=
  match s with
  | EmptyString => found
  | String a s' => rfind_from c s' (i + 1) (if Ascii.eqb a c then i else found)
  end.

Definition rfind (c : ascii) (s : string) : Z := rfind_from c s 0 (-1).

(** [s.rpartition(c)[2]]: what follows the last [c], the whole string when
    [c] does not occur. *)
Definition rpartition_tail (c : ascii) (s : string) : string :=
  drop (Z.to_nat (rfind c s + 1)) s.

(** [str(n)] for an [int] *)
Definition str_int (n : Z) : string := NilZero.string_of_int (Z.to_int n).

(** ["{:>w}".format(s)]: right-aligned in a field of width [w] *)
Fixpoint spaces (n : nat) : string :=
  match n with O => EmptyString | S n' => String " " (spaces n') end.

Definition rjust (w : nat) (s : string) : string :=
  spaces (w - String.length s) ++ s.

(** [c in s] for a one-character [c] *)
Fixpoint has_char (c : ascii) (s : string) : bool :=
  match s with
  | EmptyString => false
  | String a s' => Ascii.eqb a c || has_char c s'
  end.

(** [x in t] for a tuple of strings *)
Definition in_tuple (x : string) (t : list string) : bool :=
  existsb (String.eqb x) t.

End PyStr.

(* ------------------------------------------------------------------ *)
(** * [posixpath] *)

Module PosixPath.
Import PyStr.

Definition sep : string := "/".
Definition extsep : string := ".".

Fixpoint all_dots (s : string) : bool :=
  match s with
  | EmptyString => true
  | String c s' => Ascii.eqb c "." && all_dots s'
  end.

(** [os.path.splitext]: the extension starts at the last dot of the last
    component; leading dots of that component do not start one. *)
Definition splitext (p : string) : string * string :=
  let sepIndex := rfind "/" p in
  let dotIndex := rfind "." p in
  if sepIndex <? dotIndex then
    let filenameIndex := sepIndex + 1 in
    if all_dots (take (Z.to_nat (dotIndex - filenameIndex))
                      (drop (Z.to_nat filenameIndex) p))
    then (p, EmptyString)
    else (take (Z.to_nat dotIndex) p, drop (Z.to_nat dotIndex) p)
  else (p, EmptyString).

(** [os.path.basename] *)
Definition basename (p : string) : string :=
  drop (Z.to_nat (rfind "/" p + 1)) p.

Fixpoint all_seps (s : string) : bool :=
  match s with
  | EmptyString => true
  | String c s' => Ascii.eqb c "/" && all_seps s'
  end.

(** [head.rstrip("/")] *)
Fixpoint rstrip_sep (s : string) : string :=
  match s with
  | EmptyString => EmptyString
  | String c s' => if all_seps s then EmptyString else String c (rstrip_sep s')
  end.

(** [os.path.dirname] *)
Definition dirname (p : string) : string :=
  let head := take (Z.to_nat (rfind "/" p + 1)) p in
  if all_seps head then head else rstrip_sep head.

(** Two paths that differ in separators at the end name one directory. *)
Definition same_directory (a b : string) : Prop := rstrip_sep a = rstrip_sep b.

(** One round of the loop of [os.path.join] *)
Definition join2 (path b : string) : string :=
  if startswith sep b then b
  else if (String.eqb path EmptyString || endswith_char "/" path)%bool then path ++ b
  else path ++ sep ++ b.

(** [os.path.join(a, *p)] *)
Definition join (a : string) (p : list string) : string := fold_left join2 p a.

End PosixPath.

(* ------------------------------------------------------------------ *)
(** * Python floats (binary64) *)

Module PyFloat.

Definition prec : Z := 53.
Definition emax : Z := 1024.

(** [float(n)] *)
Definition of_int (n : Z) : spec_float := binary_normalize prec emax n 0 false.

(** An [int] as an exact, not yet rounded, mantissa *)
Definition raw (n : Z) : spec_float :=
  match n with
  | Z0 => S754_zero false
  | Zpos p => S754_finite false p 0
  | Zneg p => S754_finite true p 0
  end.

(** [a / b] on two [int]s, [b] not zero: the quotient rounded once *)
Definition int_truediv (a b : Z) : spec_float := SFdiv prec emax (raw a) (raw b).

(** [x * n] for a float [x] and an [int] [n] *)
Definition mul_int (x : spec_float) (n : Z) : spec_float :=
  SFmul prec emax x (of_int n).

(** [x / y] on two floats *)
Definition div (x y : spec_float) : spec_float := SFdiv prec emax x y.

(** [x < n], [n < x] for a float [x] and an [int] [n] *)
Definition lt_int (x : spec_float) (n : Z) : bool := SFltb x (of_int n).
Definition gt_int (x : spec_float) (n : Z) : bool := SFltb (of_int n) x.

(** [math.floor(x)]; [None] where Python raises (infinity, NaN) *)
Definition floor (x : spec_float) : option Z :=
  match x with
  | S754_zero _ => Some 0
  | S754_finite s m e =>
      let v := if s then Z.neg m else Z.pos m in
      Some (if 0 <=? e then v * 2 ^ e else v / 2 ^ (- e))
  | _ => None
  end.

(** The integer nearest to [n / d], ties to even ([0 <= n], [0 < d]) *)
Definition nearest_even (n d : Z) : Z :=
  let q := n / d in
  let r := n mod d in
  match 2 * r ?= d with
  | Lt => q
  | Gt => q + 1
  | Eq => if Z.even q then q else q + 1
  end.

(** [|x| * k] rounded to the nearest integer, ties to even, with the sign
    of [x] put back *)
Definition scaled_round (k : Z) (x : spec_float) : option Z :=
  match x with
  | S754_zero _ => Some 0
  | S754_finite s m e =>
      let a := if 0 <=? e then Z.pos m * k * 2 ^ e
               else nearest_even (Z.pos m * k) (2 ^ (- e)) in
      Some (if s then - a else a)
  | _ => None
  end.

(** [round(x)]: the nearest [int], ties to even *)
Definition round (x : spec_float) : option Z := scaled_round 1 x.

(** [round(x, 2)], as the number of hundredths of the result *)
Definition round2 (x : spec_float) : option Z := scaled_round 100 x.

(** One decimal digit *)
Definition digit (d : Z) : string := PyStr.str_int (d mod 10).

(** [str(round(x, 2))] from the hundredths [h >= 0] of the result: the
    shortest decimal that reads back, so a trailing zero is dropped *)
Definition str_hundredths (h : Z) : string :=
  PyStr.str_int (h / 100) ++ "." ++ digit (h / 10) ++
  (if h mod 10 =? 0 then EmptyString else digit h).

(** ["%.1f" % x] *)
Definition format_1f (x : spec_float) : string :=
  match scaled_round 10 x with
  | Some t =>
      (if t <? 0 then "-" else EmptyString) ++
      PyStr.str_int (Z.abs t / 10) ++ "." ++ digit (Z.abs t)
  | None => "nan"
  end.

End PyFloat.

(* ------------------------------------------------------------------ *)
(** * Python dictionaries and containers *)

(** A [dict] with string keys, in insertion order. *)
Definition dict (V : Type) : Type := list (string * V).

Fixpoint dict_get {V : Type} (d : dict V) (k : string) : option V :=
  match d with
  | [] => None
  | (k', v) :: d' => if String.eqb k k' then Some v else dict_get d' k
  end.

Definition dict_keys {V : Type} (d : dict V) : list string := map fst d.

(** [d[k] = v]: an existing key keeps its place *)
Fixpoint dict_set {V : Type} (d : dict V) (k : string) (v : V) : dict V :=
  match d with
  | [] => [(k, v)]
  | (k', v') :: d' =>
      if String.eqb k k' then (k', v) :: d' else (k', v') :: dict_set d' k v
  end.

(** The right operand of [in]: the registry holds tuples of extensions for
    encoding and one bare string for decoding. *)
Inductive pyseq : Type :=
| PyTuple (items : list string)
| PyString (s : string).

(** [x in c] *)
Definition py_in (x : string) (c : pyseq) : bool :=
  match c with
  | PyTuple items => PyStr.in_tuple x items
  | PyString s => PyStr.contains x s
  end.

(** Control characters of the messages *)
Definition nl : string := String (ascii_of_nat 10) EmptyString.
Definition bel : string := String (ascii_of_nat 7) EmptyString.
Definition quote : string := "'".

(* ------------------------------------------------------------------ *)
(** * FormatRegistry: [dict_transcode_tool_platform_get] *)

Definition tool_entry : Type := (string * list string)%type.

Definition registry : Type :=
  (dict tool_entry * dict pyseq * dict string)%type.

Definition opus : string := "opus".
Definition flac : string := "flac".

Definition valid_encode_source_for_opus : pyseq :=
  PyTuple ["wav"; "aiff"; "flac"; "oga"; "pcm"].
Definition valid_encode_target_for_opus_source : string := opus.
Definition valid_decode_source_for_opus : pyseq := PyString opus.
Definition valid_decode_target_for_opus : string := "wav".

Definition valid_encode_source_for_flac : pyseq :=
  PyTuple ["wav"; "aiff"; "rf64"; "w64"].
Definition valid_encode_target_for_flac_source : string := flac.
Definition valid_decode_source_for_flac : pyseq := PyString flac.
Definition valid_decode_target_for_flac : string := "wav".

Definition options_encode_opus : list string :=
  ["--music"; "--bitrate"; "160"; "--vbr"; "--framesize"; "20"; "--comp"; "10"].
Definition options_decode_opus : list string := [].
Definition options_encode_flac : list string :=
  ["--keep-foreign-metadata"; "--replay-gain"; "--mid-side"; "--best";
   "--verify"; "--output-name"].
Definition options_decode_flac : list string := ["--decode"; "--output-name"].

Definition dict_encode_tool_windows : dict tool_entry :=
  [("opus", ("opusenc.exe", options_encode_opus));
   ("flac", ("flac.exe", options_encode_flac))].
Definition dict_decode_tool_windows : dict tool_entry :=
  [("opus", ("opusdec.exe", options_decode_opus));
   ("flac", ("flac.exe", options_decode_flac))].
Definition dict_encode_tool_linux : dict tool_entry :=
  [("opus", ("/usr/bin/opusenc", options_encode_opus));
   ("flac", ("/usr/bin/flac", options_encode_flac))].
Definition dict_decode_tool_linux : dict tool_entry :=
  [("opus", ("/usr/bin/opusdec", options_decode_opus));
   ("flac", ("/usr/bin/flac", options_decode_flac))].

(** [platform] is the value of [platform.system()]. *)
Definition dict_transcode_tool_platform_get
    (platform operation_transcode : string) : registry :=
  let '(dict_valid_source, dict_valid_target) :=
    if String.eqb operation_transcode "encode" then
      ([(opus, valid_encode_source_for_opus); (flac, valid_encode_source_for_flac)],
       [(opus, valid_encode_target_for_opus_source);
        (flac, valid_encode_target_for_flac_source)])
    else
      ([(opus, valid_decode_source_for_opus); (flac, valid_decode_source_for_flac)],
       [(opus, valid_decode_target_for_opus); (flac, valid_decode_target_for_flac)])
  in
  let dict_transcode_tool :=
    if String.eqb platform "Windows" then
      if String.eqb operation_transcode "encode" then dict_encode_tool_windows
      else dict_decode_tool_windows
    else
      if String.eqb operation_transcode "encode" then dict_encode_tool_linux
      else dict_decode_tool_linux
  in
  (dict_transcode_tool, dict_valid_source, dict_valid_target).

(** The main and the relevant audio files *)
Definition main_and_relevant_files_for_audio_get (extension_target : string)
  : list string :=
  [extension_target; "mpc"; "jpg"; "jpeg"; "png"; "pls"; "rtf"; "txt"; "accurip"].

(** The path without its extension, and the extension in lower case *)
Definition split_root_extension (source_path : string) : string * string :=
  let '(root, extension) := PosixPath.splitext source_path in
  (root, PyStr.lower (PyStr.rpartition_tail "." extension)).

(** [platform] is the value of [platform.system()]. *)
Definition is_supported_platform (platform : string) : bool :=
  String.eqb platform "Windows" || String.eqb platform "Linux".

(* ------------------------------------------------------------------ *)
(** * StatsAggregator: formatting *)

Definition size_units : list string := [""; "Ki"; "Mi"; "Gi"; "Ti"; "Pi"; "Ei"; "Zi"].

Fixpoint sizeof_fmt_loop (units : list string) (num : spec_float) (suffix : string)
  : string :=
  match units with
  | [] => PyFloat.format_1f num ++ "Yi" ++ suffix
  | unit :: units' =>
      if PyFloat.lt_int (SFabs num) 1024 then PyFloat.format_1f num ++ unit ++ suffix
      else sizeof_fmt_loop units' (PyFloat.div num (PyFloat.of_int 1024)) suffix
  end.

(** [sizeof_fmt(num)] with the default suffix *)
Definition sizeof_fmt (num : Z) : string :=
  sizeof_fmt_loop size_units (PyFloat.of_int num) "B".

Definition obind {A B : Type} (o : option A) (k : A -> option B) : option B :=
  match o with
  | Some a => k a
  | None => None
  end.

Notation "x <-? o ; k" := (obind o (fun x => k))
  (at level 61, o at next level, right associativity).
Notation "' pat <-? o ; k" := (obind o (fun x => match x with pat => k end))
  (at level 61, pat pattern, o at next level, right associativity).

(** The value of the local [seconds] when [total_time_in_hms_get] returns:
    an [int], or the float [round(seconds_raw, 2)] held as hundredths. *)
Inductive seconds_value : Type :=
| SecInt (n : Z)
| SecHundredths (h : Z).

Definition str_seconds (s : seconds_value) : string :=
  match s with
  | SecInt n => PyStr.str_int n
  | SecHundredths h => PyFloat.str_hundredths h
  end.

(** The three locals [hours], [minutes], [seconds] at the [return] of
    [total_time_in_hms_get]; [None] where [round] raises. *)
Definition hms_parts (total_time_ns : Z) : option (Z * Z * seconds_value) :=
  let seconds_raw := PyFloat.int_truediv total_time_ns 1000000000 in
  seconds0 <-? PyFloat.round seconds_raw ;
  '(minutes0, seconds1) <-?
    (if 60 <=? seconds0 then
       m <-? PyFloat.round (PyFloat.int_truediv seconds0 60) ;
       Some (m, seconds0 mod 60)
     else Some (0, seconds0)) ;
  '(hours, minutes) <-?
    (if 60 <=? minutes0 then
       h <-? PyFloat.round (PyFloat.int_truediv minutes0 60) ;
       Some (h, minutes0 mod 60)
     else Some (0, minutes0)) ;
  let not_hours_and_minutes := negb (negb (hours =? 0) && negb (minutes =? 0)) in
  seconds <-?
    (if not_hours_and_minutes
        && (PyFloat.lt_int seconds_raw 1 && PyFloat.gt_int seconds_raw 0) then
       h <-? PyFloat.round2 seconds_raw ; Some (SecHundredths h)
     else if not_hours_and_minutes
             && (PyFloat.lt_int seconds_raw 60 && PyFloat.gt_int seconds_raw 1) then
       s <-? PyFloat.round seconds_raw ; Some (SecInt s)
     else Some (SecInt seconds1)) ;
  Some (hours, minutes, seconds).

(** Convert the time in nanoseconds to hours, minutes and seconds as a string *)
Definition total_time_in_hms_get (total_time_ns : Z) : option string :=
  match hms_parts total_time_ns with
  | None => None
  | Some (hours, minutes, seconds) =>
      Some ((if hours =? 0 then EmptyString else PyStr.str_int hours ++ " hour(s) ") ++
            (if minutes =? 0 then EmptyString else PyStr.str_int minutes ++ " minutes ") ++
            (str_seconds seconds ++ " seconds"))
  end.

(* ------------------------------------------------------------------ *)
(** * The operating system *)

(** What [subprocess.CalledProcessError] and [sys.exc_info()] print as *)
Record CalledProcessError : Type := {
  cpe_stderr : string;
  cpe_output : string;
  cpe_cmd : string;
  cpe_exc_info : string
}.

(** [subprocess.run(..., check = True)]: the captured output on exit status
    zero, [CalledProcessError] on any other status, [OSError] when the
    program cannot be started (no permission to execute it, a file that is
    no executable). *)
Inductive run_result : Type :=
| Completed (stdout : string)
| Failed (error_transcode : CalledProcessError)
| LaunchError.

(** The calls the script makes to the platform. A [bool] next to the new
    world tells whether the call returned ([true]) or raised [OSError],
    [IOError] or [shutil.Error] ([false]). *)
Class OS (W : Type) : Type := {
  platform_system : string;
  os_path_exists : W -> string -> bool;
  os_path_isfile : W -> string -> bool;
  os_path_isdir : W -> string -> bool;
  os_path_abspath : W -> string -> string;
  os_path_getsize : W -> string -> option Z;
  os_walk : W -> string -> list (string * list string);
  shutil_move : W -> string -> string -> W * bool;
  shutil_copy2 : W -> string -> string -> W * bool;
  pathlib_mkdir : W -> string -> W * bool;
  subprocess_run : W -> list string -> W * run_result;
  os_removedirs : W -> string -> W;
  os_chdir : W -> string -> W;
  time_monotonic_ns : W -> Z;
  toast : W -> string -> string -> W;
  logging_init : W -> W * string
}.

(** What the script does to the outside, in order *)
Inductive event : Type :=
| EvPrint (line : string)
| EvMove (file_source target_directory : string) (ok : bool)
| EvCopy (file_source target_directory : string) (ok : bool)
| EvMkdir (directory : string) (ok : bool)
| EvRun (command : list string) (ok : bool)
| EvToast (title message : string)
| EvRemovedirs (directory : string)
| EvChdir (directory : string)
| EvLaunchError (command : list string).

(** The exceptions that can leave a function of the script *)
Inductive exn : Type :=
| AttributeError
| KeyError
| TypeError
| OSError
| UnboundLocalError
| OverflowError.

Inductive result (A : Type) : Type :=
| Ret (a : A)
| Raise (e : exn).

Arguments Ret {A} a.
Arguments Raise {A} e.

(** The attributes the script hangs on its functions. The three
    [dict_*_prev] attributes of [transcode_source_audio] are written and
    never read; they are left out. *)
Record Statics : Type := {
  total_count : Z;
  total_count_moved : Z;
  total_size : Z;
  total_time_ns_relocate : Z;
  total_time_ns_transcode : Z;
  total_count_transcode : Z;
  total_count_source : Z;
  extension_prev : option string;
  is_valid_source_prev : option bool;
  does_transcode_tool_exist_prev : option bool;
  options_prev : option (list string);
  transcode_tool_prev : option string;
  target_prev : option string
}.

Definition statics_init : Statics := {|
  total_count := 0;
  total_count_moved := 0;
  total_size := 0;
  total_time_ns_relocate := 0;
  total_time_ns_transcode := 0;
  total_count_transcode := 0;
  total_count_source := 0;
  extension_prev := None;
  is_valid_source_prev := None;
  does_transcode_tool_exist_prev := None;
  options_prev := None;
  transcode_tool_prev := None;
  target_prev := None
|}.

(** [move_or_copy_file.total_count_moved += 1; .total_count += 1;
    .total_size += size_file] *)
Definition count_move (size_file : Z) (st : Statics) : Statics := {|
  total_count := total_count st + 1;
  total_count_moved := total_count_moved st + 1;
  total_size := total_size st + size_file;
  total_time_ns_relocate := total_time_ns_relocate st;
  total_time_ns_transcode := total_time_ns_transcode st;
  total_count_transcode := total_count_transcode st;
  total_count_source := total_count_source st;
  extension_prev := extension_prev st;
  is_valid_source_prev := is_valid_source_prev st;
  does_transcode_tool_exist_prev := does_transcode_tool_exist_prev st;
  options_prev := options_prev st;
  transcode_tool_prev := transcode_tool_prev st;
  target_prev := target_prev st
|}.

(** [move_or_copy_file.total_size += size_file; .total_count += 1] *)
Definition count_copy (size_file : Z) (st : Statics) : Statics := {|
  total_count := total_count st + 1;
  total_count_moved := total_count_moved st;
  total_size := total_size st + size_file;
  total_time_ns_relocate := total_time_ns_relocate st;
  total_time_ns_transcode := total_time_ns_transcode st;
  total_count_transcode := total_count_transcode st;
  total_count_source := total_count_source st;
  extension_prev := extension_prev st;
  is_valid_source_prev := is_valid_source_prev st;
  does_transcode_tool_exist_prev := does_transcode_tool_exist_prev st;
  options_prev := options_prev st;
  transcode_tool_prev := transcode_tool_prev st;
  target_prev := target_prev st
|}.

(** [build_target_and_operate.total_time_ns_relocate += d] *)
Definition add_time_relocate (d : Z) (st : Statics) : Statics := {|
  total_count := total_count st;
  total_count_moved := total_count_moved st;
  total_size := total_size st;
  total_time_ns_relocate := total_time_ns_relocate st + d;
  total_time_ns_transcode := total_time_ns_transcode st;
  total_count_transcode := total_count_transcode st;
  total_count_source := total_count_source st;
  extension_prev := extension_prev st;
  is_valid_source_prev := is_valid_source_prev st;
  does_transcode_tool_exist_prev := does_transcode_tool_exist_prev st;
  options_prev := options_prev st;
  transcode_tool_prev := transcode_tool_prev st;
  target_prev := target_prev st
|}.

(** [transcode_source_audio.total_count_transcode += 1;
    .total_time_ns_transcode += d] *)
Definition count_transcode (d : Z) (st : Statics) : Statics := {|
  total_count := total_count st;
  total_count_moved := total_count_moved st;
  total_size := total_size st;
  total_time_ns_relocate := total_time_ns_relocate st;
  total_time_ns_transcode := total_time_ns_transcode st + d;
  total_count_transcode := total_count_transcode st + 1;
  total_count_source := total_count_source st;
  extension_prev := extension_prev st;
  is_valid_source_prev := is_valid_source_prev st;
  does_transcode_tool_exist_prev := does_transcode_tool_exist_prev st;
  options_prev := options_prev st;
  transcode_tool_prev := transcode_tool_prev st;
  target_prev := target_prev st
|}.

(** [transcode_source_audio.total_count_source += 1] *)
Definition count_source (st : Statics) : Statics := {|
  total_count := total_count st;
  total_count_moved := total_count_moved st;
  total_size := total_size st;
  total_time_ns_relocate := total_time_ns_relocate st;
  total_time_ns_transcode := total_time_ns_transcode st;
  total_count_transcode := total_count_transcode st;
  total_count_source := total_count_source st + 1;
  extension_prev := extension_prev st;
  is_valid_source_prev := is_valid_source_prev st;
  does_transcode_tool_exist_prev := does_transcode_tool_exist_prev st;
  options_prev := options_prev st;
  transcode_tool_prev := transcode_tool_prev st;
  target_prev := target_prev st
|}.

(** The six [*_prev] attributes of the resolution cache, the counters kept *)
Definition with_cache (e : option string) (t : option string) (v : option bool)
    (x : option bool) (tool : option string) (o : option (list string))
    (st : Statics) : Statics := {|
  total_count := total_count st;
  total_count_moved := total_count_moved st;
  total_size := total_size st;
  total_time_ns_relocate := total_time_ns_relocate st;
  total_time_ns_transcode := total_time_ns_transcode st;
  total_count_transcode := total_count_transcode st;
  total_count_source := total_count_source st;
  extension_prev := e;
  is_valid_source_prev := v;
  does_transcode_tool_exist_prev := x;
  options_prev := o;
  transcode_tool_prev := tool;
  target_prev := t
|}.

Definition set_extension_prev (e : string) (st : Statics) : Statics :=
  with_cache (Some e) (target_prev st) (is_valid_source_prev st)
    (does_transcode_tool_exist_prev st) (transcode_tool_prev st) (options_prev st) st.

Definition set_target_prev (t : string) (st : Statics) : Statics :=
  with_cache (extension_prev st) (Some t) (is_valid_source_prev st)
    (does_transcode_tool_exist_prev st) (transcode_tool_prev st) (options_prev st) st.

Definition set_is_valid_source_prev (v : bool) (st : Statics) : Statics :=
  with_cache (extension_prev st) (target_prev st) (Some v)
    (does_transcode_tool_exist_prev st) (transcode_tool_prev st) (options_prev st) st.

Definition set_does_transcode_tool_exist_prev (x : bool) (st : Statics) : Statics :=
  with_cache (extension_prev st) (target_prev st) (is_valid_source_prev st)
    (Some x) (transcode_tool_prev st) (options_prev st) st.

Definition set_transcode_tool_prev (tool : string) (st : Statics) : Statics :=
  with_cache (extension_prev st) (target_prev st) (is_valid_source_prev st)
    (does_transcode_tool_exist_prev st) (Some tool) (options_prev st) st.

Definition set_options_prev (o : list string) (st : Statics) : Statics :=
  with_cache (extension_prev st) (target_prev st) (is_valid_source_prev st)
    (does_transcode_tool_exist_prev st) (transcode_tool_prev st) (Some o) st.

(** The argument [dict_files_failed]: the one dictionary [main] creates, or
    a value that is no dictionary ([None], or the default [False]). *)
Inductive ledger_arg : Type :=
| TheLedger
| NotADict.

(** The command line after [argparse] *)
Record Args : Type := {
  argv0 : string;
  arg_source : string;
  arg_target : option string;
  arg_percentage : bool;
  arg_encode_to : option string;
  arg_decode_from : option string;
  arg_move_format : option string
}.

(** Truth value of a [str] or [None] *)
Definition truthy (o : option string) : bool :=
  match o with
  | Some s => negb (String.eqb s EmptyString)
  | None => false
  end.

(** Truth value of a [bool] or [None] *)
Definition truthy_bool (o : option bool) : bool :=
  match o with
  | Some b => b
  | None => false
  end.

(** [a == b] where [a] is a [str] and [b] a [str] or [None] *)
Definition eq_str_opt (a : string) (b : option string) : bool :=
  match b with
  | Some b' => String.eqb a b'
  | None => false
  end.

(** The fixed remediation hint recorded for a failed transcode *)
Definition failure_hint : string :=
  nl ++ "If the source is in wav format, transcode to flac. Else, if the source is in flac, transcode to wav, and then back to flac. This is most likely an error due to an incompatible PCM format, or due to the OS character set encoding.".

(* ------------------------------------------------------------------ *)
(** * The program *)

Section Program.

Context {W : Type} {os : OS W}.

(** The world, the function attributes, the failure ledger of [main] and
    the effects so far, the latest first *)
Record Sys : Type := {
  world : W;
  statics : Statics;
  failed : dict string;
  trace : list event
}.

Definition sys_init (w : W) : Sys :=
  {| world := w; statics := statics_init; failed := []; trace := [] |}.

(** Computations: state, trace and exceptions *)
Definition M (A : Type) : Type := Sys -> Sys * result A.

Definition ret {A : Type} (a : A) : M A := fun s => (s, Ret a).

Definition raise {A : Type} (e : exn) : M A := fun s => (s, Raise e).

Definition bind {A B : Type} (c : M A) (k : A -> M B) : M B :=
  fun s =>
    match c s with
    | (s', Ret a) => k a s'
    | (s', Raise e) => (s', Raise e)
    end.

Notation "x <- c ;; k" := (bind c (fun x => k))
  (at level 61, c at next level, right associativity).
Notation "' pat <- c ;; k" := (bind c (fun x => match x with pat => k end))
  (at level 61, pat pattern, c at next level, right associativity).
Notation "c ;; k" := (bind c (fun _ => k))
  (at level 61, right associativity).

Definition get_statics : M Statics := fun s => (s, Ret (statics s)).

Definition get_failed : M (dict string) := fun s => (s, Ret (failed s)).

Definition modify_statics (f : Statics -> Statics) : M unit :=
  fun s => ({| world := world s; statics := f (statics s);
               failed := failed s; trace := trace s |}, Ret tt).

Definition set_failed (d : dict string) : M unit :=
  fun s => ({| world := world s; statics := statics s;
               failed := d; trace := trace s |}, Ret tt).

Definition emit (e : event) : M unit :=
  fun s => ({| world := world s; statics := statics s;
               failed := failed s; trace := e :: trace s |}, Ret tt).

(** A read of the world *)
Definition ask {A : Type} (q : W -> A) : M A := fun s => (s, Ret (q (world s))).

(** A call that changes the world and records an event about its answer *)
Definition call {A : Type} (f : W -> W * A) (ev : A -> event) : M A :=
  fun s =>
    let '(w', a) := f (world s) in
    ({| world := w'; statics := statics s; failed := failed s;
        trace := ev a :: trace s |}, Ret a).

Definition print (line : string) : M unit := emit (EvPrint line).

(** A value that must not be [None] where it is used *)
Definition need {A : Type} (o : option A) : M A :=
  match o with
  | Some a => ret a
  | None => raise TypeError
  end.

(** [d[k]] *)
Definition lookup {V : Type} (d : dict V) (k : string) : M V :=
  match dict_get d k with
  | Some v => ret v
  | None => raise KeyError
  end.

(** [for x in l: body(x)] *)
Fixpoint for_each {A : Type} (l : list A) (body : A -> M unit) : M unit :=
  match l with
  | [] => ret tt
  | x :: l' => body x ;; for_each l' body
  end.

(** [show_toast] *)
Definition show_toast (tooltip_title tooltip_message : string) : M unit :=
  fun s =>
    ({| world := toast (world s) tooltip_title tooltip_message;
        statics := statics s; failed := failed s;
        trace := EvToast tooltip_title tooltip_message :: trace s |}, Ret tt).

(** [print_and_log_spacer] *)
Definition spacer_line (count : Z) (file size_file operation : string) : string :=
  "[File " ++ PyStr.rjust 4 (PyStr.str_int count) ++ "]" ++
  "[" ++ PyStr.rjust 8 size_file ++ "]" ++
  " '" ++ file ++ "' " ++ operation ++ " complete" ++ nl.

Definition print_and_log_spacer (count : Z) (file size_file operation : string)
  : M unit :=
  print (spacer_line count file size_file operation).

(** ** RelocationEngine *)

(** The lines [move_or_copy_file] prints *)
Definition moving_line (file_source size_file_formatted target : string) : string :=
  "Moving '" ++ file_source ++ "' (" ++ size_file_formatted ++ ")" ++ nl ++
  "-> '" ++ target ++ "'".

Definition copying_line (file_source size_file_formatted target : string) : string :=
  "Copying '" ++ file_source ++ "' (" ++ size_file_formatted ++ ")" ++ nl ++
  "-> '" ++ target ++ "'".

Definition move_error_line (file_source target : string) : string :=
  "Error moving file '" ++ file_source ++ "'" ++ nl ++ "-> '" ++ target ++ "'".

Definition copy_error_line (file_source target : string) : string :=
  "Error copying file '" ++ file_source ++ "' to '" ++ target ++ "'".

(** [move_or_copy_file]. In both handlers the second [print] reads the
    attribute [stderr] of the caught error; [OSError] and [shutil.Error]
    have none, so the handler itself raises [AttributeError]. *)
Definition move_or_copy_file
    (file_source target_absolute_directory extension_target : string) : M unit :=
  let '(_, dict_valid_source, _) :=
    dict_transcode_tool_platform_get platform_system "encode" in
  let '(_, extension) := split_root_extension file_source in
  size <- ask (fun w => os_path_getsize w file_source) ;;
  match size with
  | None => raise OSError
  | Some size_file =>
      let size_file_formatted := sizeof_fmt size_file in
      if PyStr.in_tuple extension (dict_keys dict_valid_source) then
        print (moving_line file_source size_file_formatted target_absolute_directory) ;;
        ok <- call (fun w => shutil_move w file_source target_absolute_directory)
                   (EvMove file_source target_absolute_directory) ;;
        if ok : bool then
          modify_statics (count_move size_file) ;;
          st <- get_statics ;;
          print_and_log_spacer (total_count st) file_source size_file_formatted "move"
        else
          print (move_error_line file_source target_absolute_directory) ;;
          raise AttributeError
      else if PyStr.in_tuple extension
                (tl (main_and_relevant_files_for_audio_get extension_target)) then
        print (copying_line file_source size_file_formatted target_absolute_directory) ;;
        ok <- call (fun w => shutil_copy2 w file_source target_absolute_directory)
                   (EvCopy file_source target_absolute_directory) ;;
        if ok : bool then
          modify_statics (count_copy size_file) ;;
          st <- get_statics ;;
          print_and_log_spacer (total_count st) file_source size_file_formatted "copy"
        else
          print (copy_error_line file_source target_absolute_directory) ;;
          raise AttributeError
      else ret tt
  end.

(** [create_directory]. The handler reads the attribute [output] of the
    caught error, which it does not have: a failed creation ends in
    [AttributeError], never in [return False]. *)
Definition create_directory (target_absolute_directory : string) : M bool :=
  present <- ask (fun w => os_path_exists w target_absolute_directory) ;;
  if negb present then
    ok <- call (fun w => pathlib_mkdir w target_absolute_directory)
               (EvMkdir target_absolute_directory) ;;
    if ok : bool then
      print (nl ++ "Created directory '" ++ target_absolute_directory ++ "'" ++ nl) ;;
      ret true
    else
      print ("Error creating target directory path '" ++
             target_absolute_directory ++ "'" ++ nl) ;;
      raise AttributeError
  else ret true.

(** ** PathPlanner *)

(** The directory [build_target_and_operate] relocates into when it is
    called from the walk ([root_source] and [dir_source] not empty) *)
Definition target_directory (root_source dir_source dir_destination : string)
  : string :=
  let path_dir_relative_target :=
    PyStr.partition_tail (root_source ++ PosixPath.sep) dir_source in
  PosixPath.join dir_destination [path_dir_relative_target].

(** The head directory [process_dir] sets up under the destination *)
Definition head_directory (root_source dir_destination : string) : string :=
  if negb (String.eqb root_source dir_destination) then
    PosixPath.join PosixPath.sep
      [dir_destination ++ PosixPath.sep; PosixPath.basename root_source]
  else dir_destination.

(** [build_target_and_operate] *)
Definition build_target_and_operate
    (root_source dir_source file_source dir_destination extension_target : string)
  : M unit :=
  let '(_, extension_source) := split_root_extension file_source in
  if PyStr.in_tuple extension_source
       (main_and_relevant_files_for_audio_get extension_target) then
    time_start <- ask time_monotonic_ns ;;
    let path_file_source := PosixPath.join dir_source [file_source] in
    (if negb (String.eqb root_source EmptyString)
        && negb (String.eqb dir_source EmptyString) then
       let target_absolute_directory :=
         target_directory root_source dir_source dir_destination in
       create_directory target_absolute_directory ;;
       move_or_copy_file path_file_source target_absolute_directory extension_target
     else
       move_or_copy_file (PosixPath.join dir_source [file_source]) dir_destination
         extension_target) ;;
    time_end <- ask time_monotonic_ns ;;
    modify_statics (add_time_relocate (time_end - time_start))
  else ret tt.

(** ** TranscodeDispatcher *)

(** Lines 368 to 390 of [transcode_source_audio]: the values of [target],
    [is_valid_source], [does_transcode_tool_exist], [transcode_tool] and
    [options], from the cache when the extension is that of the previous
    call, from the registry otherwise. [extension_prev] is written before
    the first dictionary lookup. *)
Definition resolve (extension_original extension operation_transcode : string)
  : M (option string * option bool * option bool * option string *
       option (list string)) :=
  st <- get_statics ;;
  if eq_str_opt extension_original (extension_prev st) then
    ret (target_prev st, is_valid_source_prev st, does_transcode_tool_exist_prev st,
         transcode_tool_prev st, options_prev st)
  else
    let '(dict_transcode_tool, dict_valid_source, dict_valid_target) :=
      dict_transcode_tool_platform_get platform_system operation_transcode in
    modify_statics (set_extension_prev extension_original) ;;
    target <- lookup dict_valid_target extension ;;
    modify_statics (set_target_prev target) ;;
    valid_source <- lookup dict_valid_source extension ;;
    let is_valid_source := py_in (PyStr.lower extension_original) valid_source in
    modify_statics (set_is_valid_source_prev is_valid_source) ;;
    entry <- lookup dict_transcode_tool extension ;;
    does_transcode_tool_exist <- ask (fun w => os_path_isfile w (fst entry)) ;;
    modify_statics (set_does_transcode_tool_exist_prev does_transcode_tool_exist) ;;
    modify_statics (set_transcode_tool_prev (fst entry)) ;;
    modify_statics (set_options_prev (snd entry)) ;;
    ret (Some target, Some is_valid_source, Some does_transcode_tool_exist,
         Some (fst entry), Some (snd entry)).

(** The two progress lines and the skip line of [transcode_source_audio] *)
Definition percent_line (percent : Z) : string :=
  nl ++ PyStr.str_int percent ++ "% of files in queue transcoded" ++ nl.

Definition all_done_line : string := "All files in queue transcoded" ++ nl.

Definition skip_line (path_source_audio_file path_target_audio_file : string) : string :=
  "Skipping '" ++ path_source_audio_file ++ "' as transcoded file '" ++
  path_target_audio_file ++ "' already exists".

(** [math.floor((transcoded / source) * 100)], as Python computes it *)
Definition percent_complete (transcoded source : Z) : option Z :=
  PyFloat.floor (PyFloat.mul_int (PyFloat.int_truediv transcoded source) 100).

(** Lines 476 to 488 of [transcode_source_audio] *)
Definition report_percentage : M unit :=
  st <- get_statics ;;
  if negb (total_count_source st =? 0) && negb (total_count_transcode st =? 0) then
    match percent_complete (total_count_transcode st) (total_count_source st) with
    | None => raise OverflowError
    | Some percent =>
        if total_count_transcode st <? total_count_source st then
          print (percent_line percent)
        else
          print all_done_line
    end
  else ret tt.

(** [dict_files_failed[path] = hint] *)
Definition record_failure (dict_files_failed : ledger_arg) (path : string) : M unit :=
  match dict_files_failed with
  | TheLedger => d <- get_failed ;; set_failed (dict_set d path failure_hint)
  | NotADict => raise TypeError
  end.

(** What a call of [subprocess.run] leaves in the trace: a run with its
    outcome, or a program that could not be started *)
Definition run_event (command : list string) (r : run_result) : event :=
  match r with
  | Completed _ => EvRun command true
  | Failed _ => EvRun command false
  | LaunchError => EvLaunchError command
  end.

(** Lines 410 to 465 of [transcode_source_audio]: the tool is run, or
    reported missing. The handler is for [CalledProcessError] only: an
    [OSError] raised when the tool is started leaves the function. *)
Definition invoke_tool (path_source_audio_file path_target_audio_file target : string)
    (does_transcode_tool_exist : option bool) (transcode_tool : option string)
    (options : option (list string)) (dict_files_failed : ledger_arg) : M unit :=
  if truthy_bool does_transcode_tool_exist then
    print (nl ++ "Transcoding '" ++ path_source_audio_file ++ "' to '" ++
           PyStr.capitalize target ++ "' format..." ++ nl) ;;
    time_ns_start <- ask time_monotonic_ns ;;
    tool <- need transcode_tool ;;
    opts <- need options ;;
    let command :=
      ((tool :: path_source_audio_file :: opts) ++ [path_target_audio_file])%list in
    r <- call (fun w => subprocess_run w command) (run_event command) ;;
    match r with
    | Failed error_transcode =>
        print (cpe_stderr error_transcode) ;;
        print (cpe_output error_transcode) ;;
        print (bel ++ "Error transcoding '" ++ path_source_audio_file ++ "'") ;;
        print (bel ++ "Error " ++ cpe_exc_info error_transcode) ;;
        print (nl ++ "Command that resulted in the exception: " ++
               cpe_cmd error_transcode ++ nl) ;;
        record_failure dict_files_failed path_source_audio_file ;;
        show_toast "Error" "Failed to convert one or more files. Check the log."
    | Completed _ =>
        time_ns_end <- ask time_monotonic_ns ;;
        modify_statics (count_transcode (time_ns_end - time_ns_start))
    | LaunchError => raise OSError
    end
  else
    tool <- need transcode_tool ;;
    print ("No such transcode tool as '" ++ tool ++ "'. Is its path correct?").

(** [transcode_source_audio]: the path of the target file, or [None] *)
Definition transcode_source_audio
    (path_source_audio_file format_target operation_transcode : string)
    (percentage_gather : bool) (dict_files_failed : ledger_arg)
  : M (option string) :=
  let '(root, extension_original) := split_root_extension path_source_audio_file in
  let extension := PyStr.lower format_target in
  '(target_o, is_valid_source, does_transcode_tool_exist, transcode_tool, options)
    <- resolve extension_original extension operation_transcode ;;
  target <- need target_o ;;
  let path_target_audio_file := root ++ PosixPath.extsep ++ target in
  if truthy_bool is_valid_source then
    present <- ask (fun w => os_path_exists w path_target_audio_file) ;;
    if negb present then
      if percentage_gather then
        modify_statics count_source ;;
        ret None
      else
        invoke_tool path_source_audio_file path_target_audio_file target
          does_transcode_tool_exist transcode_tool options dict_files_failed ;;
        report_percentage ;;
        ret (Some path_target_audio_file)
    else
      if percentage_gather then ret None
      else
        print (skip_line path_source_audio_file path_target_audio_file) ;;
        report_percentage ;;
        ret (Some path_target_audio_file)
  else ret (Some path_target_audio_file).

(** ** BatchCoordinator *)

(** [delete_empty_directories_in_target]; [OSError] from [os.removedirs] is
    suppressed. The directories are those [os.walk] lists when the loop
    starts. *)
Definition delete_empty_directories_in_target (dir_destination : option string)
  : M unit :=
  dir <- need dir_destination ;;
  print ("Cleaning up '" ++ dir ++
         "' by recursively deleting empty directories created to match the source path...") ;;
  walk <- ask (fun w => os_walk w dir) ;;
  for_each walk (fun entry =>
    call (fun w => (os_removedirs w (fst entry), tt))
         (fun _ => EvRemovedirs (fst entry))) ;;
  print (nl ++ "Done cleaning up '" ++ dir ++ "'" ++ nl).

(** The two nested loops over [os.walk(root_source)]; the listing is the
    one of the world in which the loop starts. *)
Definition walk_files (root_source : string) (body : string -> string -> M unit)
  : M unit :=
  walk <- ask (fun w => os_walk w root_source) ;;
  for_each walk (fun entry =>
    for_each (snd entry) (fun source_file => body (fst entry) source_file)).

(** [process_dir]: the exit code, or [None] after the counting pass *)
Definition process_dir (root_source dir_destination : string)
    (dir_destination_original : option string) (target : string)
    (transcode : option string) (percentage_gather : bool)
    (dict_files_failed : ledger_arg) : M (option Z) :=
  let dir_destination := head_directory root_source dir_destination in
  present <- ask (fun w => os_path_exists w dir_destination) ;;
  ready <- (if present : bool then ret true else create_directory dir_destination) ;;
  if ready : bool then
    (if truthy transcode && negb percentage_gather then
       print (nl ++ "Commencing transcoding by recursing into source path '" ++
              root_source ++ "'..." ++ nl)
     else ret tt) ;;
    (match transcode with
     | Some operation =>
         if truthy transcode then
           walk_files root_source (fun source_dir source_file =>
             transcode_source_audio (PosixPath.join source_dir [source_file]) target
               operation percentage_gather dict_files_failed ;;
             ret tt)
         else ret tt
     | None => ret tt
     end) ;;
    if percentage_gather then ret None
    else
      (if negb (String.eqb root_source dir_destination) then
         print (nl ++ "Relocating transcoded files to the destination '" ++
                dir_destination ++ "'..." ++ nl) ;;
         walk_files root_source (fun source_dir source_file =>
           build_target_and_operate root_source source_dir source_file
             dir_destination target) ;;
         delete_empty_directories_in_target dir_destination_original
       else ret tt) ;;
      ret (Some 0)
  else
    print (bel ++ "No such target directory - '" ++ dir_destination ++ "'. Aborting.") ;;
    ret (Some 1).

(** [process_file]. The local [transcoded_file] is bound only when a
    transcode was asked for; the relocation message reads it all the same. *)
Definition process_file (root_source dir_destination target : string)
    (transcode : option string) (dict_files_failed : ledger_arg) : M Z :=
  present <- ask (fun w => os_path_exists w dir_destination) ;;
  ready <- (if present : bool then ret true else create_directory dir_destination) ;;
  if ready : bool then
    '(root_source', transcoded_file) <-
      (match transcode with
       | Some operation =>
           if truthy transcode then
             returned <- transcode_source_audio root_source target operation false
                           dict_files_failed ;;
             transcoded_file <- need returned ;;
             made <- ask (fun w => os_path_exists w transcoded_file) ;;
             ret (if made : bool then transcoded_file else root_source,
                  Some transcoded_file)
           else ret (root_source, None)
       | None => ret (root_source, None)
       end) ;;
    (if negb (String.eqb root_source' dir_destination) then
       match transcoded_file with
       | None => raise UnboundLocalError
       | Some transcoded =>
           print (nl ++ "Relocating transcoded file '" ++ transcoded ++
                  "' to the destination '" ++ dir_destination ++ "'..." ++ nl) ;;
           build_target_and_operate EmptyString EmptyString root_source'
             dir_destination target
       end
     else ret tt) ;;
    ret 0
  else
    print (bel ++ "No such target directory - '" ++ dir_destination ++ "'. Aborting.") ;;
    ret 1.

(** [statistic_print] *)
Definition statistic_print (transcode : option string)
    (root_source dir_destination : string) : M unit :=
  dict_files_failed <- get_failed ;;
  (match dict_files_failed with
   | [] => ret tt
   | _ :: _ =>
       print (nl ++ bel ++ "Here's a list of " ++
              PyStr.str_int (Z.of_nat (List.length (dict_keys dict_files_failed))) ++
              " files that failed to transcode, with the reason below:" ++ nl) ;;
       for_each dict_files_failed (fun entry =>
         print (fst entry) ;;
         print ("Reason for failure: " ++ snd entry ++ nl))
   end) ;;
  st <- get_statics ;;
  (if truthy transcode then
     match total_time_in_hms_get (total_time_ns_transcode st) with
     | None => raise OverflowError
     | Some hms =>
         print (nl ++ "Total time taken for successfully transcoding " ++
                PyStr.str_int (total_count_transcode st) ++ " files: " ++ hms ++ nl)
     end
   else ret tt) ;;
  if negb (String.eqb root_source dir_destination) then
    match total_time_in_hms_get (total_time_ns_relocate st) with
    | None => raise OverflowError
    | Some hms =>
        print ("Moved (" ++ PyStr.str_int (total_count_moved st) ++
               ") and/or copied (" ++
               PyStr.str_int (total_count st - total_count_moved st) ++
               ") a total of " ++ sizeof_fmt (total_size st) ++ " from " ++
               PyStr.str_int (total_count st) ++ " files in " ++ hms)
    end
  else ret tt.

(** [dir_default_set] *)
Definition dir_default_set (root_source : string) : M string :=
  is_dir <- ask (fun w => os_path_isdir w root_source) ;;
  let dir_destination :=
    if is_dir : bool then root_source else PosixPath.dirname root_source in
  print (nl ++ "Destination not specified; defaulting to the source '" ++
         dir_destination ++ "' itself") ;;
  ret dir_destination.

(** [cwd_change] *)
Definition cwd_change (dir : string) : M unit :=
  here <- ask (fun w => PosixPath.dirname (os_path_abspath w dir)) ;;
  call (fun w => (os_chdir w here, tt)) (fun _ => EvChdir here) ;;
  there <- ask (fun w => PosixPath.dirname (os_path_abspath w dir)) ;;
  print (nl ++ "Changing working directory to '" ++ there ++ "'..." ++ nl).

Definition opt_encode : string := "--encode-to".
Definition opt_decode : string := "--decode-from".
Definition opt_move_format : string := "--move-format".
Definition opt_percentage : string := "--percentage-completion".

(** [main], from the parsed command line to the value it returns *)
Definition main (args : Args) : M Z :=
  if is_supported_platform platform_system then
    call logging_init EvPrint ;;
    let root_source := arg_source args in
    let encode_to := arg_encode_to args in
    let decode_from := arg_decode_from args in
    let move_format := arg_move_format args in
    let percentage_show := arg_percentage args in
    let target_o :=
      if truthy encode_to then encode_to
      else if truthy decode_from then decode_from else move_format in
    match target_o with
    | Some target =>
        if truthy target_o then
          if truthy move_format && percentage_show then
            print (bel ++ "Option '" ++ opt_percentage ++
                   "' cannot be applied with option '" ++ opt_move_format ++ "'") ;;
            ret 1
          else
            cwd_change (argv0 args) ;;
            present <- ask (fun w => os_path_exists w root_source) ;;
            if present : bool then
              let dir_destination_original := arg_target args in
              let transcode :=
                if truthy encode_to then Some "encode"
                else if truthy decode_from then Some "decode" else None in
              dir_destination <-
                (match arg_target args with
                 | Some d => if truthy (arg_target args) then ret d
                             else dir_default_set root_source
                 | None => dir_default_set root_source
                 end) ;;
              set_failed [] ;;
              is_dir <- ask (fun w => os_path_isdir w root_source) ;;
              exit_code <-
                (if is_dir : bool then
                   (if percentage_show then
                      process_dir root_source dir_destination dir_destination_original
                        target transcode true NotADict ;;
                      ret tt
                    else ret tt) ;;
                   code <- process_dir root_source dir_destination
                             dir_destination_original target transcode false TheLedger ;;
                   ret (match code with
                        | Some c => if c =? 0 then 0 else 1
                        | None => 0
                        end)
                 else
                   code <- process_file root_source dir_destination target transcode
                             TheLedger ;;
                   ret (if code =? 0 then 0 else 1)) ;;
              statistic_print transcode root_source dir_destination ;;
              ret exit_code
            else
              print (bel ++ "No such source directory/file to copy from - '" ++
                     root_source ++ "'. Aborting.") ;;
              ret 1
        else
          print (bel ++ "You need to specify one of the options: " ++ opt_encode ++
                 "/" ++ opt_decode ++ "/" ++ opt_move_format ++ ", and its value") ;;
          ret 1
    | None =>
        print (bel ++ "You need to specify one of the options: " ++ opt_encode ++
               "/" ++ opt_decode ++ "/" ++ opt_move_format ++ ", and its value") ;;
        ret 1
    end
  else
    print (bel ++ "Unsupported OS") ;;
    ret 1.

(** The last two lines of the script: [main(sys.argv)] as a statement; the
    value [main] returns is dropped. *)
Definition script (args : Args) : M unit :=
  main args ;;
  ret tt.

(** The exit status of the interpreter: zero when the script runs to its
    end, one when an exception leaves it. *)
Definition process_exit_code {A : Type} (outcome : Sys * result A) : Z :=
  match snd outcome with
  | Ret _ => 0
  | Raise _ => 1
  end.

End Program.

Arguments Sys W : clear implicits.
Arguments M W A : clear implicits.

(* ------------------------------------------------------------------ *)
(** * Observations on states and traces *)

(** Completed moves, completed copies and tool runs recorded in a trace *)
Fixpoint moved_ok (t : list event) : Z :=
  match t with
  | [] => 0
  | EvMove _ _ true :: t' => 1 + moved_ok t'
  | _ :: t' => moved_ok t'
  end.

Fixpoint copied_ok (t : list event) : Z :=
  match t with
  | [] => 0
  | EvCopy _ _ true :: t' => 1 + copied_ok t'
  | _ :: t' => copied_ok t'
  end.

Fixpoint tool_runs (t : list event) : Z :=
  match t with
  | [] => 0
  | EvRun _ _ :: t' => 1 + tool_runs t'
  | _ :: t' => tool_runs t'
  end.

(** How often a line was printed *)
Fixpoint printed (line : string) (t : list event) : Z :=
  match t with
  | [] => 0
  | EvPrint l :: t' => (if String.eqb l line then 1 else 0) + printed line t'
  | _ :: t' => printed line t'
  end.

(** The moves and copies of a trace, attempted or completed *)
Definition is_relocation (e : event) : bool :=
  match e with
  | EvMove _ _ _ | EvCopy _ _ _ => true
  | _ => false
  end.

Definition relocations (t : list event) : list event := filter is_relocation t.

(** The effects in the order in which they happened *)
Definition history {W : Type} (s : Sys W) : list event := rev (trace s).

(** The counters of the relocation step against the trace: processed is
    moved plus copied, and the moved counter counts the moves. *)
Definition counters_inv {W : Type} (s : Sys W) : Prop :=
  total_count (statics s) = moved_ok (trace s) + copied_ok (trace s) /\
  total_count_moved (statics s) = moved_ok (trace s).

(** The extensions that are copied: the tuple of
    [main_and_relevant_files_for_audio_get] without its first entry *)
Definition companion_extensions : list string :=
  tl (main_and_relevant_files_for_audio_get EmptyString).

(** What the relocation step does with a file: the two guards of
    [move_or_copy_file], in their order *)
Inductive action : Type :=
| Move
| Copy
| Ignore.

Definition action_of (file_source extension_target : string) : action :=
  let '(_, dict_valid_source, _) := dict_transcode_tool_platform_get "Linux" "encode" in
  let '(_, extension) := split_root_extension file_source in
  if PyStr.in_tuple extension (dict_keys dict_valid_source) then Move
  else if PyStr.in_tuple extension
            (tl (main_and_relevant_files_for_audio_get extension_target)) then Copy
  else Ignore.

(** The move or the copy that the relocation step makes for the file raises *)
Definition io_fails {W : Type} {os : OS W} (s : Sys W)
    (file_source target_directory extension_target : string) : Prop :=
  match action_of file_source extension_target with
  | Move => snd (shutil_move (world s) file_source target_directory) = false
  | Copy => snd (shutil_copy2 (world s) file_source target_directory) = false
  | Ignore => False
  end.

(** A computation keeps a property of the state *)
Definition preserves {W A : Type} (I : Sys W -> Prop) (c : M W A) : Prop :=
  forall s, I s -> I (fst (c s)).

(** An event that is no completed move and no completed copy *)
Definition is_neutral (e : event) : bool :=
  match e with
  | EvMove _ _ true | EvCopy _ _ true => false
  | _ => true
  end.

(** The entries of the registry that do not depend on the platform *)
Definition valid_sources (operation_transcode format_target : string) : option pyseq :=
  dict_get (snd (fst (dict_transcode_tool_platform_get "Linux" operation_transcode)))
           (PyStr.lower format_target).

Definition output_extension (operation_transcode format_target : string)
  : option string :=
  dict_get (snd (dict_transcode_tool_platform_get "Linux" operation_transcode))
           (PyStr.lower format_target).

Definition is_some {A : Type} (o : option A) : bool :=
  match o with
  | Some _ => true
  | None => false
  end.

(** The resolution cache agrees with the registry for the format and the
    operation of the run: it is empty, or it holds what the registry gives
    for the extension it was filled for. *)
Definition cache_ok (format_target operation_transcode : string) (st : Statics) : bool :=
  match extension_prev st with
  | None => true
  | Some e =>
      match output_extension operation_transcode format_target,
            valid_sources operation_transcode format_target with
      | Some t, Some v =>
          eq_str_opt t (target_prev st)
          && match is_valid_source_prev st with
             | Some b => Bool.eqb b (py_in (PyStr.lower e) v)
             | None => false
             end
          && is_some (does_transcode_tool_exist_prev st)
          && is_some (transcode_tool_prev st)
          && is_some (options_prev st)
      | _, _ => false
      end
  end.

(** The percentage printed for [t] of [s] files, zero when it is not
    computable *)
Definition percent_or_zero (t s : Z) : Z :=
  match percent_complete t s with
  | Some p => p
  | None => 0
  end.

(** For a queue of [s] files: the percentage does not decrease from one
    file to the next, is at most the floor of the exact percentage and at
    most one below it. *)
Definition progress_checked (s : Z) : bool :=
  forallb (fun n =>
             let t := Z.of_nat n in
             (percent_or_zero t s <=? percent_or_zero (t + 1) s)
             && (percent_or_zero t s <=? t * 100 / s)
             && (t * 100 / s - 1 <=? percent_or_zero t s))
          (seq 1 (Z.to_nat s - 1)).

(** The skip outcome of the transcode step between two states: the world,
    the ledger and the counters are the same, no tool was run, and in the
    real pass the skip line was printed, followed by progress lines only. *)
Definition skipped {W : Type} (path out : string) (gather : bool) (s s' : Sys W)
  : Prop :=
  world s' = world s /\
  failed s' = failed s /\
  tool_runs (trace s') = tool_runs (trace s) /\
  total_count_transcode (statics s') = total_count_transcode (statics s) /\
  total_count_source (statics s') = total_count_source (statics s) /\
  (if gather then trace s' = trace s
   else exists lines,
       trace s' = (map EvPrint lines ++ EvPrint (skip_line path out) :: trace s)%list).

(** The percentage line for the two counters is computable, or not due. *)
Definition report_defined (transcoded source : Z) : bool :=
  (source =? 0) || (transcoded =? 0) || is_some (percent_complete transcoded source).

(* ------------------------------------------------------------------ *)
(** * Paths by their parts, and the relocation of one file *)

(** [s.lstrip(".")] *)
Fixpoint lstrip_dots (s : string) : string :=
  match s with
  | EmptyString => EmptyString
  | String c s' => if Ascii.eqb c "." then lstrip_dots s' else s
  end.

(** A path written from its parts: a root and, where there is one, an
    extension after a dot *)
Definition path_of (root : string) (e : option string) : string :=
  match e with
  | Some e => root ++ "." ++ e
  | None => root
  end.

(** The extension of the path in lower case, empty where there is none *)
Definition extension_of (e : option string) : string :=
  match e with
  | Some e => PyStr.lower e
  | None => EmptyString
  end.

(** The parts are the parts of the path: the extension has no dot and no
    separator, and the last component of the root is not made of dots only;
    or there is no extension, and the last component has no dot after the
    dots it starts with. *)
Definition well_split (root : string) (e : option string) : bool :=
  match e with
  | Some e =>
      negb (PosixPath.all_dots (PosixPath.basename root))
      && negb (PyStr.has_char "." e) && negb (PyStr.has_char "/" e)
  | None => negb (PyStr.has_char "." (lstrip_dots (PosixPath.basename root)))
  end.

(** The directory [build_target_and_operate] relocates a file into: the
    planned directory in the walk, the destination for a single file *)
Definition relocation_directory (root_source dir_source dir_destination : string)
  : string :=
  if negb (String.eqb root_source EmptyString)
     && negb (String.eqb dir_source EmptyString)
  then target_directory root_source dir_source dir_destination
  else dir_destination.

(** The state in which [build_target_and_operate] attempts the move or the
    copy: in the walk, after the planned directory was looked for and,
    where missing, created *)
Definition relocation_state {W : Type} {os : OS W}
    (root_source dir_source dir_destination : string) (s : Sys W)
  : Sys W * result bool :=
  if negb (String.eqb root_source EmptyString)
     && negb (String.eqb dir_source EmptyString)
  then create_directory (target_directory root_source dir_source dir_destination) s
  else (s, Ret true).

(** What [build_target_and_operate] does with a file: its own test of the
    extension, then the two guards of [move_or_copy_file] *)
Definition relocation_action (dir_source file_source extension_target : string)
  : action :=
  let '(_, extension_source) := split_root_extension file_source in
  if PyStr.in_tuple extension_source
       (main_and_relevant_files_for_audio_get extension_target)
  then action_of (PosixPath.join dir_source [file_source]) extension_target
  else Ignore.

(** The relocation of the file goes through: where a move or a copy is due,
    the directory is there or is created, the size of the file is read, and
    the move, or the copy, returns. *)
Definition relocation_succeeds {W : Type} {os : OS W} (s : Sys W)
    (root_source dir_source file_source dir_destination extension_target : string)
  : Prop :=
  let prepared := relocation_state root_source dir_source dir_destination s in
  let path := PosixPath.join dir_source [file_source] in
  let directory := relocation_directory root_source dir_source dir_destination in
  match relocation_action dir_source file_source extension_target with
  | Ignore => True
  | Move =>
      snd prepared = Ret true /\
      is_some (os_path_getsize (world (fst prepared)) path) = true /\
      snd (shutil_move (world (fst prepared)) path directory) = true
  | Copy =>
      snd prepared = Ret true /\
      is_some (os_path_getsize (world (fst prepared)) path) = true /\
      snd (shutil_copy2 (world (fst prepared)) path directory) = true
  end.

(* ------------------------------------------------------------------ *)
(** * A small concrete platform

    A world in which the statements can be run: regular files with their
    sizes, directories, one switch for file operations, one for the exit
    status of the external tool and one for whether it can be started. *)

Record TestWorld : Type := {
  tw_files : list (string * Z);
  tw_dirs : list string;
  tw_io_ok : bool;
  tw_tool_ok : bool;
  tw_tool_starts : bool;
  tw_clock : Z
}.

Definition tw_is_file (w : TestWorld) (p : string) : bool :=
  existsb (fun f => String.eqb (fst f) p) (tw_files w).

(** A directory path with or without separators at its end *)
Definition tw_is_dir (w : TestWorld) (p : string) : bool :=
  existsb (String.eqb (PosixPath.rstrip_sep p)) (tw_dirs w).

Definition tw_size (w : TestWorld) (p : string) : option Z := dict_get (tw_files w) p.

Definition tw_tick (w : TestWorld) (files : list (string * Z)) (dirs : list string)
  : TestWorld :=
  {| tw_files := files; tw_dirs := dirs; tw_io_ok := tw_io_ok w;
     tw_tool_ok := tw_tool_ok w; tw_tool_starts := tw_tool_starts w;
     tw_clock := tw_clock w + 1000 |}.

(** The files directly inside directory [d] *)
Definition tw_listdir (w : TestWorld) (d : string) : list string :=
  map (fun f => PosixPath.basename (fst f))
      (filter (fun f => String.eqb (PosixPath.dirname (fst f)) d) (tw_files w)).

(** [os.walk(root)]: the directories at or below [root], each with its
    files; the top is named as [root] was written, the others by joining
    the top and the path below it. *)
Definition tw_walk (w : TestWorld) (root : string) : list (string * list string) :=
  let top := PosixPath.rstrip_sep root in
  flat_map (fun d =>
              if String.eqb d top then [(root, tw_listdir w d)]
              else if String.prefix (top ++ "/") d then
                [(PosixPath.join root [PyStr.drop (String.length (top ++ "/")) d],
                  tw_listdir w d)]
              else [])
           (tw_dirs w).

Definition tw_remove (p : string) (files : list (string * Z)) : list (string * Z) :=
  filter (fun f => negb (String.eqb (fst f) p)) files.

Definition tw_move (w : TestWorld) (src dst : string) : TestWorld * bool :=
  match tw_size w src with
  | Some size =>
      if tw_io_ok w && tw_is_dir w dst then
        (tw_tick w ((tw_remove src (tw_files w)) ++
                    [(PosixPath.join dst [PosixPath.basename src], size)])%list
                 (tw_dirs w), true)
      else (w, false)
  | None => (w, false)
  end.

Definition tw_copy (w : TestWorld) (src dst : string) : TestWorld * bool :=
  match tw_size w src with
  | Some size =>
      if tw_io_ok w && tw_is_dir w dst then
        (tw_tick w (dict_set (tw_files w) (PosixPath.join dst [PosixPath.basename src]) size)
                 (tw_dirs w), true)
      else (w, false)
  | None => (w, false)
  end.

Definition tw_mkdir (w : TestWorld) (d : string) : TestWorld * bool :=
  if tw_io_ok w then
    (tw_tick w (tw_files w) (tw_dirs w ++ [PosixPath.rstrip_sep d])%list, true)
  else (w, false).

(** The external tool writes the file named by its last argument. *)
Definition tw_run (w : TestWorld) (command : list string) : TestWorld * run_result :=
  if negb (tw_tool_starts w) then (w, LaunchError)
  else if tw_tool_ok w then
    (tw_tick w (dict_set (tw_files w) (last command EmptyString) 1) (tw_dirs w),
     Completed EmptyString)
  else
    (tw_tick w (tw_files w) (tw_dirs w),
     Failed {| cpe_stderr := "None"; cpe_output := "ERROR: unsupported format";
               cpe_cmd := "(...)"; cpe_exc_info := "(...)" |}).

Definition TestOS (platform : string) : OS TestWorld := {|
  platform_system := platform;
  os_path_exists := fun w p => tw_is_file w p || tw_is_dir w p;
  os_path_isfile := fun w p => tw_is_file w p || String.prefix "/usr/bin/" p;
  os_path_isdir := tw_is_dir;
  os_path_abspath := fun _ p => PosixPath.join "/home/user" [p];
  os_path_getsize := tw_size;
  os_walk := tw_walk;
  shutil_move := tw_move;
  shutil_copy2 := tw_copy;
  pathlib_mkdir := tw_mkdir;
  subprocess_run := tw_run;
  os_removedirs := fun w _ => w;
  os_chdir := fun w _ => w;
  time_monotonic_ns := tw_clock;
  toast := fun w _ _ => w;
  logging_init := fun w => (w, "Check logging results at '/home/user/.cache/log'" ++ nl)
|}.

Definition linux : OS TestWorld := TestOS "Linux".
Definition darwin : OS TestWorld := TestOS "Darwin".

(** An album: one track to encode, its cover, a file of no interest, and
    two files encoded earlier *)
Definition album : TestWorld := {|
  tw_files := [("/music/Album/track.wav", 4096); ("/music/Album/cover.jpg", 2048);
               ("/music/Album/notes.doc", 10); ("/music/Album/intro.opus", 256);
               ("/music/Album/a/b/old.flac", 512)];
  tw_dirs := ["/music"; "/music/Album"; "/music/Album/a"; "/music/Album/a/b"; "/out"];
  tw_io_ok := true;
  tw_tool_ok := true;
  tw_tool_starts := true;
  tw_clock := 0
|}.

(** The same album on a destination that refuses every file operation *)
Definition album_readonly : TestWorld := {|
  tw_files := tw_files album;
  tw_dirs := tw_dirs album;
  tw_io_ok := false;
  tw_tool_ok := true;
  tw_tool_starts := true;
  tw_clock := 0
|}.

(** The same album with an encoder that is installed but cannot be
    executed *)
Definition album_noexec : TestWorld := {|
  tw_files := tw_files album;
  tw_dirs := tw_dirs album;
  tw_io_ok := true;
  tw_tool_ok := true;
  tw_tool_starts := false;
  tw_clock := 0
|}.

(** [n] tracks [t<n>.wav] ... [t1.wav] in one directory *)
Fixpoint tracks (dir : string) (n : nat) : list (string * Z) :=
  match n with
  | O => []
  | S n' => (dir ++ "/t" ++ PyStr.str_int (Z.of_nat n) ++ ".wav", 1) :: tracks dir n'
  end.

Definition queue (n : nat) : TestWorld := {|
  tw_files := tracks "/in" n;
  tw_dirs := ["/in"];
  tw_io_ok := true;
  tw_tool_ok := true;
  tw_tool_starts := true;
  tw_clock := 0
|}.

(** ** Command lines and states *)

Definition command_line (source : string) (target : option string) (percentage : bool)
    (encode_to decode_from move_format : option string) : Args := {|
  argv0 := "transcode_and_move_audio_files.py";
  arg_source := source;
  arg_target := target;
  arg_percentage := percentage;
  arg_encode_to := encode_to;
  arg_decode_from := decode_from;
  arg_move_format := move_format
|}.

(** [-s /music/Album -t /out -e flac] *)
Definition encode_album : Args :=
  command_line "/music/Album" (Some "/out") false (Some "flac") None None.

(** [-s /music/Album -t out -e flac]: the destination is a relative path *)
Definition encode_album_relative : Args :=
  command_line "/music/Album" (Some "out") false (Some "flac") None None.

(** [-s /music/Album/ -t /out -e flac]: the source is written with a
    separator at its end *)
Definition encode_album_trailing : Args :=
  command_line "/music/Album/" (Some "/out") false (Some "flac") None None.

(** [-s /nowhere -t /out -e flac]: the source does not exist *)
Definition encode_nowhere : Args :=
  command_line "/nowhere" (Some "/out") false (Some "flac") None None.

(** [-s /music/Album -t /out -m flac -p]: two options that exclude each other *)
Definition move_with_percentage : Args :=
  command_line "/music/Album" (Some "/out") true None None (Some "flac").

(** [-s /in -e flac -p]: encode in place and report the percentage *)
Definition encode_queue : Args :=
  command_line "/in" None true (Some "flac") None None.

(** The state after [track.wav] of the album was encoded to FLAC: the output
    [track.flac] exists and the cache is filled for the extension [wav]. *)
Definition album_encoded : Sys TestWorld :=
  fst (transcode_source_audio (os := linux) "/music/Album/track.wav" "flac" "encode"
         false TheLedger (sys_init album)).

(* ------------------------------------------------------------------ *)
(** * Further observations *)

(** Every value a computation returns has a property *)
Definition returns {W A : Type} (P : A -> Prop) (c : M W A) : Prop :=
  forall s a, snd (c s) = Ret a -> P a.

(** The tool runs of a trace that completed *)
Fixpoint runs_ok (t : list event) : Z :=
  match t with
  | [] => 0
  | EvRun _ true :: t' => 1 + runs_ok t'
  | _ :: t' => runs_ok t'
  end.

(** The transcode counter counts the completed tool runs. *)
Definition transcodes_inv {W : Type} (s : Sys W) : Prop :=
  total_count_transcode (statics s) = runs_ok (trace s).

(** What a part of the program leaves alone: the world, the failure
    ledger, the events of the kinds that are watched, and the attributes
    that the view shows. *)
Record Frame : Type := {
  fixes_world : bool;
  fixes_ledger : bool;
  watched : event -> bool;
  view : Statics -> Statics
}.

(** State [s] differs from [s0] only outside the frame. *)
Definition framed {W : Type} (F : Frame) (s0 s : Sys W) : Prop :=
  (fixes_world F = true -> world s = world s0) /\
  (fixes_ledger F = true -> failed s = failed s0) /\
  filter (watched F) (trace s) = filter (watched F) (trace s0) /\
  view F (statics s) = view F (statics s0).

(** The attributes without the source counter and the resolution cache *)
Definition but_source_count_and_cache (st : Statics) : Statics := {|
  total_count := total_count st;
  total_count_moved := total_count_moved st;
  total_size := total_size st;
  total_time_ns_relocate := total_time_ns_relocate st;
  total_time_ns_transcode := total_time_ns_transcode st;
  total_count_transcode := total_count_transcode st;
  total_count_source := 0;
  extension_prev := None;
  is_valid_source_prev := None;
  does_transcode_tool_exist_prev := None;
  options_prev := None;
  transcode_tool_prev := None;
  target_prev := None
|}.

(** The attributes of the relocation step only *)
Definition relocation_counters (st : Statics) : Statics := {|
  total_count := total_count st;
  total_count_moved := total_count_moved st;
  total_size := total_size st;
  total_time_ns_relocate := total_time_ns_relocate st;
  total_time_ns_transcode := 0;
  total_count_transcode := 0;
  total_count_source := 0;
  extension_prev := None;
  is_valid_source_prev := None;
  does_transcode_tool_exist_prev := None;
  options_prev := None;
  transcode_tool_prev := None;
  target_prev := None
|}.

Definition is_print (e : event) : bool :=
  match e with
  | EvPrint _ => true
  | _ => false
  end.

Definition is_print_or_mkdir (e : event) : bool :=
  match e with
  | EvPrint _ | EvMkdir _ _ => true
  | _ => false
  end.

Definition is_relocation_or_cleanup (e : event) : bool :=
  match e with
  | EvMove _ _ _ | EvCopy _ _ _ | EvRemovedirs _ => true
  | _ => false
  end.

Definition is_print_run_or_toast (e : event) : bool :=
  match e with
  | EvPrint _ | EvRun _ _ | EvLaunchError _ | EvToast _ _ => true
  | _ => false
  end.

(** The counting pass over an existing head directory: nothing but the
    source counter and the cache *)
Definition counting_frame : Frame := {|
  fixes_world := true;
  fixes_ledger := true;
  watched := fun _ => true;
  view := but_source_count_and_cache
|}.

(** The counting pass in general: it may create the head directory and say so *)
Definition counting_frame_with_mkdir : Frame := {|
  fixes_world := false;
  fixes_ledger := true;
  watched := fun e => negb (is_print_or_mkdir e);
  view := but_source_count_and_cache
|}.

(** A pass without relocation *)
Definition relocation_frame : Frame := {|
  fixes_world := false;
  fixes_ledger := false;
  watched := is_relocation_or_cleanup;
  view := relocation_counters
|}.

(** The transcode step: to the outside it prints, runs the tool and
    notifies, and nothing else *)
Definition transcode_frame : Frame := {|
  fixes_world := false;
  fixes_ledger := false;
  watched := fun e => negb (is_print_run_or_toast e);
  view := relocation_counters
|}.

(** A function that reports: it prints, and nothing else *)
Definition report_frame : Frame := {|
  fixes_world := true;
  fixes_ledger := true;
  watched := fun e => negb (is_print e);
  view := fun st => st
|}.

(** The tool and its options for a format, as the registry gives them on a
    platform *)
Definition tool_for (platform operation_transcode format_target : string)
  : option tool_entry :=
  dict_get (fst (fst (dict_transcode_tool_platform_get platform operation_transcode)))
           (PyStr.lower format_target).

(** The line that announces a tool run *)
Definition transcoding_line (path_source_audio_file target : string) : string :=
  nl ++ "Transcoding '" ++ path_source_audio_file ++ "' to '" ++
  PyStr.capitalize target ++ "' format..." ++ nl.

(** The line for a tool that is not installed *)
Definition no_tool_line (tool : string) : string :=
  "No such transcode tool as '" ++ tool ++ "'. Is its path correct?".

(** The five lines printed after a failed tool run, the latest first *)
Definition failure_lines (path_source_audio_file : string) (e : CalledProcessError)
  : list string :=
  [nl ++ "Command that resulted in the exception: " ++ cpe_cmd e ++ nl;
   bel ++ "Error " ++ cpe_exc_info e;
   bel ++ "Error transcoding '" ++ path_source_audio_file ++ "'";
   cpe_output e;
   cpe_stderr e].

Definition is_completed_run (e : event) : bool :=
  match e with
  | EvRun _ true => true
  | _ => false
  end.

Definition is_failed_run (e : event) : bool :=
  match e with
  | EvRun _ false => true
  | _ => false
  end.

(** The failure ledger against the trace: every failed tool run has its
    source file, the second word of the command, in the ledger with the
    fixed hint, and every file of the ledger is the source file of a failed
    tool run. *)
Definition ledger_inv {W : Type} (s : Sys W) : Prop :=
  (forall command, In (EvRun command false) (trace s) ->
     exists tool path rest,
       command = tool :: path :: rest /\
       dict_get (failed s) path = Some failure_hint) /\
  (forall path, In path (dict_keys (failed s)) ->
     exists tool rest, In (EvRun (tool :: path :: rest) false) (trace s)).

(** The decomposition of [k] whole seconds that [total_time_in_hms_get]
    arrives at is the exact one. *)
Definition hms_exact (k : Z) : bool :=
  match hms_parts (k * 1000000000) with
  | Some (hours, minutes, SecInt seconds) =>
      (hours =? k / 3600) && (minutes =? k mod 3600 / 60) && (seconds =? k mod 60)
  | _ => false
  end.

(** The seconds of the decomposition are the exact ones. *)
Definition hms_seconds_exact (k : Z) : bool :=
  match hms_parts (k * 1000000000) with
  | Some (_, _, SecInt seconds) => seconds =? k mod 60
  | _ => false
  end.

(** Where rounding the minutes to the nearest integer, ties to even, gives
    the whole minutes *)
Definition rounds_down (k : Z) : bool :=
  (k <? 60) || (k mod 60 <? 30) || ((k mod 60 =? 30) && Z.even (k / 60)).

(** The two checks for [k] whole seconds *)
Definition hms_check (i : nat) : bool :=
  let k := Z.of_nat i in
  Bool.eqb (hms_exact k) (rounds_down k) && hms_seconds_exact k.

(** A size of [k] bytes reads [k.0B], and [k + 1] KiB read [(k+1).0KiB] *)
Definition sizeof_fmt_check (i : nat) : bool :=
  let k := Z.of_nat i in
  String.eqb (sizeof_fmt k) (PyStr.str_int k ++ ".0B")
  && String.eqb (sizeof_fmt (1024 * (k + 1)))
       (if k + 1 <? 1024 then PyStr.str_int (k + 1) ++ ".0KiB" else "1.0MiB").

(** The album with an encoder that exits with an error *)
Definition album_badtool : TestWorld := {|
  tw_files := tw_files album;
  tw_dirs := tw_dirs album;
  tw_io_ok := true;
  tw_tool_ok := false;
  tw_tool_starts := true;
  tw_clock := 0
|}.

(** A Windows platform: the tools are bare names, looked for in the
    working directory *)
Definition windows : OS TestWorld := TestOS "Windows".

(* ------------------------------------------------------------------ *)
(** * Properties *)

(** Unfolds the operations of [M], and nothing else *)
Ltac run_m :=
  cbv beta iota zeta delta
    [bind ask call print emit ret raise modify_statics get_statics get_failed
     set_failed need lookup show_toast print_and_log_spacer
     world statics failed trace].

(** ** The registry *)

Lemma registry_encode (platform : string) :
  dict_transcode_tool_platform_get platform "encode" =
  (if String.eqb platform "Windows" then dict_encode_tool_windows
   else dict_encode_tool_linux,
   [(opus, valid_encode_source_for_opus); (flac, valid_encode_source_for_flac)],
   [(opus, valid_encode_target_for_opus_source);
    (flac, valid_encode_target_for_flac_source)]).
Proof. reflexivity. Qed.

Lemma in_tuple_In (x : string) (t : list string) :
  PyStr.in_tuple x t = true <-> In x t.
Proof.
  unfold PyStr.in_tuple. rewrite existsb_exists. split.
  - intros [y [Hy He]]. apply String.eqb_eq in He. now subst.
  - intros H. exists x. split; [assumption | apply String.eqb_refl].
Qed.

Lemma in_tuple_keys (x : string) :
  PyStr.in_tuple x [opus; flac] = true <-> x = "opus" \/ x = "flac".
Proof.
  rewrite in_tuple_In. simpl. unfold opus, flac. intuition congruence.
Qed.

Lemma action_of_eq (file target : string) :
  action_of file target =
  let ext := snd (split_root_extension file) in
  if PyStr.in_tuple ext [opus; flac] then Move
  else if PyStr.in_tuple ext companion_extensions then Copy else Ignore.
Proof. unfold action_of. destruct (split_root_extension file). reflexivity. Qed.

(** ** The path planner *)

Section Paths.

Import PyStr PosixPath.

Lemma app_assoc_s (a b c : string) : (a ++ b) ++ c = a ++ b ++ c.
Proof. induction a as [| x a IH]; cbn; [reflexivity | now rewrite IH]. Qed.

Lemma prefix_app (p s : string) : String.prefix p (p ++ s) = true.
Proof.
  induction p as [| c p IH]; cbn.
  - now destruct s.
  - destruct (ascii_dec c c); [exact IH | congruence].
Qed.

Lemma drop_app (p s : string) : drop (String.length p) (p ++ s) = s.
Proof. induction p as [| c p IH]; cbn; [reflexivity | exact IH]. Qed.

Lemma partition_tail_eq (sep s : string) :
  partition_tail sep s =
  if String.prefix sep s then drop (String.length sep) s
  else match s with
       | EmptyString => EmptyString
       | String _ s' => partition_tail sep s'
       end.
Proof. destruct s; reflexivity. Qed.

Lemma partition_tail_prefix (sep rest : string) :
  partition_tail sep (sep ++ rest) = rest.
Proof. rewrite partition_tail_eq, prefix_app. apply drop_app. Qed.

Lemma prefix_length (a b : string) :
  String.prefix a b = true -> (String.length a <= String.length b)%nat.
Proof.
  revert b. induction a as [| c a IH]; intros b H; cbn; [lia |].
  destruct b as [| d b]; cbn in H; [discriminate |].
  destruct (ascii_dec c d); [| discriminate].
  specialize (IH b H). cbn. lia.
Qed.

Lemma partition_tail_short (sep s : string) :
  (String.length s < String.length sep)%nat -> partition_tail sep s = EmptyString.
Proof.
  induction s as [| c s IH]; intros H; rewrite partition_tail_eq.
  - destruct (String.prefix sep "") eqn:E; [| reflexivity].
    apply prefix_length in E. lia.
  - destruct (String.prefix sep (String c s)) eqn:E.
    + apply prefix_length in E. lia.
    + apply IH. cbn in H. lia.
Qed.

Lemma length_app (a b : string) :
  String.length (a ++ b) = (String.length a + String.length b)%nat.
Proof. induction a as [| c a IH]; cbn; [reflexivity | now rewrite IH]. Qed.

(** [rfind] answers the default, and the character does not occur, or it
    answers an index after which the character does not occur. *)
Lemma rfind_from_spec (c : ascii) (s : string) :
  forall i f,
    (has_char c s = false /\ rfind_from c s i f = f) \/
    (exists n : nat, rfind_from c s i f = i + Z.of_nat n /\
                     has_char c (drop (S n) s) = false).
Proof.
  induction s as [| a s IH]; intros i f; cbn [rfind_from has_char].
  - left. auto.
  - destruct (IH (i + 1) (if Ascii.eqb a c then i else f)) as [[Hno Hr] | [n [Hr Hno]]].
    + destruct (Ascii.eqb a c) eqn:E.
      * right. exists 0%nat. split; [rewrite Hr; lia | exact Hno].
      * left. cbn. auto.
    + right. exists (S n). split; [rewrite Hr; lia | exact Hno].
Qed.

(** The last component of a path holds no separator. *)
Lemma basename_no_sep (p : string) : has_char "/" (basename p) = false.
Proof.
  unfold basename, rfind.
  destruct (rfind_from_spec "/" p 0 (-1)) as [[Hno ->] | [n [-> Hno]]].
  - exact Hno.
  - replace (Z.to_nat (0 + Z.of_nat n + 1)) with (S n) by lia. exact Hno.
Qed.

Lemma no_sep_startswith (s : string) :
  has_char "/" s = false -> startswith sep s = false.
Proof.
  destruct s as [| a s]; [reflexivity |].
  cbn [has_char]. unfold startswith, sep. cbn [String.prefix].
  intros H. apply orb_false_elim in H. destruct H as [H _].
  destruct (ascii_dec "/" a) as [<- | _]; [discriminate | reflexivity].
Qed.

Lemma endswith_app (c : ascii) (a b : string) :
  b <> EmptyString -> endswith_char c (a ++ b) = endswith_char c b.
Proof.
  intros Hb. induction a as [| x a IH]; cbn [append]; [reflexivity |].
  cbn [endswith_char]. destruct (a ++ b) eqn:E.
  - destruct a; cbn in E; [congruence | discriminate].
  - exact IH.
Qed.

Lemma no_sep_endswith (s : string) :
  has_char "/" s = false -> endswith_char "/" s = false.
Proof.
  induction s as [| a s IH]; cbn [has_char endswith_char]; [reflexivity |].
  intros H. apply orb_false_elim in H. destruct H as [Ha Hs].
  destruct s; [exact Ha | exact (IH Hs)].
Qed.

Lemma nonempty_app (a b : string) : b <> EmptyString -> String.eqb (a ++ b) "" = false.
Proof.
  intros H. destruct a; cbn; [| reflexivity]. destruct b; [congruence | reflexivity].
Qed.

(** Under an absolute destination the head directory is the destination
    followed by the last component of the source root. *)
Lemma head_directory_absolute (root_source dir_destination : string) :
  root_source <> dir_destination ->
  startswith sep dir_destination = true ->
  head_directory root_source dir_destination =
  dir_destination ++ "/" ++ basename root_source.
Proof.
  intros Hne Habs. unfold head_directory.
  apply String.eqb_neq in Hne. rewrite Hne. cbn [negb].
  unfold join. cbn [fold_left]. unfold join2 at 2.
  assert (Habs' : startswith sep (dir_destination ++ sep) = true).
  { destruct dir_destination as [| a d]; [discriminate |].
    unfold startswith, sep in *. cbn [String.prefix append] in *.
    destruct (ascii_dec "/" a); [now destruct (d ++ "/") | discriminate]. }
  rewrite Habs'. unfold join2.
  rewrite (no_sep_startswith _ (basename_no_sep root_source)).
  rewrite endswith_app by discriminate. cbn [endswith_char sep].
  rewrite orb_true_r. apply app_assoc_s.
Qed.

(** Destination mirroring, where it holds: for an absolute destination and
    a source root that does not end in a separator, the files of the
    directory [root/rel] are planned into [destination/basename(root)/rel]. *)
Lemma plan_mirrors_source (root_source dir_destination rel : string) :
  root_source <> dir_destination ->
  startswith sep dir_destination = true ->
  basename root_source <> EmptyString ->
  startswith sep rel = false ->
  target_directory root_source (root_source ++ "/" ++ rel)
    (head_directory root_source dir_destination) =
  dir_destination ++ "/" ++ basename root_source ++ "/" ++ rel.
Proof.
  intros Hne Habs Hbase Hrel.
  rewrite head_directory_absolute by assumption.
  unfold target_directory, sep in *.
  replace (root_source ++ "/" ++ rel) with ((root_source ++ "/") ++ rel)
    by apply app_assoc_s.
  rewrite partition_tail_prefix.
  unfold join. cbn [fold_left]. unfold join2, sep. rewrite Hrel.
  rewrite <- (app_assoc_s dir_destination "/" (basename root_source)).
  rewrite nonempty_app by assumption.
  rewrite endswith_app by assumption.
  rewrite (no_sep_endswith _ (basename_no_sep root_source)). cbn [orb].
  rewrite !app_assoc_s. reflexivity.
Qed.

Lemma all_seps_app (s : string) : all_seps (s ++ "/") = all_seps s.
Proof.
  induction s as [| c s IH]; cbn; [reflexivity | now rewrite IH].
Qed.

Lemma rstrip_sep_app (s : string) : rstrip_sep (s ++ "/") = rstrip_sep s.
Proof.
  induction s as [| c s IH]; [reflexivity |].
  change (String c s ++ "/") with (String c (s ++ "/")).
  cbn [rstrip_sep]. 
  change (all_seps (String c (s ++ "/"))) with (Ascii.eqb c "/" && all_seps (s ++ "/"))%bool.
  change (all_seps (String c s)) with (Ascii.eqb c "/" && all_seps s)%bool.
  rewrite all_seps_app, IH. reflexivity.
Qed.

(** For the files of the source root itself the remainder is empty, and
    the plan is the head directory written with a separator at its end: the
    same directory. *)
Lemma plan_at_root (root_source head : string) :
  head <> EmptyString -> endswith_char "/" head = false ->
  target_directory root_source root_source head = head ++ "/" /\
  same_directory (target_directory root_source root_source head) head.
Proof.
  intros Hne Hend. unfold target_directory.
  rewrite partition_tail_short by (rewrite length_app; cbn; lia).
  unfold join. cbn [fold_left]. unfold join2, startswith, sep. cbn [String.prefix].
  apply String.eqb_neq in Hne. rewrite Hne, Hend. cbn [orb].
  change (head ++ "/" ++ "") with (head ++ "/").
  split; [reflexivity | apply rstrip_sep_app].
Qed.

End Paths.

(** ** The extension of a path *)

Section Extensions.

Import PyStr PosixPath.

Lemma lower_ascii_idem (c : ascii) : lower_ascii (lower_ascii c) = lower_ascii c.
Proof. destruct c as [[] [] [] [] [] [] [] []]; reflexivity. Qed.

Lemma lower_idem (s : string) : lower (lower s) = lower s.
Proof.
  induction s as [| c s IH]; cbn [lower]; [reflexivity |].
  now rewrite lower_ascii_idem, IH.
Qed.

Lemma rfind_from_absent (c : ascii) (s : string) :
  forall i f, has_char c s = false -> rfind_from c s i f = f.
Proof.
  induction s as [| a s IH]; intros i f H; cbn [rfind_from]; [reflexivity |].
  cbn [has_char] in H. apply orb_false_elim in H. destruct H as [Ha Hs].
  rewrite Ha. now apply IH.
Qed.

Lemma rfind_from_app (c : ascii) (a b : string) :
  forall i f,
    rfind_from c (a ++ b) i f =
    rfind_from c b (i + Z.of_nat (String.length a)) (rfind_from c a i f).
Proof.
  induction a as [| x a IH]; intros i f.
  - cbn. now rewrite Z.add_0_r.
  - cbn [append rfind_from String.length]. rewrite IH. f_equal. lia.
Qed.

Lemma rfind_from_bound (c : ascii) (s : string) :
  forall i f, f < i + Z.of_nat (String.length s) ->
              rfind_from c s i f < i + Z.of_nat (String.length s).
Proof.
  induction s as [| a s IH]; intros i f H; cbn [rfind_from String.length] in *.
  - lia.
  - specialize (IH (i + 1) (if Ascii.eqb a c then i else f)).
    destruct (Ascii.eqb a c); lia.
Qed.

Lemma rfind_from_lower (c : ascii) (s : string) :
  forall i f, f <= rfind_from c s i f \/ i <= rfind_from c s i f.
Proof.
  induction s as [| a s IH]; intros i f; cbn [rfind_from]; [lia |].
  destruct (IH (i + 1) (if Ascii.eqb a c then i else f)) as [H | H];
    destruct (Ascii.eqb a c); lia.
Qed.

Lemma rfind_range (c : ascii) (s : string) :
  -1 <= rfind c s < Z.of_nat (String.length s).
Proof.
  unfold rfind. split.
  - destruct (rfind_from_lower c s 0 (-1)); lia.
  - apply (rfind_from_bound c s 0 (-1)). lia.
Qed.

(** The last occurrence, with the character that is found there *)
Lemma rfind_from_found (c : ascii) (s : string) :
  forall i f,
    (has_char c s = false /\ rfind_from c s i f = f) \/
    (exists n : nat, rfind_from c s i f = i + Z.of_nat n /\
                     drop n s = String c (drop (S n) s) /\
                     has_char c (drop (S n) s) = false).
Proof.
  induction s as [| a s IH]; intros i f; cbn [rfind_from has_char].
  - left. auto.
  - destruct (IH (i + 1) (if Ascii.eqb a c then i else f))
      as [[Hno Hr] | [n [Hr [Hd Hno]]]].
    + destruct (Ascii.eqb_spec a c) as [-> | Hne].
      * right. exists 0%nat. repeat split; [rewrite Hr; lia | exact Hno].
      * left. cbn. auto.
    + right. exists (S n). repeat split; [rewrite Hr; lia | exact Hd | exact Hno].
Qed.

Lemma take_drop (n : nat) (s : string) : take n s ++ drop n s = s.
Proof.
  revert s. induction n as [| n IH]; intros s; [reflexivity |].
  destruct s as [| c s]; [reflexivity |]. cbn. now rewrite IH.
Qed.

Lemma take_app_exact (a b : string) : take (String.length a) (a ++ b) = a.
Proof. induction a as [| c a IH]; cbn; [now destruct b | now rewrite IH]. Qed.

Lemma drop_app_le (n : nat) (a b : string) :
  (n <= String.length a)%nat -> drop n (a ++ b) = drop n a ++ b.
Proof.
  revert a. induction n as [| n IH]; intros a H; [reflexivity |].
  destruct a as [| c a]; cbn in *; [lia |]. apply IH. lia.
Qed.

Lemma length_drop (n : nat) (s : string) :
  String.length (drop n s) = (String.length s - n)%nat.
Proof.
  revert s. induction n as [| n IH]; intros s; cbn; [lia |].
  destruct s as [| c s]; cbn; [reflexivity | apply IH].
Qed.

Lemma has_char_app (c : ascii) (a b : string) :
  has_char c (a ++ b) = has_char c a || has_char c b.
Proof.
  induction a as [| x a IH]; cbn [append has_char]; [reflexivity |].
  now rewrite IH, orb_assoc.
Qed.

Lemma has_char_drop (c : ascii) (n : nat) (s : string) :
  has_char c s = false -> has_char c (drop n s) = false.
Proof.
  intros H. rewrite <- (take_drop n s), has_char_app in H.
  now apply orb_false_elim in H.
Qed.

Lemma all_dots_app (a b : string) : all_dots (a ++ b) = all_dots a && all_dots b.
Proof.
  induction a as [| x a IH]; cbn [append all_dots]; [reflexivity |].
  now rewrite IH, andb_assoc.
Qed.

Lemma splitext_with_extension (root e : string) :
  all_dots (basename root) = false ->
  has_char "." e = false -> has_char "/" e = false ->
  splitext (root ++ "." ++ e) = (root, "." ++ e).
Proof.
  intros Hroot Hdot Hsep. unfold splitext.
  assert (Hd : rfind "." (root ++ "." ++ e) = Z.of_nat (String.length root)).
  { unfold rfind. rewrite rfind_from_app. cbn [append rfind_from].
    rewrite Ascii.eqb_refl. rewrite rfind_from_absent by assumption. lia. }
  assert (Hs : rfind "/" (root ++ "." ++ e) = rfind "/" root).
  { unfold rfind. rewrite rfind_from_app. cbn [append rfind_from].
    change (Ascii.eqb "." "/") with false. cbv iota.
    now rewrite rfind_from_absent by assumption. }
  rewrite Hd, Hs. pose proof (rfind_range "/" root) as Hr.
  assert (Z.ltb (rfind "/" root) (Z.of_nat (String.length root)) = true) as ->
    by (apply Z.ltb_lt; lia).
  cbv zeta.
  rewrite drop_app_le by lia. fold (basename root).
  replace (Z.to_nat (Z.of_nat (String.length root) - (rfind "/" root + 1)))
    with (String.length (basename root))
    by (unfold basename; rewrite length_drop; lia).
  rewrite take_app_exact, Hroot.
  rewrite Nat2Z.id. rewrite take_app_exact.
  rewrite drop_app_le by lia.
  replace (drop (String.length root) root) with "".
  - reflexivity.
  - clear. induction root as [| c r IH]; [reflexivity | exact IH].
Qed.

Lemma rpartition_tail_dot (e : string) :
  has_char "." e = false -> rpartition_tail "." ("." ++ e) = e.
Proof.
  intros H. unfold rpartition_tail, rfind. cbn [append rfind_from].
  rewrite Ascii.eqb_refl. rewrite rfind_from_absent by assumption. reflexivity.
Qed.

(** A path [root.e]: the root, and the extension in lower case *)
Lemma split_with_extension (root e : string) :
  all_dots (basename root) = false ->
  has_char "." e = false -> has_char "/" e = false ->
  split_root_extension (root ++ "." ++ e) = (root, lower e).
Proof.
  intros Hroot Hdot Hsep. unfold split_root_extension.
  rewrite splitext_with_extension by assumption.
  now rewrite rpartition_tail_dot.
Qed.

Lemma rfind_from_all_dots (s : string) :
  forall i f, all_dots s = true -> s <> EmptyString ->
              rfind_from "." s i f = i + Z.of_nat (String.length s) - 1.
Proof.
  induction s as [| a s IH]; intros i f Hd Hne; [congruence |].
  cbn [all_dots] in Hd. apply andb_prop in Hd. destruct Hd as [Ha Hs].
  cbn [rfind_from String.length]. rewrite Ha.
  destruct s as [| b s'].
  - cbn. lia.
  - rewrite IH by (auto; discriminate). cbn [String.length]. lia.
Qed.

Lemma all_dots_take (n : nat) (s : string) : all_dots s = true -> all_dots (take n s) = true.
Proof.
  revert s. induction n as [| n IH]; intros s H; [reflexivity |].
  destruct s as [| c s]; [reflexivity |].
  cbn [all_dots take] in *. apply andb_prop in H. destruct H as [-> H].
  now rewrite IH.
Qed.

(** A path whose last component has no dot after the dots it starts with
    has no extension. *)
Lemma split_without_extension (p dots name : string) :
  basename p = dots ++ name ->
  all_dots dots = true -> has_char "." name = false ->
  split_root_extension p = (p, EmptyString).
Proof.
  intros Hb Hdots Hname. unfold split_root_extension, splitext.
  destruct (Z.ltb (rfind "/" p) (rfind "." p)) eqn:Hlt; [| reflexivity].
  cbv zeta. apply Z.ltb_lt in Hlt.
  fold (basename p). rewrite Hb.
  assert (Hp : p = take (Z.to_nat (rfind "/" p + 1)) p ++ dots ++ name).
  { rewrite <- Hb. unfold basename. now rewrite take_drop. }
  pose proof (rfind_range "/" p) as Hr.
  assert (Hdot : rfind "." p
                 <= rfind "/" p + Z.of_nat (String.length dots)).
  { rewrite Hp at 1. unfold rfind at 1.
    rewrite rfind_from_app, rfind_from_app.
    rewrite (rfind_from_absent "." name) by assumption.
    destruct dots as [| d ds].
    - cbn [rfind_from String.length].
      fold (rfind "." (take (Z.to_nat (rfind "/" p + 1)) p)).
      pose proof (rfind_range "." (take (Z.to_nat (rfind "/" p + 1)) p)) as Ht.
      assert (Hlen : (String.length (take (Z.to_nat (rfind "/" p + 1)) p)
                      <= Z.to_nat (rfind "/" p + 1))%nat).
      { clear. generalize (Z.to_nat (rfind "/" p + 1)). intros n. revert p.
        induction n as [| n IH]; intros p; [cbn; lia |].
        destruct p; cbn; [lia |]. specialize (IH p). lia. }
      lia.
    - rewrite rfind_from_all_dots by (auto; discriminate).
      assert (Hlen : (String.length (take (Z.to_nat (rfind "/" p + 1)) p)
                      <= Z.to_nat (rfind "/" p + 1))%nat).
      { clear. generalize (Z.to_nat (rfind "/" p + 1)). intros n. revert p.
        induction n as [| n IH]; intros p; [cbn; lia |].
        destruct p; cbn; [lia |]. specialize (IH p). lia. }
      lia. }
  replace (take (Z.to_nat (rfind "." p - (rfind "/" p + 1))) (dots ++ name))
    with (take (Z.to_nat (rfind "." p - (rfind "/" p + 1))) dots).
  - now rewrite all_dots_take.
  - assert (Hn : (Z.to_nat (rfind "." p - (rfind "/" p + 1))
                  <= String.length dots)%nat) by lia.
    revert Hn. generalize (Z.to_nat (rfind "." p - (rfind "/" p + 1))).
    clear. intros n. revert dots. induction n as [| n IH]; intros dots H; [reflexivity |].
    destruct dots as [| d ds]; cbn in *; [lia |]. f_equal. apply IH. lia.
Qed.

Lemma lstrip_dots_parts (s : string) :
  exists dots, s = dots ++ lstrip_dots s /\ all_dots dots = true.
Proof.
  induction s as [| c s [dots [IH Hd]]].
  - exists "". split; reflexivity.
  - cbn [lstrip_dots]. destruct (Ascii.eqb c ".") eqn:E.
    + exists (String c dots). split.
      * cbn [append]. now rewrite <- IH.
      * cbn [all_dots]. now rewrite E, Hd.
    + exists "". split; reflexivity.
Qed.

Lemma lstrip_dots_head (s : string) :
  lstrip_dots s = EmptyString \/
  exists c r, lstrip_dots s = String c r /\ Ascii.eqb c "." = false.
Proof.
  induction s as [| c s IH]; [now left |].
  cbn [lstrip_dots]. destruct (Ascii.eqb c ".") eqn:E; [exact IH |].
  right. exists c, s. split; [reflexivity | exact E].
Qed.

(** The parts of a path are what [split_root_extension] returns. *)
Lemma split_root_extension_parts (root : string) (e : option string) :
  well_split root e = true ->
  split_root_extension (path_of root e) = (root, extension_of e).
Proof.
  destruct e as [e |]; cbn [well_split path_of extension_of]; intros H.
  - apply andb_prop in H. destruct H as [H Hsep].
    apply andb_prop in H. destruct H as [Hroot Hdot].
    apply negb_true_iff in Hroot, Hdot, Hsep.
    now apply split_with_extension.
  - apply negb_true_iff in H.
    destruct (lstrip_dots_parts (basename root)) as [dots [Hb Hd]].
    now apply split_without_extension with (dots := dots)
                                           (name := lstrip_dots (basename root)).
Qed.

Lemma rfind_from_endswith (c : ascii) (s : string) :
  forall i f, endswith_char c s = true ->
              rfind_from c s i f = i + Z.of_nat (String.length s) - 1.
Proof.
  induction s as [| a s IH]; intros i f H; [discriminate |].
  cbn [rfind_from String.length]. destruct s as [| b s'].
  - cbn [endswith_char] in H. rewrite H. cbn. lia.
  - cbn [endswith_char] in H. rewrite IH by exact H. cbn [String.length]. lia.
Qed.

(** The last component of a path made of a directory part and a name *)
Lemma basename_app (d x : string) :
  d = EmptyString \/ endswith_char "/" d = true ->
  has_char "/" x = false ->
  basename (d ++ x) = x.
Proof.
  intros Hd Hx. unfold basename, rfind. rewrite rfind_from_app.
  rewrite (rfind_from_absent "/" x) by exact Hx.
  destruct Hd as [-> | Hd].
  - reflexivity.
  - rewrite rfind_from_endswith by exact Hd.
    replace (Z.to_nat (0 + Z.of_nat (String.length d) - 1 + 1)) with (String.length d)
      by lia.
    apply drop_app.
Qed.

Lemma basename_name (x : string) : has_char "/" x = false -> basename x = x.
Proof. intros H. exact (basename_app "" x (or_introl eq_refl) H). Qed.

(** Every name is a root with an extension, or a root without one. *)
Lemma name_has_parts (f : string) :
  has_char "/" f = false ->
  exists root e,
    well_split root e = true /\ f = path_of root e /\ has_char "/" root = false.
Proof.
  intros Hf.
  destruct (has_char "." (lstrip_dots f)) eqn:Hdot.
  - destruct (lstrip_dots_parts f) as [dots [Hparts Hdots]].
    destruct (lstrip_dots_head f) as [He | (c & r & Hc & Hne)];
      [rewrite He in Hdot; discriminate |].
    destruct (rfind_from_found "." (lstrip_dots f) 0 (-1))
      as [[Hno _] | (n & _ & Hn & Hrest)]; [congruence |].
    destruct n as [| n].
    { rewrite Hc in Hn. cbn [drop] in Hn. injection Hn as Hdotc.
      subst c. discriminate. }
    assert (Hrest_sep : has_char "/" (lstrip_dots f) = false).
    { rewrite Hparts, has_char_app in Hf. now apply orb_false_elim in Hf. }
    assert (Hdots_sep : has_char "/" dots = false).
    { rewrite Hparts, has_char_app in Hf. now apply orb_false_elim in Hf. }
    assert (Htake_sep : has_char "/" (take (S n) (lstrip_dots f)) = false).
    { pose proof (take_drop (S n) (lstrip_dots f)) as Htd.
      rewrite <- Htd, has_char_app in Hrest_sep.
      now apply orb_false_elim in Hrest_sep. }
    exists (dots ++ take (S n) (lstrip_dots f)), (Some (drop (S (S n)) (lstrip_dots f))).
    assert (Hroot_sep : has_char "/" (dots ++ take (S n) (lstrip_dots f)) = false).
    { rewrite has_char_app, Hdots_sep, Htake_sep. reflexivity. }
    split; [| split; [| exact Hroot_sep]].
    + cbn [well_split].
      rewrite (basename_name _ Hroot_sep).
      assert (Hnd : all_dots (take (S n) (lstrip_dots f)) = false).
      { rewrite Hc. cbn [take all_dots]. now rewrite Hne. }
      rewrite all_dots_app, Hdots, Hnd, Hrest.
      rewrite has_char_drop by exact Hrest_sep. reflexivity.
    + cbn [path_of]. rewrite app_assoc_s.
      change ("." ++ drop (S (S n)) (lstrip_dots f))
        with (String "." (drop (S (S n)) (lstrip_dots f))).
      rewrite <- Hn. rewrite take_drop. exact Hparts.
  - exists f, None. split; [| split; [reflexivity | exact Hf]].
    cbn [well_split].
    rewrite (basename_name f Hf). now rewrite Hdot.
Qed.

Lemma well_split_app (d root : string) (e : option string) :
  d = EmptyString \/ endswith_char "/" d = true ->
  has_char "/" root = false ->
  well_split root e = true ->
  well_split (d ++ root) e = true /\ path_of (d ++ root) e = d ++ path_of root e.
Proof.
  intros Hd Hroot H. split.
  - destruct e as [e |]; cbn [well_split] in *;
      rewrite (basename_app d root Hd Hroot);
      rewrite (basename_name root Hroot) in H; exact H.
  - destruct e as [e |]; cbn [path_of]; [apply app_assoc_s | reflexivity].
Qed.

(** Every path is a root with an extension, or a root without one. *)
Lemma every_path_has_parts (p : string) :
  exists root e, well_split root e = true /\ p = path_of root e.
Proof.
  destruct (name_has_parts (basename p) (basename_no_sep p))
    as (root & e & Hw & Hb & Hroot).
  assert (Hd : exists d, p = d ++ basename p /\
                         (d = EmptyString \/ endswith_char "/" d = true)).
  { unfold basename, rfind.
    destruct (rfind_from_found "/" p 0 (-1)) as [[Hno ->] | (n & -> & Hn & Hrest)].
    - exists "". split; [reflexivity | now left].
    - replace (Z.to_nat (0 + Z.of_nat n + 1)) with (S n) by lia.
      exists (take n p ++ "/"). split.
      + rewrite app_assoc_s. change ("/" ++ drop (S n) p) with (String "/" (drop (S n) p)).
        rewrite <- Hn. now rewrite take_drop.
      + right. now rewrite endswith_app by discriminate. }
  destruct Hd as (d & Hp & Hd).
  destruct (well_split_app d root e Hd Hroot Hw) as [Hw' Hpath].
  exists (d ++ root), e. split; [exact Hw' |].
  rewrite Hpath, <- Hb. exact Hp.
Qed.

(** The extension of a file of the walk is the extension of its name. *)
Lemma extension_of_joined (dir_source file_source : string) :
  has_char "/" file_source = false \/ dir_source = EmptyString ->
  snd (split_root_extension (join dir_source [file_source]))
  = snd (split_root_extension file_source).
Proof.
  intros [Hf | ->].
  - destruct (name_has_parts file_source Hf) as (root & e & Hw & -> & Hroot).
    assert (Hj : exists d, join dir_source [path_of root e] = d ++ path_of root e /\
                           (d = EmptyString \/ endswith_char "/" d = true)).
    { unfold join. cbn [fold_left]. unfold join2.
      rewrite (no_sep_startswith _ Hf).
      destruct (String.eqb_spec dir_source "") as [-> | Hne].
      - exists "". split; [reflexivity | now left].
      - cbn [orb]. destruct (endswith_char "/" dir_source) eqn:He.
        + exists dir_source. split; [reflexivity | now right].
        + exists (dir_source ++ "/"). split.
          * unfold sep. now rewrite app_assoc_s.
          * right. now rewrite endswith_app by discriminate. }
    destruct Hj as (d & -> & Hd).
    destruct (well_split_app d root e Hd Hroot Hw) as [Hw' <-].
    now rewrite !split_root_extension_parts by assumption.
  - unfold join. cbn [fold_left]. unfold join2.
    destruct (startswith sep file_source); [reflexivity |].
    cbn [String.eqb orb]. reflexivity.
Qed.

End Extensions.

(** ** The relocation step *)

Section Relocation.

Context {W : Type} {os : OS W}.

(** [move_or_copy_file] path by path: the size cannot be read; the file is
    moved, or the move raises; it is copied, or the copy raises; it is
    left alone. *)
Lemma move_or_copy_file_eq (s : Sys W) (file dst target : string) :
  move_or_copy_file file dst target s =
  match os_path_getsize (world s) file with
  | None => (s, Raise OSError)
  | Some size =>
      let ext := snd (split_root_extension file) in
      if PyStr.in_tuple ext [opus; flac] then
        let r := shutil_move (world s) file dst in
        if snd r then
          ({| world := fst r; statics := count_move size (statics s);
              failed := failed s;
              trace := EvPrint (spacer_line (total_count (statics s) + 1) file
                                  (sizeof_fmt size) "move")
                       :: EvMove file dst true
                       :: EvPrint (moving_line file (sizeof_fmt size) dst) :: trace s |},
           Ret tt)
        else
          ({| world := fst r; statics := statics s; failed := failed s;
              trace := EvPrint (move_error_line file dst)
                       :: EvMove file dst false
                       :: EvPrint (moving_line file (sizeof_fmt size) dst) :: trace s |},
           Raise AttributeError)
      else if PyStr.in_tuple ext companion_extensions then
        let r := shutil_copy2 (world s) file dst in
        if snd r then
          ({| world := fst r; statics := count_copy size (statics s);
              failed := failed s;
              trace := EvPrint (spacer_line (total_count (statics s) + 1) file
                                  (sizeof_fmt size) "copy")
                       :: EvCopy file dst true
                       :: EvPrint (copying_line file (sizeof_fmt size) dst) :: trace s |},
           Ret tt)
        else
          ({| world := fst r; statics := statics s; failed := failed s;
              trace := EvPrint (copy_error_line file dst)
                       :: EvCopy file dst false
                       :: EvPrint (copying_line file (sizeof_fmt size) dst) :: trace s |},
           Raise AttributeError)
      else (s, Ret tt)
  end.
Proof.
  unfold move_or_copy_file. rewrite registry_encode.
  destruct (split_root_extension file) as [root ext].
  destruct s as [w st fl tr]. run_m.
  destruct (os_path_getsize w file) as [size|]; [|reflexivity].
  change (dict_keys _) with [opus; flac].
  change (tl (main_and_relevant_files_for_audio_get target)) with companion_extensions.
  cbv beta iota zeta delta [snd].
  destruct (PyStr.in_tuple ext [opus; flac]).
  - destruct (shutil_move w file dst) as [w' [|]]; reflexivity.
  - destruct (PyStr.in_tuple ext companion_extensions); [|reflexivity].
    destruct (shutil_copy2 w file dst) as [w' [|]]; reflexivity.
Qed.

Lemma moved_ok_prints (lines : list string) (t : list event) :
  moved_ok (map EvPrint lines ++ t) = moved_ok t.
Proof. induction lines; cbn; auto. Qed.

(** [create_directory] path by path *)
Lemma create_directory_eq (s : Sys W) (d : string) :
  create_directory d s =
  if os_path_exists (world s) d then (s, Ret true)
  else
    let r := pathlib_mkdir (world s) d in
    if snd r then
      ({| world := fst r; statics := statics s; failed := failed s;
          trace := EvPrint (nl ++ "Created directory '" ++ d ++ "'" ++ nl)
                   :: EvMkdir d true :: trace s |}, Ret true)
    else
      ({| world := fst r; statics := statics s; failed := failed s;
          trace := EvPrint ("Error creating target directory path '" ++ d ++ "'" ++ nl)
                   :: EvMkdir d false :: trace s |}, Raise AttributeError).
Proof.
  unfold create_directory. destruct s as [w st fl tr]. run_m.
  destruct (os_path_exists w d); cbn [negb]; [reflexivity |].
  destruct (pathlib_mkdir w d) as [w' [|]]; reflexivity.
Qed.

(** Looking for the directory, and creating it, is no relocation and
    touches no attribute. *)
Lemma relocation_state_quiet (s : Sys W) (root_source dir_source dir_destination : string) :
  let s1 := fst (relocation_state root_source dir_source dir_destination s) in
  relocations (trace s1) = relocations (trace s) /\
  moved_ok (trace s1) = moved_ok (trace s) /\
  statics s1 = statics s.
Proof.
  cbv zeta. unfold relocation_state.
  destruct (negb (String.eqb root_source "") && negb (String.eqb dir_source ""));
    [| auto].
  rewrite create_directory_eq.
  destruct (os_path_exists (world s) _); [auto |]. cbv zeta.
  destruct (snd (pathlib_mkdir (world s) _)); cbn; auto.
Qed.

(** [build_target_and_operate] as its three steps: the test of the
    extension, the directory, the move or the copy; the time is added when
    the last one returns. *)
Lemma build_target_and_operate_eq (s : Sys W)
    (root_source dir_source file_source dir_destination extension_target : string) :
  build_target_and_operate root_source dir_source file_source dir_destination
    extension_target s =
  if PyStr.in_tuple (snd (split_root_extension file_source))
       (main_and_relevant_files_for_audio_get extension_target)
  then
    match relocation_state root_source dir_source dir_destination s with
    | (s1, Ret _) =>
        match move_or_copy_file (PosixPath.join dir_source [file_source])
                (relocation_directory root_source dir_source dir_destination)
                extension_target s1 with
        | (s2, Ret _) =>
            ({| world := world s2;
                statics := add_time_relocate
                             (time_monotonic_ns (world s2) - time_monotonic_ns (world s))
                             (statics s2);
                failed := failed s2; trace := trace s2 |}, Ret tt)
        | (s2, Raise e) => (s2, Raise e)
        end
    | (s1, Raise e) => (s1, Raise e)
    end
  else (s, Ret tt).
Proof.
  unfold build_target_and_operate, relocation_state, relocation_directory.
  destruct (split_root_extension file_source) as [root ext]. cbn [snd].
  destruct (PyStr.in_tuple ext _); [| reflexivity].
  destruct s as [w st fl tr]. run_m.
  destruct (negb (String.eqb root_source "") && negb (String.eqb dir_source "")).
  - destruct (create_directory _ _) as [s1 [b | e]]; [| reflexivity].
    destruct (move_or_copy_file _ _ _ s1) as [[w2 st2 fl2 tr2] [[] | e]]; reflexivity.
  - destruct (move_or_copy_file _ _ _ _) as [[w2 st2 fl2 tr2] [[] | e]]; reflexivity.
Qed.

Lemma companions_are_no_keys (ext : string) :
  PyStr.in_tuple ext companion_extensions = true -> PyStr.in_tuple ext [opus; flac] = false.
Proof.
  intros H. apply in_tuple_In in H. unfold companion_extensions in H. simpl in H.
  destruct (PyStr.in_tuple ext [opus; flac]) eqn:E; [| reflexivity].
  apply in_tuple_keys in E.
  destruct E as [-> | ->]; intuition discriminate.
Qed.

Lemma gate_eq (ext target : string) :
  PyStr.in_tuple ext (main_and_relevant_files_for_audio_get target) =
  String.eqb ext target || PyStr.in_tuple ext companion_extensions.
Proof. reflexivity. Qed.

(** C1, amended. The target format is [opus] or [flac], as the command line
    allows, and the relocation of the file goes through. A file handed to
    [build_target_and_operate] is moved if and only if its lower-cased
    extension is the target format itself; a file with one of the eight
    companion extensions is copied and no move is made; for any other file,
    a source extension of the format or the other format among them, the
    state is left as it was. The file is a name of the walk, or the path of
    the single file. *)
Theorem moved_iff_extension_is_target (s : Sys W)
    (root_source dir_source file_source dir_destination extension_target : string) :
  extension_target = "opus" \/ extension_target = "flac" ->
  PyStr.has_char "/" file_source = false \/ dir_source = EmptyString ->
  relocation_succeeds s root_source dir_source file_source dir_destination
    extension_target ->
  let ext := snd (split_root_extension file_source) in
  let path := PosixPath.join dir_source [file_source] in
  let directory := relocation_directory root_source dir_source dir_destination in
  let s1 := fst (relocation_state root_source dir_source dir_destination s) in
  let s' := fst (build_target_and_operate root_source dir_source file_source
                   dir_destination extension_target s) in
  (moved_ok (trace s') = moved_ok (trace s) + 1 <-> ext = extension_target) /\
  (ext = extension_target ->
   relocations (trace s') = EvMove path directory true :: relocations (trace s) /\
   world s' = fst (shutil_move (world s1) path directory)) /\
  (In ext companion_extensions ->
   relocations (trace s') = EvCopy path directory true :: relocations (trace s) /\
   moved_ok (trace s') = moved_ok (trace s) /\
   world s' = fst (shutil_copy2 (world s1) path directory)) /\
  (ext <> extension_target -> ~ In ext companion_extensions -> s' = s).
Proof.
  intros Htarget Hname Hok. cbv zeta.
  pose proof (extension_of_joined dir_source file_source Hname) as Hext.
  pose proof (relocation_state_quiet s root_source dir_source dir_destination) as Hquiet.
  cbv zeta in Hquiet. destruct Hquiet as (Hrel & Hmoved & _).
  unfold relocation_succeeds, relocation_action in Hok. cbv zeta in Hok.
  rewrite action_of_eq in Hok. cbv zeta in Hok. rewrite Hext in Hok.
  rewrite build_target_and_operate_eq.
  destruct (split_root_extension file_source) as [root ext]. cbn [snd] in *.
  rewrite gate_eq in *.
  assert (Hkey : PyStr.in_tuple extension_target [opus; flac] = true)
    by now apply in_tuple_keys.
  revert Hok.
  destruct (String.eqb_spec ext extension_target) as [Heq | Hne]; intros Hok;
    [rewrite Heq in Hok, Hext |- * |].
  - (* the extension is the target format: a move *)
    cbn [orb] in *. rewrite Hkey in Hok. destruct Hok as (Hprep & Hsize & Hmove).
    destruct (relocation_state root_source dir_source dir_destination s)
      as [s1 r1]. cbn [fst snd] in *. subst r1.
    rewrite move_or_copy_file_eq. cbv zeta. rewrite Hext, Hkey.
    destruct (os_path_getsize (world s1) _) as [size |]; [| discriminate].
    rewrite Hmove. cbn [fst trace world relocations filter is_relocation moved_ok].
    fold (relocations (trace s1)). rewrite Hrel, Hmoved.
    split; [| split; [| split]].
    + split; [reflexivity | intros _; lia].
    + intros _. split; reflexivity.
    + intros Hc. apply in_tuple_In in Hc. apply companions_are_no_keys in Hc. congruence.
    + intros H. contradiction.
  - cbn [orb] in *. destruct (PyStr.in_tuple ext companion_extensions) eqn:Hcomp.
    + (* a companion extension: a copy *)
      rewrite (companions_are_no_keys ext Hcomp) in Hok.
      destruct Hok as (Hprep & Hsize & Hcopy).
      destruct (relocation_state root_source dir_source dir_destination s)
        as [s1 r1]. cbn [fst snd] in *. subst r1.
      rewrite move_or_copy_file_eq. cbv zeta.
      rewrite Hext, (companions_are_no_keys ext Hcomp), Hcomp.
      destruct (os_path_getsize (world s1) _) as [size |]; [| discriminate].
      rewrite Hcopy. cbn [fst trace world relocations filter is_relocation moved_ok].
      fold (relocations (trace s1)). rewrite Hrel, Hmoved.
      split; [| split; [| split]].
      * split; [intros H; lia | intros H; contradiction].
      * intros H. contradiction.
      * intros _. split; [reflexivity | split; reflexivity].
      * intros _ Hc. exfalso. apply Hc. now apply in_tuple_In.
    + (* neither: the file is not handed on *)
      cbn [fst].
      split; [| split; [| split]].
      * split; [intros H; lia | intros H; contradiction].
      * intros H. contradiction.
      * intros Hc. apply in_tuple_In in Hc. congruence.
      * reflexivity.
Qed.

(** C9. When the move or the copy of the file raises, every function
    attribute keeps its value, the processed count, the moved count and the
    byte total among them, and the trace holds no new completed move or
    copy. *)
Theorem failed_relocation_keeps_statistics (s : Sys W) (file dst target : string) :
  io_fails s file dst target ->
  let s' := fst (move_or_copy_file file dst target s) in
  total_count (statics s') = total_count (statics s) /\
  total_count_moved (statics s') = total_count_moved (statics s) /\
  total_size (statics s') = total_size (statics s) /\
  statics s' = statics s /\
  moved_ok (trace s') = moved_ok (trace s) /\
  copied_ok (trace s') = copied_ok (trace s).
Proof.
  unfold io_fails. rewrite action_of_eq, move_or_copy_file_eq. cbv zeta.
  destruct (os_path_getsize (world s) file) as [size|].
  - destruct (PyStr.in_tuple _ [opus; flac]).
    + intros ->. cbn [fst statics trace moved_ok copied_ok]. repeat split.
    + destruct (PyStr.in_tuple _ companion_extensions).
      * intros ->. cbn [fst statics trace moved_ok copied_ok]. repeat split.
      * contradiction.
  - intros _. cbn [fst]. repeat split.
Qed.

(** One call of the relocation step makes one move, or one copy, or
    neither, and the counters follow. *)
Lemma relocation_step (s : Sys W) (file dst target : string) :
  let s' := fst (move_or_copy_file file dst target s) in
  exists m c : Z,
    ((m = 1 /\ c = 0) \/ (m = 0 /\ c = 1) \/ (m = 0 /\ c = 0)) /\
    moved_ok (trace s') = moved_ok (trace s) + m /\
    copied_ok (trace s') = copied_ok (trace s) + c /\
    total_count (statics s') = total_count (statics s) + m + c /\
    total_count_moved (statics s') = total_count_moved (statics s) + m.
Proof.
  cbv zeta. rewrite move_or_copy_file_eq. cbv zeta.
  destruct (os_path_getsize (world s) file) as [size|].
  - destruct (PyStr.in_tuple _ [opus; flac]).
    + destruct (snd (shutil_move (world s) file dst)).
      * exists 1, 0.
        cbn [fst trace statics moved_ok copied_ok count_move total_count
             total_count_moved].
        repeat split; lia.
      * exists 0, 0. cbn [fst trace statics moved_ok copied_ok]. repeat split; lia.
    + destruct (PyStr.in_tuple _ companion_extensions).
      * destruct (snd (shutil_copy2 (world s) file dst)).
        -- exists 0, 1.
           cbn [fst trace statics moved_ok copied_ok count_copy total_count
                total_count_moved].
           repeat split; lia.
        -- exists 0, 0. cbn [fst trace statics moved_ok copied_ok]. repeat split; lia.
      * exists 0, 0. cbn [fst]. repeat split; lia.
  - exists 0, 0. cbn [fst]. repeat split; lia.
Qed.

(** [build_target_and_operate] hands a file to the relocation step only
    when its extension is the target format or a companion extension. *)
Lemma build_target_and_operate_gate (s : Sys W)
    (root_source dir_source file_source dir_destination extension_target : string) :
  PyStr.in_tuple (snd (split_root_extension file_source))
    (main_and_relevant_files_for_audio_get extension_target) = false ->
  build_target_and_operate root_source dir_source file_source dir_destination
    extension_target s = (s, Ret tt).
Proof.
  unfold build_target_and_operate.
  destruct (split_root_extension file_source) as [root ext]. cbn [snd].
  intros ->. reflexivity.
Qed.

End Relocation.

(** ** The counters of the relocation step, through the whole program *)

Create HintDb pres.

Section Preservation.

Context {W : Type} {os : OS W}.

Variable I : Sys W -> Prop.

Lemma pres_ret {A : Type} (a : A) : preserves I (ret a).
Proof. intros s H. exact H. Qed.

Lemma pres_raise {A : Type} (e : exn) : preserves I (raise (A := A) e).
Proof. intros s H. exact H. Qed.

Lemma pres_bind {A B : Type} (c : M W A) (k : A -> M W B) :
  preserves I c -> (forall a, preserves I (k a)) -> preserves I (bind c k).
Proof.
  intros Hc Hk s H. unfold bind. specialize (Hc s H).
  destruct (c s) as [s' [a | e]]; cbn [fst] in *.
  - apply Hk, Hc.
  - exact Hc.
Qed.

Lemma pres_ask {A : Type} (q : W -> A) : preserves I (ask q).
Proof. intros s H. exact H. Qed.

Lemma pres_get_statics : preserves I get_statics.
Proof. intros s H. exact H. Qed.

Lemma pres_get_failed : preserves I get_failed.
Proof. intros s H. exact H. Qed.

Lemma pres_need {A : Type} (o : option A) : preserves I (need o).
Proof. destruct o; intros s H; exact H. Qed.

Lemma pres_lookup {V : Type} (d : dict V) (k : string) : preserves I (lookup d k).
Proof. unfold lookup. destruct (dict_get d k); intros s H; exact H. Qed.

Lemma pres_for_each {A : Type} (l : list A) (body : A -> M W unit) :
  (forall x, preserves I (body x)) -> preserves I (for_each l body).
Proof.
  intros Hb. induction l as [| x l IH]; cbn [for_each].
  - apply pres_ret.
  - apply pres_bind; [apply Hb | intros _; exact IH].
Qed.

End Preservation.

#[local] Hint Resolve pres_ret pres_raise pres_ask pres_get_statics pres_get_failed
  pres_need pres_lookup : pres.

Section Invariant.

Context {W : Type} {os : OS W}.

Lemma keeps_set_failed (d : dict string) :
  preserves (W := W) counters_inv (set_failed d).
Proof. intros s H. exact H. Qed.

Lemma neutral_counts (e : event) (t : list event) :
  is_neutral e = true ->
  moved_ok (e :: t) = moved_ok t /\ copied_ok (e :: t) = copied_ok t.
Proof.
  destruct e as [ | ? ? [|] | ? ? [|] | | | | | | ]; cbn; intros; try discriminate; auto.
Qed.

Lemma keeps_emit (e : event) :
  is_neutral e = true -> preserves (W := W) counters_inv (emit e).
Proof.
  intros He s [H1 H2]. unfold counters_inv, emit. cbn [fst trace statics].
  destruct (neutral_counts e (trace s) He) as [-> ->]. auto.
Qed.

Lemma keeps_print (line : string) : preserves (W := W) counters_inv (print line).
Proof. apply keeps_emit. reflexivity. Qed.

Lemma keeps_call {A : Type} (f : W -> W * A) (ev : A -> event) :
  (forall a, is_neutral (ev a) = true) -> preserves (W := W) counters_inv (call f ev).
Proof.
  intros He s [H1 H2]. unfold counters_inv, call.
  destruct (f (world s)) as [w' a]. cbn [fst trace statics].
  destruct (neutral_counts (ev a) (trace s) (He a)) as [-> ->]. auto.
Qed.

Lemma keeps_modify (f : Statics -> Statics) :
  (forall st, total_count (f st) = total_count st /\
              total_count_moved (f st) = total_count_moved st) ->
  preserves (W := W) counters_inv (modify_statics f).
Proof.
  intros Hf s [H1 H2]. unfold counters_inv, modify_statics. cbn [fst trace statics].
  destruct (Hf (statics s)) as [-> ->]. auto.
Qed.

Lemma keeps_show_toast (title message : string) :
  preserves (W := W) counters_inv (show_toast title message).
Proof. intros s [H1 H2]. unfold counters_inv, show_toast. cbn. auto. Qed.

Lemma keeps_move_or_copy_file (file dst target : string) :
  preserves (W := W) counters_inv (move_or_copy_file file dst target).
Proof.
  intros s [H1 H2].
  destruct (relocation_step s file dst target) as (m & c & _ & Hm & Hc & Ht & Hv).
  unfold counters_inv. rewrite Hm, Hc, Ht, Hv. lia.
Qed.

End Invariant.

#[local] Hint Resolve keeps_set_failed keeps_print keeps_show_toast
  keeps_move_or_copy_file : pres.

(** One step through a computation: a bind, a loop, a call, a branch *)
Ltac keeps_step :=
  match goal with
  | |- preserves _ (bind _ _) => apply pres_bind; [| intros ?]
  | |- preserves _ (for_each _ _) => apply pres_for_each; intros ?
  | |- preserves _ (call _ _) => apply keeps_call; intros ?; reflexivity
  | |- preserves _ (modify_statics _) => apply keeps_modify; intros ?; split; reflexivity
  | |- preserves _ (if ?b then _ else _) => destruct b
  | |- preserves _ (match ?x with _ => _ end) => destruct x
  | |- preserves _ _ => solve [auto with pres]
  end.

Section ProgramInvariant.
Context {W : Type} {os : OS W}.

Lemma keeps_create_directory (d : string) : preserves (W := W) counters_inv (create_directory d).
Proof. unfold create_directory. repeat keeps_step. Qed.

Hint Resolve keeps_create_directory : pres.

Lemma keeps_build_target_and_operate (a b c d e : string) :
  preserves (W := W) counters_inv (build_target_and_operate a b c d e).
Proof. unfold build_target_and_operate. repeat keeps_step. Qed.

Lemma keeps_resolve (a b c : string) : preserves (W := W) counters_inv (resolve a b c).
Proof. unfold resolve. repeat keeps_step. Qed.

Lemma keeps_report_percentage : preserves (W := W) counters_inv report_percentage.
Proof. unfold report_percentage. repeat keeps_step. Qed.

Lemma keeps_record_failure (l : ledger_arg) (p : string) : preserves (W := W) counters_inv (record_failure l p).
Proof. unfold record_failure. repeat keeps_step. Qed.

Hint Resolve keeps_resolve keeps_report_percentage keeps_record_failure keeps_build_target_and_operate : pres.

Lemma keeps_invoke_tool a b c d e f g : preserves (W := W) counters_inv (invoke_tool a b c d e f g).
Proof.
  unfold invoke_tool.
  repeat first [ keeps_step | apply keeps_call; intros [? | ? |]; reflexivity ].
Qed.

Hint Resolve keeps_invoke_tool : pres.

Lemma keeps_transcode_source_audio a b c d e : preserves (W := W) counters_inv (transcode_source_audio a b c d e).
Proof. unfold transcode_source_audio. repeat keeps_step. Qed.

Hint Resolve keeps_transcode_source_audio : pres.

Lemma keeps_delete a : preserves (W := W) counters_inv (delete_empty_directories_in_target a).
Proof. unfold delete_empty_directories_in_target. repeat keeps_step. Qed.

Lemma keeps_walk_files a b : (forall x y, preserves (W := W) counters_inv (b x y)) -> preserves (W := W) counters_inv (walk_files a b).
Proof. intros H. unfold walk_files. repeat keeps_step. Qed.

Hint Resolve keeps_delete : pres.

Lemma keeps_process_dir a b c d e f g : preserves (W := W) counters_inv (process_dir a b c d e f g).
Proof.
  unfold process_dir.
  repeat (keeps_step || (apply keeps_walk_files; intros ? ?)).
Qed.

Lemma keeps_process_file a b c d e : preserves (W := W) counters_inv (process_file a b c d e).
Proof. unfold process_file. repeat keeps_step. Qed.

Lemma keeps_statistic_print a b c : preserves (W := W) counters_inv (statistic_print a b c).
Proof. unfold statistic_print. repeat keeps_step. Qed.

Lemma keeps_dir_default_set a : preserves (W := W) counters_inv (dir_default_set a).
Proof. unfold dir_default_set. repeat keeps_step. Qed.

Lemma keeps_cwd_change a : preserves (W := W) counters_inv (cwd_change a).
Proof. unfold cwd_change. repeat keeps_step. Qed.

Hint Resolve keeps_process_dir keeps_process_file keeps_statistic_print keeps_dir_default_set keeps_cwd_change : pres.

Lemma keeps_main a : preserves (W := W) counters_inv (main a).
Proof. unfold main. repeat keeps_step. Qed.

End ProgramInvariant.

(** ** The percentage is computable

    [math.floor((t / s) * 100)] raises only when the quotient or the product
    leaves the doubles. For counters below [2 ^ 63] neither does: the
    rounding of a value below [2 ^ 1022] is zero or finite. *)

(** A mantissa of [d] binary digits lies between [2 ^ (d - 1)] and [2 ^ d]. *)
Lemma digits2_pos_bounds (p : positive) :
  2 ^ (Z.pos (digits2_pos p) - 1) <= Z.pos p < 2 ^ Z.pos (digits2_pos p).
Proof.
  induction p as [p IH | p IH |]; cbn [digits2_pos].
  - rewrite Pos2Z.inj_succ.
    replace (Z.succ (Z.pos (digits2_pos p)) - 1) with (Z.succ (Z.pos (digits2_pos p) - 1)) by lia.
    rewrite !Z.pow_succ_r by lia. lia.
  - rewrite Pos2Z.inj_succ.
    replace (Z.succ (Z.pos (digits2_pos p)) - 1) with (Z.succ (Z.pos (digits2_pos p) - 1)) by lia.
    rewrite !Z.pow_succ_r by lia. lia.
  - cbn. lia.
Qed.

Lemma Zdigits2_nonneg (m : Z) : 0 <= Zdigits2 m.
Proof. destruct m; cbn; lia. Qed.

Lemma Zdigits2_lt (m : Z) : 0 <= m -> m < 2 ^ Zdigits2 m.
Proof.
  destruct m as [| p | p]; cbn [Zdigits2]; intros H; try lia.
  apply digits2_pos_bounds.
Qed.

Lemma Zdigits2_le (m k : Z) : 0 <= m -> 0 <= k -> m < 2 ^ k -> Zdigits2 m <= k.
Proof.
  destruct m as [| p | p]; cbn [Zdigits2]; intros Hm Hk H; try lia.
  destruct (digits2_pos_bounds p) as [Hlo _].
  assert (2 ^ (Z.pos (digits2_pos p) - 1) < 2 ^ k) by lia.
  apply Z.pow_lt_mono_r_iff in H0; lia.
Qed.

Lemma shr_1_m (mrs : shr_record) :
  0 <= shr_m mrs -> shr_m (shr_1 mrs) = shr_m mrs / 2.
Proof.
  destruct mrs as [m r s]. cbn [shr_m]. intros H.
  destruct m as [| p | p]; [reflexivity | | lia].
  destruct p as [p | p |]; cbn [shr_1 shr_m].
  - rewrite Pos2Z.inj_xI. apply Z.div_unique with (r := 1); lia.
  - rewrite Pos2Z.inj_xO. apply Z.div_unique with (r := 0); lia.
  - reflexivity.
Qed.

(** [p] right shifts divide the mantissa by [2 ^ p]. *)
Lemma iter_shr_1_m (p : positive) :
  forall mrs, 0 <= shr_m mrs -> shr_m (iter_pos shr_1 p mrs) = shr_m mrs / 2 ^ Z.pos p.
Proof.
  induction p as [p IH | p IH |]; intros mrs H; cbn [iter_pos].
  - assert (H1 : 0 <= shr_m (shr_1 mrs)).
    { rewrite shr_1_m by assumption. apply Z.div_pos; lia. }
    assert (H2 : 0 <= shr_m (iter_pos shr_1 p (shr_1 mrs))).
    { rewrite IH by assumption. apply Z.div_pos; [assumption | apply Z.pow_pos_nonneg; lia]. }
    rewrite IH by assumption. rewrite IH by assumption. rewrite shr_1_m by assumption.
    rewrite !Z.div_div by (try apply Z.pow_pos_nonneg; lia).
    f_equal. replace (Z.pos p~1) with (1 + Z.pos p + Z.pos p) by lia.
    rewrite !Z.pow_add_r by lia. lia.
  - assert (H2 : 0 <= shr_m (iter_pos shr_1 p mrs)).
    { rewrite IH by assumption. apply Z.div_pos; [assumption | apply Z.pow_pos_nonneg; lia]. }
    rewrite IH by assumption. rewrite IH by assumption.
    rewrite !Z.div_div by (try apply Z.pow_pos_nonneg; lia).
    f_equal. replace (Z.pos p~0) with (Z.pos p + Z.pos p) by lia.
    rewrite !Z.pow_add_r by lia. lia.
  - rewrite shr_1_m by assumption. reflexivity.
Qed.

(** One [shr_fexp]: the mantissa is shifted right, the exponent follows *)
Lemma shr_fexp_spec (m e : Z) (l : location) :
  0 <= m ->
  let n := Z.max 0 (fexp 53 1024 (Zdigits2 m + e) - e) in
  shr_m (fst (shr_fexp 53 1024 m e l)) = m / 2 ^ n /\
  snd (shr_fexp 53 1024 m e l) = e + n.
Proof.
  intros H n. unfold shr_fexp, shr.
  assert (Hm : shr_m (shr_record_of_loc m l) = m) by (destruct l as [| []]; reflexivity).
  subst n. destruct (fexp 53 1024 (Zdigits2 m + e) - e) as [| p | p]; cbn [fst snd].
  - rewrite Hm. cbn. rewrite Z.div_1_r. split; [reflexivity | lia].
  - rewrite iter_shr_1_m by (rewrite Hm; assumption). rewrite Hm.
    rewrite Z.max_r by lia. split; reflexivity.
  - rewrite Hm. rewrite Z.max_l by lia. cbn. rewrite Z.div_1_r. split; [reflexivity | lia].
Qed.

Lemma fexp_eq (e : Z) : fexp 53 1024 e = Z.max (e - 53) (-1074).
Proof. reflexivity. Qed.

Lemma digits_shift (m n d : Z) :
  0 <= m -> 0 <= n -> Zdigits2 m <= d -> Zdigits2 (m / 2 ^ n) <= Z.max (d - n) 0.
Proof.
  intros Hm Hn Hd.
  assert (Hp : 0 < 2 ^ n) by (apply Z.pow_pos_nonneg; lia).
  assert (Hq : 0 <= m / 2 ^ n) by (apply Z.div_pos; lia).
  assert (Hlt : m < 2 ^ d).
  { eapply Z.lt_le_trans; [apply Zdigits2_lt; assumption |].
    apply Z.pow_le_mono_r; lia. }
  destruct (Z.le_gt_cases n d) as [Hnd | Hnd].
  - rewrite Z.max_l by lia. apply Zdigits2_le; try lia.
    apply Z.div_lt_upper_bound; [lia |].
    rewrite <- Z.pow_add_r by lia. replace (n + (d - n)) with d by lia. assumption.
  - rewrite Z.max_r by lia.
    assert (m / 2 ^ n = 0) as ->; [| reflexivity].
    apply Z.div_small. split; [assumption |].
    eapply Z.lt_le_trans; [exact Hlt |]. apply Z.pow_le_mono_r; lia.
Qed.

Lemma digits_succ (m : Z) : 0 <= m -> Zdigits2 (m + 1) <= Zdigits2 m + 1.
Proof.
  intros H. pose proof (Zdigits2_nonneg m). apply Zdigits2_le; try lia.
  rewrite Z.pow_add_r by lia. pose proof (Zdigits2_lt m H). lia.
Qed.

Lemma round_nearest_even_range (m : Z) (l : location) :
  round_nearest_even m l = m \/ round_nearest_even m l = m + 1.
Proof. destruct l as [| []]; cbn; try (destruct (Z.even m)); auto. Qed.

(** Rounding stays finite while the value is far below the largest double. *)
Lemma binary_round_aux_finite (D : Z) (sx : bool) (mx ex : Z) (lx : location) :
  0 <= mx -> 0 <= D <= 1022 -> ex <= D - 53 -> Zdigits2 mx + ex <= D ->
  binary_round_aux 53 1024 sx mx ex lx = S754_zero sx \/
  exists m e, binary_round_aux 53 1024 sx mx ex lx = S754_finite sx m e /\
              e <= D - 52 /\ Z.pos (digits2_pos m) + e <= D + 1.
Proof.
  intros Hm HD He Hd. unfold binary_round_aux.
  destruct (shr_fexp_spec mx ex lx Hm) as [Hm1 He1].
  destruct (shr_fexp 53 1024 mx ex lx) as [mrs1 e1]. cbn [fst snd] in Hm1, He1.
  set (n1 := Z.max 0 (fexp 53 1024 (Zdigits2 mx + ex) - ex)) in *.
  assert (Hn1 : 0 <= n1) by lia.
  assert (Hm1' : 0 <= shr_m mrs1).
  { rewrite Hm1. apply Z.div_pos; [assumption | apply Z.pow_pos_nonneg; lia]. }
  assert (He1' : e1 <= D - 53).
  { rewrite He1. subst n1. rewrite fexp_eq. lia. }
  assert (Hd1 : Zdigits2 (shr_m mrs1) + e1 <= D).
  { rewrite Hm1, He1.
    pose proof (digits_shift mx n1 (Zdigits2 mx) Hm Hn1 (Z.le_refl _)).
    subst n1. rewrite fexp_eq in *. lia. }
  set (m1r := round_nearest_even (shr_m mrs1) (loc_of_shr_record mrs1)).
  assert (Hm1r : 0 <= m1r /\ Zdigits2 m1r + e1 <= D + 1).
  { subst m1r.
    destruct (round_nearest_even_range (shr_m mrs1) (loc_of_shr_record mrs1)) as [-> | ->].
    - lia.
    - pose proof (digits_succ (shr_m mrs1) Hm1'). lia. }
  destruct Hm1r as [Hm1r Hd1r].
  destruct (shr_fexp_spec m1r e1 loc_Exact Hm1r) as [Hm2 He2].
  destruct (shr_fexp 53 1024 m1r e1 loc_Exact) as [mrs2 e2]. cbn [fst snd] in Hm2, He2.
  set (n2 := Z.max 0 (fexp 53 1024 (Zdigits2 m1r + e1) - e1)) in *.
  assert (Hn2 : 0 <= n2) by lia.
  assert (He2' : e2 <= D - 52).
  { rewrite He2. subst n2. rewrite fexp_eq. lia. }
  assert (Hd2 : Zdigits2 (shr_m mrs2) + e2 <= D + 1).
  { rewrite Hm2, He2.
    pose proof (digits_shift m1r n2 (Zdigits2 m1r) Hm1r Hn2 (Z.le_refl _)).
    subst n2. rewrite fexp_eq in *. lia. }
  assert (Hm2' : 0 <= shr_m mrs2).
  { rewrite Hm2. apply Z.div_pos; [assumption | apply Z.pow_pos_nonneg; lia]. }
  destruct (shr_m mrs2) as [| m | m]; [left; reflexivity | right | lia].
  assert (Z.leb e2 (1024 - 53) = true) as -> by (apply Z.leb_le; lia).
  exists m, e2. cbn [Zdigits2] in Hd2. auto.
Qed.

Lemma of_int_100 : PyFloat.of_int 100 = S754_finite false 7036874417766400 (-46).
Proof. reflexivity. Qed.

Lemma floor_defined (x : spec_float) :
  (x = S754_zero false \/ exists m e, x = S754_finite false m e) ->
  exists p, PyFloat.floor x = Some p.
Proof. intros [-> | (m & e & ->)]; cbn; eauto. Qed.

(** The quotient of two counters is zero or a finite double. *)
Lemma int_truediv_finite (t s : Z) :
  0 < t < 2 ^ 63 -> 0 < s ->
  PyFloat.int_truediv t s = S754_zero false \/
  exists m e, PyFloat.int_truediv t s = S754_finite false m e /\
              e <= 48 /\ Z.pos (digits2_pos m) + e <= 101.
Proof.
  intros Ht Hs. destruct t as [| pt | pt]; try lia. destruct s as [| ps | ps]; try lia.
  unfold PyFloat.int_truediv, PyFloat.raw, SFdiv, SFdiv_core_binary.
  cbn [xorb].
  set (e' := Z.min (fexp PyFloat.prec PyFloat.emax
                      (Zdigits2 (Z.pos pt) + 0 - (Zdigits2 (Z.pos ps) + 0))) (0 - 0)).
  assert (He' : e' <= 0) by (subst e'; lia).
  set (m' := match 0 - 0 - e' with
             | 0 => Z.pos pt
             | Z.pos _ => Z.shiftl (Z.pos pt) (0 - 0 - e')
             | Z.neg _ => 0
             end).
  assert (Hm' : 0 <= m' /\ m' < 2 ^ (63 - e')).
  { subst m'. destruct (0 - 0 - e') as [| p | p] eqn:E; try lia.
    - replace (63 - e') with 63 by lia. lia.
    - rewrite Z.shiftl_mul_pow2 by lia. rewrite <- E.
      replace (63 - e') with (63 + (0 - 0 - e')) by lia.
      rewrite Z.pow_add_r by lia.
      assert (0 < 2 ^ (0 - 0 - e')) by (apply Z.pow_pos_nonneg; lia). nia. }
  destruct Hm' as [Hm0 Hm1].
  pose proof (Z_div_mod m' (Z.pos ps) ltac:(lia)) as Hdiv.
  destruct (Z.div_eucl m' (Z.pos ps)) as [q r].
  destruct Hdiv as [Hq Hr].
  assert (Hq0 : 0 <= q) by nia.
  assert (Hq1 : q <= m') by nia.
  apply (binary_round_aux_finite 100); try lia.
  assert (Zdigits2 q <= 63 - e'); [| lia].
  apply Zdigits2_le; lia.
Qed.

Lemma mul_int_100_finite (x : spec_float) :
  (x = S754_zero false \/
   exists m e, x = S754_finite false m e /\ e <= 48 /\ Z.pos (digits2_pos m) + e <= 101) ->
  PyFloat.mul_int x 100 = S754_zero false \/
  exists m e, PyFloat.mul_int x 100 = S754_finite false m e.
Proof.
  unfold PyFloat.mul_int. rewrite of_int_100.
  intros [-> | (m & e & -> & He & Hd)].
  - left. reflexivity.
  - unfold SFmul. cbn [xorb].
    destruct (binary_round_aux_finite 200 false
                (Z.pos (m * 7036874417766400)) (e + -46) loc_Exact) as [H | (m2 & e2 & H & _)];
      try lia.
    + assert (Zdigits2 (Z.pos (m * 7036874417766400)) <= Z.pos (digits2_pos m) + 53); [| lia].
      apply Zdigits2_le; try lia. rewrite Pos2Z.inj_mul.
      rewrite Z.pow_add_r by lia.
      pose proof (digits2_pos_bounds m) as [_ Hm].
      assert (7036874417766400 < 2 ^ 53) by reflexivity. nia.
    + left. exact H.
    + right. eauto.
Qed.

(** [math.floor((t / s) * 100)] does not raise on counters in range. *)
Lemma percent_complete_defined (t s : Z) :
  0 < t < 2 ^ 63 -> 0 < s -> exists p, percent_complete t s = Some p.
Proof.
  intros Ht Hs. unfold percent_complete. apply floor_defined.
  destruct (mul_int_100_finite (PyFloat.int_truediv t s) (int_truediv_finite t s Ht Hs))
    as [H | (m & e & H)]; [left | right]; eauto.
Qed.


(** ** The transcode step *)

Lemma registry_platform_free (platform operation : string) :
  dict_transcode_tool_platform_get platform operation =
  (fst (fst (dict_transcode_tool_platform_get platform operation)),
   snd (fst (dict_transcode_tool_platform_get "Linux" operation)),
   snd (dict_transcode_tool_platform_get "Linux" operation)).
Proof.
  unfold dict_transcode_tool_platform_get.
  destruct (String.eqb operation "encode"), (String.eqb platform "Windows"); reflexivity.
Qed.

Lemma output_extension_key (operation fmt tgt : string) :
  output_extension operation fmt = Some tgt ->
  PyStr.lower fmt = "opus" \/ PyStr.lower fmt = "flac".
Proof.
  unfold output_extension, dict_transcode_tool_platform_get.
  destruct (String.eqb operation "encode"); cbn [snd fst dict_get];
    unfold opus, flac;
    destruct (String.eqb_spec (PyStr.lower fmt) "opus"); auto;
    destruct (String.eqb_spec (PyStr.lower fmt) "flac"); auto; discriminate.
Qed.

Lemma registry_tool (platform operation key : string) :
  key = "opus" \/ key = "flac" ->
  exists entry,
    dict_get (fst (fst (dict_transcode_tool_platform_get platform operation))) key
    = Some entry.
Proof.
  unfold dict_transcode_tool_platform_get.
  intros [-> | ->];
    destruct (String.eqb operation "encode"), (String.eqb platform "Windows");
    cbn; eauto.
Qed.

Lemma eq_str_opt_true (a : string) (b : option string) :
  eq_str_opt a b = true -> b = Some a.
Proof.
  destruct b as [b|]; cbn; [|discriminate].
  intros H. apply String.eqb_eq in H. now subst.
Qed.

Lemma is_some_true {A : Type} (o : option A) : is_some o = true -> exists a, o = Some a.
Proof. destruct o; [eauto | discriminate]. Qed.

Section Transcode.
Context {W : Type} {os : OS W}.

(** With a cache that agrees with the registry, the resolution returns the
    output extension and the validity of the source, from the cache or from
    the registry, and leaves the cache filled for the extension. *)
Lemma resolve_ok (s : Sys W) (ext fmt operation tgt : string) (vs : pyseq) :
  output_extension operation fmt = Some tgt ->
  valid_sources operation fmt = Some vs ->
  cache_ok fmt operation (statics s) = true ->
  exists x tool opts,
    resolve ext (PyStr.lower fmt) operation s =
    ({| world := world s;
        statics := with_cache (Some ext) (Some tgt) (Some (py_in (PyStr.lower ext) vs))
                     (Some x) (Some tool) (Some opts) (statics s);
        failed := failed s; trace := trace s |},
     Ret (Some tgt, Some (py_in (PyStr.lower ext) vs), Some x, Some tool, Some opts)).
Proof.
  intros Ht Hv Hc. unfold resolve.
  destruct s as [w st fl tr]. run_m.
  destruct (eq_str_opt ext (extension_prev st)) eqn:Hhit.
  - apply eq_str_opt_true in Hhit. unfold cache_ok in Hc. cbn [statics] in Hc.
    rewrite Hhit, Ht, Hv in Hc.
    apply andb_prop in Hc. destruct Hc as [Hc Ho].
    apply andb_prop in Hc. destruct Hc as [Hc Htool].
    apply andb_prop in Hc. destruct Hc as [Hc Hx].
    apply andb_prop in Hc. destruct Hc as [Htg Hval].
    apply eq_str_opt_true in Htg.
    apply is_some_true in Ho. destruct Ho as [opts Ho].
    apply is_some_true in Htool. destruct Htool as [tool Htool].
    apply is_some_true in Hx. destruct Hx as [x Hx].
    destruct (is_valid_source_prev st) as [b|] eqn:Hb; [|discriminate].
    apply Bool.eqb_prop in Hval. subst b.
    exists x, tool, opts.
    destruct st; cbn in *. subst. reflexivity.
  - rewrite registry_platform_free.
    fold (valid_sources operation fmt). fold (output_extension operation fmt).
    unfold valid_sources, output_extension in *.
    destruct (registry_tool platform_system operation (PyStr.lower fmt)
                (output_extension_key _ _ _ Ht)) as [entry He].
    cbv beta iota.
    rewrite Ht. cbv beta iota. rewrite Hv. cbv beta iota. rewrite He. cbv beta iota.
    exists (os_path_isfile w (fst entry)), (fst entry), (snd entry).
    reflexivity.
Qed.


Lemma cache_ok_filled (fmt operation ext tgt : string) (vs : pyseq)
    (x : bool) (tool : string) (opts : list string) (st : Statics) :
  output_extension operation fmt = Some tgt ->
  valid_sources operation fmt = Some vs ->
  cache_ok fmt operation
    (with_cache (Some ext) (Some tgt) (Some (py_in (PyStr.lower ext) vs))
       (Some x) (Some tool) (Some opts) st) = true.
Proof.
  intros Ht Hv. unfold cache_ok. cbn [extension_prev with_cache].
  rewrite Ht, Hv.
  cbn [target_prev is_valid_source_prev does_transcode_tool_exist_prev
       transcode_tool_prev options_prev with_cache eq_str_opt is_some].
  rewrite String.eqb_refl, Bool.eqb_reflx. reflexivity.
Qed.

(** The progress report prints at most one line and changes nothing else. *)
Lemma report_percentage_frame (s : Sys W) :
  exists lines r,
    report_percentage s =
    ({| world := world s; statics := statics s; failed := failed s;
        trace := (map EvPrint lines ++ trace s)%list |}, r) /\
    (report_defined (total_count_transcode (statics s))
                    (total_count_source (statics s)) = true -> r = Ret tt).
Proof.
  unfold report_percentage, report_defined. destruct s as [w st fl tr]. run_m.
  destruct (total_count_source st =? 0); cbn [negb andb orb].
  - exists [], (Ret tt). split; [reflexivity | auto].
  - destruct (total_count_transcode st =? 0); cbn [negb andb orb].
    + exists [], (Ret tt). split; [reflexivity | auto].
    + destruct (percent_complete (total_count_transcode st) (total_count_source st))
        as [percent|].
      * destruct (total_count_transcode st <? total_count_source st).
        -- exists [percent_line percent], (Ret tt). split; [reflexivity | auto].
        -- exists [all_done_line], (Ret tt). split; [reflexivity | auto].
      * exists [], (Raise OverflowError). split; [reflexivity | discriminate].
Qed.

Lemma tool_runs_prints (lines : list string) (t : list event) :
  tool_runs (map EvPrint lines ++ t) = tool_runs t.
Proof. induction lines; cbn; auto. Qed.



(** One call on an eligible file whose output exists *)
Lemma skip_once (s : Sys W) (path fmt operation tgt : string) (vs : pyseq)
    (gather : bool) (dff : ledger_arg) :
  output_extension operation fmt = Some tgt ->
  valid_sources operation fmt = Some vs ->
  cache_ok fmt operation (statics s) = true ->
  py_in (PyStr.lower (snd (split_root_extension path))) vs = true ->
  os_path_exists (world s) (fst (split_root_extension path) ++ "." ++ tgt) = true ->
  let s' := fst (transcode_source_audio path fmt operation gather dff s) in
  skipped path (fst (split_root_extension path) ++ "." ++ tgt) gather s s' /\
  cache_ok fmt operation (statics s') = true.
Proof.
  intros Ht Hv Hc. unfold transcode_source_audio.
  destruct (split_root_extension path) as [root ext]. cbn [fst snd].
  intros Hvalid Hpresent.
  destruct (resolve_ok s ext fmt operation tgt vs Ht Hv Hc) as (x & tool & opts & Hres).
  pose proof (cache_ok_filled fmt operation ext tgt vs x tool opts (statics s) Ht Hv)
    as Hfilled.
  run_m. rewrite Hres. cbv beta iota. rewrite Hvalid in *. cbn [truthy_bool].
  change (PosixPath.extsep) with ".". rewrite Hpresent. cbn [negb].
  destruct gather.
  - cbn [fst]. split.
    + unfold skipped. cbn. repeat split; reflexivity.
    + cbn [statics]. exact Hfilled.
  - match goal with
    | |- context [report_percentage ?s0] =>
        destruct (report_percentage_frame s0) as (lines & r & Hrep & _)
    end.
    rewrite Hrep. cbn [world statics failed trace].
    destruct r as [[] | e]; cbn [fst].
    + split.
      * unfold skipped. cbn [world statics failed trace with_cache
                             total_count_transcode total_count_source].
        repeat split; try reflexivity.
        -- rewrite tool_runs_prints. reflexivity.
        -- exists lines. reflexivity.
      * cbn [statics]. exact Hfilled.
    + split.
      * unfold skipped. cbn [world statics failed trace with_cache
                             total_count_transcode total_count_source].
        repeat split; try reflexivity.
        -- rewrite tool_runs_prints. reflexivity.
        -- exists lines. reflexivity.
      * cbn [statics]. exact Hfilled.
Qed.

(** The invocation counts one more transcode, or leaves the attributes. *)
Lemma invoke_tool_statics (s : Sys W) (source_path target_path target : string)
    (x : option bool) (tool : option string) (opts : option (list string))
    (dff : ledger_arg) :
  statics (fst (invoke_tool source_path target_path target x tool opts dff s))
    = statics s \/
  exists d,
    statics (fst (invoke_tool source_path target_path target x tool opts dff s))
    = count_transcode d (statics s).
Proof.
  unfold invoke_tool, record_failure. destruct s as [w st fl tr]. run_m.
  destruct x as [[|]|]; cbn [truthy_bool].
  - destruct tool as [tool|]; [| left; reflexivity].
    destruct opts as [opts|]; [| left; reflexivity].
    destruct (subprocess_run w _) as [w' [out | err |]]; cbv beta iota.
    + right. eexists. reflexivity.
    + destruct dff; left; reflexivity.
    + left. reflexivity.
  - destruct tool; left; reflexivity.
  - destruct tool; left; reflexivity.
Qed.

(** The agreement of the cache with the registry is an invariant of the
    transcode step, for the format and the operation of the run. *)
Lemma transcode_keeps_cache (path fmt operation tgt : string) (vs : pyseq)
    (gather : bool) (dff : ledger_arg) :
  output_extension operation fmt = Some tgt ->
  valid_sources operation fmt = Some vs ->
  preserves (W := W) (fun s => cache_ok fmt operation (statics s) = true)
    (transcode_source_audio path fmt operation gather dff).
Proof.
  intros Ht Hv s Hc. unfold transcode_source_audio.
  destruct (split_root_extension path) as [root ext].
  destruct (resolve_ok s ext fmt operation tgt vs Ht Hv Hc) as (x & tool & opts & Hres).
  pose proof (cache_ok_filled fmt operation ext tgt vs x tool opts (statics s) Ht Hv)
    as Hfilled.
  run_m. rewrite Hres. cbv beta iota.
  destruct (py_in (PyStr.lower ext) vs); cbn [truthy_bool]; [| exact Hfilled].
  destruct (os_path_exists (world s) _); cbn [negb].
  - destruct gather; [exact Hfilled |].
    match goal with
    | |- context [report_percentage ?s0] =>
        destruct (report_percentage_frame s0) as (lines & r & Hr & _)
    end.
    rewrite Hr. destruct r as [[] | e]; exact Hfilled.
  - destruct gather; [exact Hfilled |].
    match goal with
    | |- context [invoke_tool ?a ?b ?c ?d ?e ?f ?g ?s0] =>
        pose proof (invoke_tool_statics s0 a b c d e f g) as Hst;
        destruct (invoke_tool a b c d e f g s0) as [s1 r1]
    end.
    cbn [fst statics] in Hst.
    assert (Hc1 : cache_ok fmt operation (statics s1) = true).
    { destruct Hst as [-> | [d ->]]; exact Hfilled. }
    destruct r1 as [[] | e]; [| exact Hc1].
    destruct (report_percentage_frame s1) as (lines & r & Hr & _).
    rewrite Hr. destruct r as [[] | e]; exact Hc1.
Qed.

(** It holds in the initial state, and through the transcode loop of
    [process_dir]. *)
Lemma transcode_pass_keeps_cache (root_source fmt operation tgt : string) (vs : pyseq)
    (gather : bool) (dff : ledger_arg) :
  output_extension operation fmt = Some tgt ->
  valid_sources operation fmt = Some vs ->
  preserves (W := W) (fun s => cache_ok fmt operation (statics s) = true)
    (walk_files root_source (fun source_dir source_file =>
       bind (transcode_source_audio (PosixPath.join source_dir [source_file]) fmt
               operation gather dff)
            (fun _ => ret tt))).
Proof.
  intros Ht Hv. unfold walk_files.
  apply pres_bind; [apply pres_ask | intros walk].
  apply pres_for_each. intros entry. apply pres_for_each. intros source_file.
  apply pres_bind; [| intros; apply pres_ret].
  now apply transcode_keeps_cache with (tgt := tgt) (vs := vs).
Qed.


(** C3. For an eligible source file whose output path, the source path with
    its extension replaced by the output extension of the format, exists,
    the transcode step is a skip: the world is unchanged, so the existing
    output is not altered, no tool is run, and the skip line is printed in
    the real pass; a second call on the state the first one leaves is a skip
    again. The cache agrees with the registry for the format of the run. *)
Theorem existing_output_is_skipped (s : Sys W) (path fmt operation tgt : string)
    (vs : pyseq) (gather : bool) (dff : ledger_arg) :
  output_extension operation fmt = Some tgt ->
  valid_sources operation fmt = Some vs ->
  cache_ok fmt operation (statics s) = true ->
  py_in (PyStr.lower (snd (split_root_extension path))) vs = true ->
  os_path_exists (world s) (fst (split_root_extension path) ++ "." ++ tgt) = true ->
  let out := fst (split_root_extension path) ++ "." ++ tgt in
  let once := fst (transcode_source_audio path fmt operation gather dff s) in
  let twice := fst (transcode_source_audio path fmt operation gather dff once) in
  skipped path out gather s once /\ skipped path out gather once twice /\
  world twice = world s /\ tool_runs (trace twice) = tool_runs (trace s).
Proof.
  intros Ht Hv Hc Hvalid Hpresent. cbv zeta.
  destruct (skip_once s path fmt operation tgt vs gather dff Ht Hv Hc Hvalid Hpresent)
    as [H1 Hc1].
  assert (Hpresent1 :
    os_path_exists (world (fst (transcode_source_audio path fmt operation gather dff s)))
      (fst (split_root_extension path) ++ "." ++ tgt) = true).
  { destruct H1 as [-> _]. exact Hpresent. }
  destruct (skip_once _ path fmt operation tgt vs gather dff Ht Hv Hc1 Hvalid Hpresent1)
    as [H2 _].
  split; [exact H1 | split; [exact H2 | split]].
  - destruct H2 as [-> _]. now destruct H1.
  - destruct H2 as (_ & _ & -> & _). now destruct H1 as (_ & _ & -> & _).
Qed.


Lemma lower_extension_of (e : option string) :
  PyStr.lower (extension_of e) = extension_of e.
Proof. destruct e; [apply lower_idem | reflexivity]. Qed.


End Transcode.

(* ------------------------------------------------------------------ *)
(** * The claims on runs of the script *)

(** C2. One call of the relocation step makes exactly one of a move, a copy
    or neither, and the processed and moved counters grow with it; so after
    any sequence of relocation calls from the initial state, and after any
    run of [main], the processed count is the moved count plus the number of
    copies, which is what the report derives as processed minus moved. *)
Theorem processed_is_moved_plus_copied {W : Type} {os : OS W} :
  (forall (s : Sys W) (file dst target : string),
     let s' := fst (move_or_copy_file file dst target s) in
     exists m c : Z,
       ((m = 1 /\ c = 0) \/ (m = 0 /\ c = 1) \/ (m = 0 /\ c = 0)) /\
       moved_ok (trace s') = moved_ok (trace s) + m /\
       copied_ok (trace s') = copied_ok (trace s) + c /\
       total_count (statics s') = total_count (statics s) + m + c /\
       total_count_moved (statics s') = total_count_moved (statics s) + m) /\
  (forall (w : W) (calls : list (string * string * string)),
     let s := fst (for_each calls
                     (fun c => move_or_copy_file (fst (fst c)) (snd (fst c)) (snd c))
                     (sys_init w)) in
     total_count (statics s) = total_count_moved (statics s) + copied_ok (trace s) /\
     total_count_moved (statics s) = moved_ok (trace s) /\
     total_count (statics s) - total_count_moved (statics s) = copied_ok (trace s)) /\
  (forall (w : W) (args : Args),
     let s := fst (main args (sys_init w)) in
     total_count (statics s) = total_count_moved (statics s) + copied_ok (trace s) /\
     total_count_moved (statics s) = moved_ok (trace s) /\
     total_count (statics s) - total_count_moved (statics s) = copied_ok (trace s)).
Proof.
  assert (Hinit : forall w : W, counters_inv (sys_init w)).
  { intros w. split; reflexivity. }
  split; [exact relocation_step | split].
  - intros w calls. cbv zeta.
    assert (H : counters_inv
                  (fst (for_each calls
                          (fun c => move_or_copy_file (fst (fst c)) (snd (fst c)) (snd c))
                          (sys_init w)))).
    { apply pres_for_each; [| apply Hinit].
      intros c. apply keeps_move_or_copy_file. }
    destruct H as [H1 H2]. lia.
  - intros w args. cbv zeta.
    destruct (keeps_main args (sys_init w) (Hinit w)) as [H1 H2]. lia.
Qed.

(** C5. With 100 eligible files counted by the first pass, the line printed
    after the 29th transcode reads 28%: the quotient [29 / 100] is a double
    just below 0.29, its product with 100 is just below 29, and the floor
    of that is 28. The floor of the exact percentage is 29. The run
    of the whole script prints the 28% line twice and the 29% line never. *)
Theorem progress_29_of_100_reads_28 :
  let s := fst (main (os := linux) encode_queue (sys_init (queue 100))) in
  percent_complete 29 100 = Some 28 /\
  29 * 100 / 100 = 29 /\
  total_count_source (statics s) = 100 /\
  total_count_transcode (statics s) = 100 /\
  printed (percent_line 28) (trace s) = 2 /\
  printed (percent_line 29) (trace s) = 0.
Proof. vm_compute. repeat split. Qed.

(** The other parts of C5, for every queue of up to 100 files: the
    percentage never decreases, and it is the floor of the exact percentage
    or one below it. *)
Example progress_up_to_100_files :
  forallb (fun n => progress_checked (Z.of_nat n)) (seq 1 100) = true.
Proof. vm_compute. reflexivity. Qed.

(** Nothing is printed unless both counters are positive, and the line for
    equal counters carries no number. *)
Lemma report_percentage_guard {W : Type} {os : OS W} (s : Sys W) :
  (total_count_source (statics s) = 0 \/ total_count_transcode (statics s) = 0 ->
   report_percentage s = (s, Ret tt)) /\
  (0 < total_count_source (statics s) < 2 ^ 63 ->
   total_count_transcode (statics s) = total_count_source (statics s) ->
   trace (fst (report_percentage s)) = EvPrint all_done_line :: trace s).
Proof.
  unfold report_percentage. destruct s as [w st fl tr]. run_m. split.
  - intros [-> | ->]; [reflexivity |].
    cbn [Z.eqb negb andb]. rewrite andb_false_r. reflexivity.
  - intros Hs Ht. rewrite Ht.
    destruct (Z.eqb_spec (total_count_source st) 0); [lia |]. cbn [negb andb].
    destruct (percent_complete_defined (total_count_source st) (total_count_source st))
      as [p ->]; try lia.
    rewrite Z.ltb_irrefl. reflexivity.
Qed.

(** The value [main] returns is not the exit status: a script that runs to
    its end exits with zero. *)
Lemma script_exit_code {W : Type} {os : OS W} (args : Args) (s : Sys W) (code : Z) :
  snd (main args s) = Ret code -> process_exit_code (script args s) = 0.
Proof.
  unfold process_exit_code, script, bind. destruct (main args s) as [s' r].
  cbn [snd]. intros ->. reflexivity.
Qed.

(** C6. On a source path that does not exist, on an unsupported platform and
    on the two options that exclude each other, [main] returns 1 and the
    process still exits with status 0: the script calls [main] and drops
    what it returns. *)
Theorem exit_code_of_main_is_dropped :
  snd (main (os := linux) encode_nowhere (sys_init album)) = Ret 1 /\
  process_exit_code (script (os := linux) encode_nowhere (sys_init album)) = 0 /\
  snd (main (os := darwin) encode_album (sys_init album)) = Ret 1 /\
  process_exit_code (script (os := darwin) encode_album (sys_init album)) = 0 /\
  snd (main (os := linux) move_with_percentage (sys_init album)) = Ret 1 /\
  process_exit_code
    (script (os := linux) move_with_percentage (sys_init album)) = 0.
Proof. vm_compute. repeat split. Qed.

(** On a platform other than Windows the registry is the Linux one. *)
Lemma registry_not_windows (platform operation : string) :
  String.eqb platform "Windows" = false ->
  dict_transcode_tool_platform_get platform operation =
  dict_transcode_tool_platform_get "Linux" operation.
Proof.
  intros H. unfold dict_transcode_tool_platform_get. rewrite H. reflexivity.
Qed.

(** C7, as stated, fails: on a platform that is not supported the
    resolution of the registry returns the Linux tables, and the transcode
    step that reads them returns. *)
Lemma registry_resolves_on_unsupported_platform :
  is_supported_platform (platform_system (OS := darwin)) = false /\
  dict_transcode_tool_platform_get (platform_system (OS := darwin)) "encode" =
  (dict_encode_tool_linux,
   [(opus, valid_encode_source_for_opus); (flac, valid_encode_source_for_flac)],
   [(opus, opus); (flac, flac)]) /\
  snd (resolve (os := darwin) "wav" "flac" "encode" (sys_init album)) =
  Ret (Some "flac", Some true, Some true, Some "/usr/bin/flac",
       Some options_encode_flac) /\
  snd (transcode_source_audio (os := darwin) "/music/Album/track.wav" "flac" "encode"
         false TheLedger (sys_init album)) = Ret (Some "/music/Album/track.flac").
Proof. vm_compute. repeat split. Qed.

(** C7, amended. The resolution of the registry never fails, on any
    platform: the three tables hold both format keys, so that the
    resolution inside the transcode step returns for either format,
    whatever the platform and the operation; on a platform that is not
    Windows, supported or not, the tables are those of Linux. The
    unsupported platform is refused by [main], which prints one line and
    returns 1 before anything else is done. *)
Theorem registry_never_fails_main_refuses {W : Type} {os : OS W}
    (args : Args) (operation : string) (s : Sys W) :
  let r := dict_transcode_tool_platform_get platform_system operation in
  (String.eqb platform_system "Windows" = false ->
   r = dict_transcode_tool_platform_get "Linux" operation) /\
  (forall key, key = "opus" \/ key = "flac" ->
     exists entry vs tgt,
       dict_get (fst (fst r)) key = Some entry /\
       dict_get (snd (fst r)) key = Some vs /\
       dict_get (snd r) key = Some tgt) /\
  (forall ext fmt, PyStr.lower fmt = "opus" \/ PyStr.lower fmt = "flac" ->
     exists s' vals, resolve ext (PyStr.lower fmt) operation s = (s', Ret vals)) /\
  (is_supported_platform platform_system = false ->
   main args s =
     ({| world := world s; statics := statics s; failed := failed s;
         trace := EvPrint (bel ++ "Unsupported OS") :: trace s |}, Ret 1)).
Proof.
  cbv zeta. split; [| split; [| split]].
  - apply registry_not_windows.
  - intros key Hkey. unfold dict_transcode_tool_platform_get.
    destruct (String.eqb platform_system "Windows"), (String.eqb operation "encode");
      destruct Hkey as [-> | ->]; cbn [fst snd]; do 3 eexists;
      (split; [reflexivity | split; reflexivity]).
  - intros ext fmt Hkey. unfold resolve. destruct s as [w st fl tr]. run_m.
    destruct (eq_str_opt ext (extension_prev st)); [do 2 eexists; reflexivity |].
    unfold dict_transcode_tool_platform_get.
    destruct (String.eqb platform_system "Windows"), (String.eqb operation "encode");
      destruct Hkey as [-> | ->]; do 2 eexists; reflexivity.
  - intros H. unfold main. rewrite H. reflexivity.
Qed.

Lemma registry_never_fails_main_refuses_witness :
  is_supported_platform (platform_system (OS := darwin)) = false /\
  main (os := darwin) encode_album (sys_init album) =
    ({| world := album; statics := statics_init; failed := [];
        trace := [EvPrint (bel ++ "Unsupported OS")] |}, Ret 1) /\
  (exists s' vals,
     resolve (os := darwin) "wav" (PyStr.lower "FLAC") "decode" (sys_init album)
     = (s', Ret vals)).
Proof.
  split; [reflexivity |].
  destruct (registry_never_fails_main_refuses (os := darwin) encode_album "decode"
              (sys_init album)) as (_ & _ & Hresolve & Hmain).
  split.
  - apply Hmain. reflexivity.
  - apply (Hresolve "wav" "FLAC"). right. reflexivity.
Defined.

(** C8. Ninety seconds are reported as two minutes and thirty seconds: the
    minutes are [round(seconds / 60)], and [round(1.5)] is 2. The
    decomposition of ninety seconds is one minute and thirty seconds. *)
Theorem ninety_seconds_read_two_minutes_thirty :
  total_time_in_hms_get 90000000000 = Some "2 minutes 30 seconds" /\
  hms_parts 90000000000 = Some (0, 2, SecInt 30) /\
  90000000000 / 1000000000 = 0 * 3600 + 1 * 60 + 30.
Proof. vm_compute. repeat split. Qed.

(** With an absolute destination and a source root written without a
    separator at its end, the album is relocated as the plan says: the cover
    and the new track under [/out/Album], the old track under
    [/out/Album/a/b]. *)
Example absolute_destination_mirrors_album :
  relocations (history (fst (main (os := linux) encode_album (sys_init album)))) =
  [EvCopy "/music/Album/cover.jpg" "/out/Album/" true;
   EvMove "/music/Album/track.flac" "/out/Album/" true;
   EvMove "/music/Album/a/b/old.flac" "/out/Album/a/b" true].
Proof. vm_compute. reflexivity. Qed.

(** C4. Two inputs on which the plan is not [destRoot/basename(root)/a/b].
    With the source root written [/music/Album/], the head directory is
    [/out/], the remainder [a/b] is lost, and the file of
    [/music/Album/a/b] is moved into [/out/] next to the files of the root.
    With the relative destination [out], the head directory is [/out/Album],
    at the root of the file system, and the file is moved to
    [/out/Album/a/b], which is not [out/Album/a/b]. *)
Theorem mirrored_plan_fails_on_two_inputs :
  (head_directory "/music/Album/" "/out" = "/out/" /\
   target_directory "/music/Album/" "/music/Album/a/b" "/out/" = "/out/" /\
   relocations (history (fst (main (os := linux) encode_album_trailing
                                (sys_init album)))) =
   [EvCopy "/music/Album/cover.jpg" "/out/" true;
    EvMove "/music/Album/track.flac" "/out/" true;
    EvMove "/music/Album/a/b/old.flac" "/out/" true]) /\
  (head_directory "/music/Album" "out" = "/out/Album" /\
   target_directory "/music/Album" "/music/Album/a/b" "/out/Album" = "/out/Album/a/b" /\
   relocations (history (fst (main (os := linux) encode_album_relative
                                (sys_init album)))) =
   [EvCopy "/music/Album/cover.jpg" "/out/Album/" true;
    EvMove "/music/Album/track.flac" "/out/Album/" true;
    EvMove "/music/Album/a/b/old.flac" "/out/Album/a/b" true] /\
   "/out/Album/a/b" <> "out" ++ "/" ++ PosixPath.basename "/music/Album" ++ "/" ++ "a/b").
Proof. vm_compute. repeat split. discriminate. Qed.

(* ------------------------------------------------------------------ *)
(** * The claims at concrete inputs *)

(** C1, as stated, fails in both directions, on files of the walk of
    [encode_album]. [wav] is a recognized source extension for the target
    format [flac], and the relocation step leaves [track.wav] where it is,
    with no move and no copy. [flac] is no source extension for [flac], and
    [old.flac] is moved. The run moves the two [flac] files and copies the
    cover. *)
Lemma source_extension_is_not_what_moves :
  let s := sys_init album in
  valid_sources "encode" "flac" = Some valid_encode_source_for_flac /\
  (py_in (snd (split_root_extension "track.wav")) valid_encode_source_for_flac = true /\
   relocation_succeeds (os := linux) s "/music/Album" "/music/Album" "track.wav"
     "/out/Album" "flac" /\
   fst (build_target_and_operate (os := linux) "/music/Album" "/music/Album"
          "track.wav" "/out/Album" "flac" s) = s) /\
  (py_in (snd (split_root_extension "old.flac")) valid_encode_source_for_flac = false /\
   relocation_succeeds (os := linux) s "/music/Album" "/music/Album/a/b" "old.flac"
     "/out/Album" "flac" /\
   relocations (trace (fst (build_target_and_operate (os := linux) "/music/Album"
                              "/music/Album/a/b" "old.flac" "/out/Album" "flac" s))) =
   [EvMove "/music/Album/a/b/old.flac" "/out/Album/a/b" true]) /\
  relocations (history (fst (main (os := linux) encode_album (sys_init album)))) =
  [EvCopy "/music/Album/cover.jpg" "/out/Album/" true;
   EvMove "/music/Album/track.flac" "/out/Album/" true;
   EvMove "/music/Album/a/b/old.flac" "/out/Album/a/b" true].
Proof. vm_compute. repeat split. Qed.

Lemma moved_iff_extension_is_target_witness :
  let s := sys_init album in
  let root_source := "/music/Album" in
  let dir_source := "/music/Album/a/b" in
  let file_source := "old.flac" in
  let dir_destination := "/out/Album" in
  ("flac" = "opus" \/ "flac" = "flac") /\
  (PyStr.has_char "/" file_source = false \/ dir_source = EmptyString) /\
  relocation_succeeds (os := linux) s root_source dir_source file_source
    dir_destination "flac" /\
  (let ext := snd (split_root_extension file_source) in
   let path := PosixPath.join dir_source [file_source] in
   let directory := relocation_directory root_source dir_source dir_destination in
   let s1 := fst (relocation_state (os := linux) root_source dir_source
                    dir_destination s) in
   let s' := fst (build_target_and_operate (os := linux) root_source dir_source
                    file_source dir_destination "flac" s) in
   (moved_ok (trace s') = moved_ok (trace s) + 1 <-> ext = "flac") /\
   (ext = "flac" ->
    relocations (trace s') = EvMove path directory true :: relocations (trace s) /\
    world s' = fst (shutil_move (OS := linux) (world s1) path directory)) /\
   (In ext companion_extensions ->
    relocations (trace s') = EvCopy path directory true :: relocations (trace s) /\
    moved_ok (trace s') = moved_ok (trace s) /\
    world s' = fst (shutil_copy2 (OS := linux) (world s1) path directory)) /\
   (ext <> "flac" -> ~ In ext companion_extensions -> s' = s)).
Proof.
  cbv zeta.
  split; [right; reflexivity | split; [left; reflexivity |
    split; [vm_compute; repeat split |]]].
  apply (moved_iff_extension_is_target (os := linux) (sys_init album) "/music/Album"
           "/music/Album/a/b" "old.flac" "/out/Album" "flac");
    [right; reflexivity | left; reflexivity | vm_compute; repeat split].
Defined.

Lemma failed_relocation_keeps_statistics_witness :
  let s := sys_init album_readonly in
  let file := "/music/Album/a/b/old.flac" in
  io_fails (os := linux) s file "/out" "flac" /\
  (let s' := fst (move_or_copy_file (os := linux) file "/out" "flac" s) in
   total_count (statics s') = total_count (statics s) /\
   total_count_moved (statics s') = total_count_moved (statics s) /\
   total_size (statics s') = total_size (statics s) /\
   statics s' = statics s /\
   moved_ok (trace s') = moved_ok (trace s) /\
   copied_ok (trace s') = copied_ok (trace s)).
Proof.
  cbv zeta.
  split; [reflexivity |].
  apply (failed_relocation_keeps_statistics (os := linux) (sys_init album_readonly)
           "/music/Album/a/b/old.flac" "/out" "flac").
  reflexivity.
Defined.

Lemma existing_output_is_skipped_witness :
  let s := album_encoded in
  let path := "/music/Album/track.wav" in
  output_extension "encode" "flac" = Some "flac" /\
  valid_sources "encode" "flac" = Some valid_encode_source_for_flac /\
  cache_ok "flac" "encode" (statics s) = true /\
  py_in (PyStr.lower (snd (split_root_extension path))) valid_encode_source_for_flac
    = true /\
  os_path_exists (OS := linux) (world s) (fst (split_root_extension path) ++ "." ++ "flac")
    = true /\
  (let out := fst (split_root_extension path) ++ "." ++ "flac" in
   let once := fst (transcode_source_audio (os := linux) path "flac" "encode" false
                      TheLedger s) in
   let twice := fst (transcode_source_audio (os := linux) path "flac" "encode" false
                       TheLedger once) in
   skipped path out false s once /\ skipped path out false once twice /\
   world twice = world s /\ tool_runs (trace twice) = tool_runs (trace s)).
Proof.
  cbv zeta.
  split; [reflexivity | split; [reflexivity | split; [reflexivity |
    split; [reflexivity | split; [reflexivity |]]]]].
  apply (existing_output_is_skipped (os := linux) album_encoded "/music/Album/track.wav"
           "flac" "encode" "flac" valid_encode_source_for_flac false TheLedger);
    reflexivity.
Defined.



(* ------------------------------------------------------------------ *)
(** * Further properties of the program *)

(* ------------------------------------------------------------------ *)
(** * Further properties of the program *)

(** ** Extensions and formats *)

Section ExtensionProperties.
Import PyStr PosixPath.

Lemma has_char_lower_dot (s : string) : has_char "." (lower s) = has_char "." s.
Proof.
  induction s as [| c s IH]; cbn [lower has_char]; [reflexivity |]. rewrite IH. f_equal.
  destruct c as [[] [] [] [] [] [] [] []]; reflexivity.
Qed.

Lemma has_char_lower_sep (s : string) : has_char "/" (lower s) = has_char "/" s.
Proof.
  induction s as [| c s IH]; cbn [lower has_char]; [reflexivity |]. rewrite IH. f_equal.
  destruct c as [[] [] [] [] [] [] [] []]; reflexivity.
Qed.

(** X1. The extension of a path [root.e], where [e] has no dot and no
    separator and the last component of [root] is not made of dots only:
    [split_root_extension] gives back the root and the extension in lower
    case, the same for [root.E] and [root.e], and lowering it again changes
    nothing. *)
Theorem extension_is_split_and_lowered (root e : string) :
  all_dots (basename root) = false ->
  has_char "." e = false -> has_char "/" e = false ->
  split_root_extension (root ++ "." ++ e) = (root, lower e) /\
  split_root_extension (root ++ "." ++ lower e) = (root, lower e) /\
  lower (snd (split_root_extension (root ++ "." ++ e)))
  = snd (split_root_extension (root ++ "." ++ e)).
Proof.
  intros Hroot Hdot Hsep.
  assert (Hdot' : has_char "." (lower e) = false)
    by now rewrite has_char_lower_dot.
  assert (Hsep' : has_char "/" (lower e) = false)
    by now rewrite has_char_lower_sep.
  split; [| split].
  - now apply split_with_extension.
  - rewrite split_with_extension by assumption. now rewrite lower_idem.
  - rewrite split_with_extension by assumption. apply lower_idem.
Qed.

(** X2. Every path has parts, and [split_root_extension] returns them: a
    root and an extension without dot and separator, after a last component
    that is not made of dots only, or a root alone whose last component has
    no dot after the dots it starts with (a name without dot, or a hidden
    file such as [.profile]). The parts of a path are unique up to the case
    of the extension. *)
Theorem every_path_splits_at_its_parts (p : string) :
  (exists root e,
     well_split root e = true /\ p = path_of root e /\
     split_root_extension p = (root, extension_of e)) /\
  (forall root e root' e',
     well_split root e = true -> well_split root' e' = true ->
     path_of root e = path_of root' e' ->
     root = root' /\ extension_of e = extension_of e').
Proof.
  split.
  - destruct (every_path_has_parts p) as (root & e & Hw & ->).
    exists root, e. split; [exact Hw | split; [reflexivity |]].
    now apply split_root_extension_parts.
  - intros root e root' e' Hw Hw' Heq.
    pose proof (split_root_extension_parts root e Hw) as H1.
    pose proof (split_root_extension_parts root' e' Hw') as H2.
    rewrite Heq, H2 in H1. now injection H1.
Qed.

Lemma app_inv_head_s (a b c : string) : a ++ b = a ++ c -> b = c.
Proof. induction a as [| x a IH]; cbn; [auto | intros H; injection H; auto]. Qed.

Lemma registry_entries (operation fmt tgt : string) (vs : pyseq) :
  output_extension operation fmt = Some tgt ->
  valid_sources operation fmt = Some vs ->
  (tgt = "opus" /\ vs = valid_encode_source_for_opus) \/
  (tgt = "flac" /\ vs = valid_encode_source_for_flac) \/
  (tgt = "wav" /\ vs = valid_decode_source_for_opus) \/
  (tgt = "wav" /\ vs = valid_decode_source_for_flac).
Proof.
  unfold output_extension, valid_sources, dict_transcode_tool_platform_get.
  destruct (String.eqb operation "encode"); cbn [snd fst dict_get];
    unfold opus, flac;
    destruct (String.eqb (PyStr.lower fmt) "opus");
    try destruct (String.eqb (PyStr.lower fmt) "flac");
    intros H1 H2; try discriminate; injection H1 as <-; injection H2 as <-; auto.
Qed.

(** X3. No transcode onto itself. For every format and operation of the
    registry the output extension is not among the valid sources, and so
    the target path of an eligible file is never the path of the file: the
    tool is never asked to write over its input. *)
Theorem output_is_never_the_source (path operation fmt tgt : string) (vs : pyseq) :
  output_extension operation fmt = Some tgt ->
  valid_sources operation fmt = Some vs ->
  py_in tgt vs = false /\
  (py_in (PyStr.lower (snd (split_root_extension path))) vs = true ->
   fst (split_root_extension path) ++ "." ++ tgt <> path).
Proof.
  intros Ht Hv.
  assert (Hno : py_in tgt vs = false /\ PyStr.lower tgt = tgt).
  { destruct (registry_entries _ _ _ _ Ht Hv) as [[-> ->] | [[-> ->] | [[-> ->] | [-> ->]]]];
      split; reflexivity. }
  destruct Hno as [Hno Hlow]. split; [exact Hno |].
  destruct (every_path_has_parts path) as (root & e & Hw & ->).
  rewrite (split_root_extension_parts root e Hw). cbn [fst snd].
  rewrite lower_extension_of.
  intros Hel Heq. destruct e as [e |]; cbn [path_of extension_of] in *.
  - apply app_inv_head_s in Heq. injection Heq as Heq. subst e.
    rewrite Hlow in Hel. congruence.
  - assert (Hlen : String.length (root ++ "." ++ tgt) = String.length root)
      by now rewrite Heq.
    rewrite length_app in Hlen. cbn in Hlen. lia.
Qed.

End ExtensionProperties.

(* ------------------------------------------------------------------ *)
(** * What the functions return *)

Section Returns.
Context {W : Type} {os : OS W}.

Lemma returns_ret {A : Type} (P : A -> Prop) (a : A) :
  P a -> returns (W := W) P (ret a).
Proof. intros H s b Hb. unfold ret in Hb. cbn [snd] in Hb. injection Hb as <-. exact H. Qed.

Lemma returns_raise {A : Type} (P : A -> Prop) (e : exn) :
  returns (W := W) P (raise e).
Proof. intros s b Hb. discriminate. Qed.

Lemma returns_top {A : Type} (c : M W A) : returns (fun _ => True) c.
Proof. intros s a _. exact I. Qed.

Lemma returns_bind {A B : Type} (Q : A -> Prop) (P : B -> Prop)
    (c : M W A) (k : A -> M W B) :
  returns Q c -> (forall a, Q a -> returns P (k a)) -> returns P (bind c k).
Proof.
  intros Hc Hk s b. unfold bind. specialize (Hc s).
  destruct (c s) as [s' [a | e]]; cbn [snd] in *.
  - intros Hb. exact (Hk a (Hc a eq_refl) s' b Hb).
  - discriminate.
Qed.

Lemma returns_seq {A B : Type} (P : B -> Prop) (c : M W A) (k : A -> M W B) :
  (forall a, returns P (k a)) -> returns P (bind c k).
Proof.
  intros Hk. apply returns_bind with (Q := fun _ => True);
    [apply returns_top | intros a _; apply Hk].
Qed.

Lemma create_directory_returns_true (d : string) :
  returns (W := W) (fun b => b = true) (create_directory d).
Proof.
  intros s b. rewrite create_directory_eq.
  destruct (os_path_exists (world s) d); cbn [snd]; [intros H; now injection H |].
  cbv zeta. destruct (snd (pathlib_mkdir (world s) d)); cbn [snd];
    [intros H; now injection H | discriminate].
Qed.

(** X4. [create_directory] never returns [False]. On a path that exists it
    does nothing and returns [True]; when the directory is made it says so
    and returns [True]; when making it fails, the handler reads an attribute
    the error does not have and [AttributeError] leaves the function, after
    the error line: the assignment [status = False] is never returned. *)
Theorem create_directory_never_returns_false (s : Sys W) (d : string) :
  returns (fun b => b = true) (create_directory d) /\
  (os_path_exists (world s) d = true -> create_directory d s = (s, Ret true)) /\
  (os_path_exists (world s) d = false ->
   snd (pathlib_mkdir (world s) d) = true ->
   create_directory d s =
   ({| world := fst (pathlib_mkdir (world s) d); statics := statics s;
       failed := failed s;
       trace := EvPrint (nl ++ "Created directory '" ++ d ++ "'" ++ nl)
                :: EvMkdir d true :: trace s |}, Ret true)) /\
  (os_path_exists (world s) d = false ->
   snd (pathlib_mkdir (world s) d) = false ->
   create_directory d s =
   ({| world := fst (pathlib_mkdir (world s) d); statics := statics s;
       failed := failed s;
       trace := EvPrint ("Error creating target directory path '" ++ d ++ "'" ++ nl)
                :: EvMkdir d false :: trace s |}, Raise AttributeError)).
Proof.
  split; [apply create_directory_returns_true | split; [| split]].
  - intros H. now rewrite create_directory_eq, H.
  - intros H Hm. rewrite create_directory_eq, H. cbv zeta. now rewrite Hm.
  - intros H Hm. rewrite create_directory_eq, H. cbv zeta. now rewrite Hm.
Qed.

Lemma ready_is_true (d : string) :
  returns (W := W) (fun b => b = true)
    (bind (ask (fun w => os_path_exists w d))
          (fun present => if present : bool then ret true else create_directory d)).
Proof.
  apply returns_seq. intros [|].
  - now apply returns_ret.
  - apply create_directory_returns_true.
Qed.

Lemma process_dir_code (root_source dir_destination target : string)
    (dir_destination_original transcode : option string) (percentage_gather : bool)
    (dict_files_failed : ledger_arg) :
  returns (W := W) (fun code => code = if percentage_gather then None else Some 0)
    (process_dir root_source dir_destination dir_destination_original target
       transcode percentage_gather dict_files_failed).
Proof.
  unfold process_dir.
  apply returns_seq. intros present.
  apply returns_bind with (Q := fun b => b = true).
  - destruct present; [now apply returns_ret | apply create_directory_returns_true].
  - intros ready ->. cbv iota.
    apply returns_seq. intros _. apply returns_seq. intros _.
    destruct percentage_gather.
    + now apply returns_ret.
    + apply returns_seq. intros _. now apply returns_ret.
Qed.

Lemma process_file_code (root_source dir_destination target : string)
    (transcode : option string) (dict_files_failed : ledger_arg) :
  returns (W := W) (fun code => code = 0)
    (process_file root_source dir_destination target transcode dict_files_failed).
Proof.
  unfold process_file.
  apply returns_seq. intros present.
  apply returns_bind with (Q := fun b => b = true).
  - destruct present; [now apply returns_ret | apply create_directory_returns_true].
  - intros ready ->. cbv iota.
    apply returns_seq. intros [r t]. apply returns_seq. intros _.
    now apply returns_ret.
Qed.

(** X5. The directory pass and the single-file pass have one exit code:
    [process_dir] returns [None] from the counting pass and 0 from the real
    pass, [process_file] returns 0. The branch that prints that there is no
    such target directory and returns 1 is never taken, since
    [create_directory] does not return [False]; a pass that does not reach
    its end raises. *)
Theorem process_passes_never_return_one
    (root_source dir_destination target : string)
    (dir_destination_original transcode : option string) (percentage_gather : bool)
    (dict_files_failed : ledger_arg) :
  returns (W := W) (fun code => code = if percentage_gather then None else Some 0)
    (process_dir root_source dir_destination dir_destination_original target
       transcode percentage_gather dict_files_failed) /\
  returns (W := W) (fun code => code = 0)
    (process_file root_source dir_destination target transcode dict_files_failed).
Proof. split; [apply process_dir_code | apply process_file_code]. Qed.

End Returns.

(* ------------------------------------------------------------------ *)
(** * What the passes leave alone *)

Section Frames.
Context {W : Type} {os : OS W}.

Variable F : Frame.
Variable s0 : Sys W.

Lemma framed_refl : framed F s0 s0.
Proof. unfold framed. auto. Qed.

Lemma frame_emit (e : event) :
  watched F e = false -> preserves (framed F s0) (emit e).
Proof.
  intros He [w st fl tr] (Hw & Hf & Ht & Hv). unfold framed, emit in *.
  cbn [fst world statics failed trace filter] in *. rewrite He. auto.
Qed.

Lemma frame_print (line : string) :
  watched F (EvPrint line) = false -> preserves (framed F s0) (print line).
Proof. apply frame_emit. Qed.

Lemma frame_call {A : Type} (f : W -> W * A) (ev : A -> event) :
  fixes_world F = false -> (forall a, watched F (ev a) = false) ->
  preserves (framed F s0) (call f ev).
Proof.
  intros Hfw He [w st fl tr] (Hw & Hf & Ht & Hv). unfold framed, call in *.
  cbn [fst world statics failed trace] in *.
  destruct (f w) as [w' a]. cbn [fst world statics failed trace filter].
  rewrite He. rewrite Hfw. repeat split; auto. discriminate.
Qed.

Lemma frame_modify (f : Statics -> Statics) :
  (forall st, view F (f st) = view F st) ->
  preserves (framed F s0) (modify_statics f).
Proof.
  intros Hf' [w st fl tr] (Hw & Hf & Ht & Hv). unfold framed, modify_statics in *.
  cbn [fst world statics failed trace] in *. rewrite Hf'. auto.
Qed.

Lemma frame_set_failed (d : dict string) :
  fixes_ledger F = false -> preserves (framed F s0) (set_failed d).
Proof.
  intros Hfl [w st fl tr] (Hw & Hf & Ht & Hv). unfold framed, set_failed in *.
  cbn [fst world statics failed trace] in *. rewrite Hfl.
  repeat split; auto. discriminate.
Qed.

Lemma frame_show_toast (title message : string) :
  fixes_world F = false -> watched F (EvToast title message) = false ->
  preserves (framed F s0) (show_toast title message).
Proof.
  intros Hfw He [w st fl tr] (Hw & Hf & Ht & Hv). unfold framed, show_toast in *.
  cbn [fst world statics failed trace filter] in *. rewrite He, Hfw.
  repeat split; auto. discriminate.
Qed.

End Frames.

(** One step through a computation under a frame *)
Ltac frame_step :=
  match goal with
  | |- preserves _ (bind _ _) => apply pres_bind; [| intros ?]
  | |- preserves _ (for_each _ _) => apply pres_for_each; intros ?
  | |- preserves _ (print _) => apply frame_print; reflexivity
  | |- preserves _ (print_and_log_spacer _ _ _ _) => apply frame_print; reflexivity
  | |- preserves _ (emit _) => apply frame_emit; reflexivity
  | |- preserves _ (call _ _) =>
      apply frame_call;
      [reflexivity | let x := fresh in
      intros x; first [reflexivity | destruct x; reflexivity]]
  | |- preserves _ (modify_statics _) => apply frame_modify; intros ?; reflexivity
  | |- preserves _ (set_failed _) => apply frame_set_failed; reflexivity
  | |- preserves _ (show_toast _ _) => apply frame_show_toast; reflexivity
  | |- preserves _ (create_directory _) => unfold create_directory
  | |- preserves _ (walk_files _ _) => unfold walk_files
  | |- preserves _ (report_percentage) => unfold report_percentage
  | |- preserves _ (record_failure _ _) => unfold record_failure
  | |- preserves _ (invoke_tool _ _ _ _ _ _ _) => unfold invoke_tool
  | |- preserves _ (resolve _ _ _) => unfold resolve
  | |- preserves _ (delete_empty_directories_in_target _) =>
      unfold delete_empty_directories_in_target
  | |- preserves _ (transcode_source_audio _ _ _ _ _) => unfold transcode_source_audio
  | |- preserves _ (if ?b then _ else _) => destruct b
  | |- preserves _ (match ?x with _ => _ end) => destruct x
  | |- preserves _ _ => solve [auto with pres]
  end.

Section CountingPass.
Context {W : Type} {os : OS W}.

Lemma resolve_changes_cache_only (F : Frame) (s0 : Sys W) (a b c : string) :
  (forall e st, view F (set_extension_prev e st) = view F st) ->
  (forall e st, view F (set_target_prev e st) = view F st) ->
  (forall e st, view F (set_is_valid_source_prev e st) = view F st) ->
  (forall e st, view F (set_does_transcode_tool_exist_prev e st) = view F st) ->
  (forall e st, view F (set_transcode_tool_prev e st) = view F st) ->
  (forall e st, view F (set_options_prev e st) = view F st) ->
  preserves (framed F s0) (resolve a b c).
Proof.
  intros H1 H2 H3 H4 H5 H6. unfold resolve.
  repeat first [ apply frame_modify; intros ?; auto | frame_step ].
Qed.

Lemma counting_step (F : Frame) (s0 : Sys W) (path fmt operation : string)
    (dff : ledger_arg) :
  view F = but_source_count_and_cache ->
  preserves (framed F s0) (transcode_source_audio path fmt operation true dff).
Proof.
  intros Hv. unfold transcode_source_audio.
  destruct (split_root_extension path) as [root ext].
  apply pres_bind; [apply resolve_changes_cache_only; intros; rewrite Hv; reflexivity |].
  intros [[[[t v] x] tool] opts].
  repeat first [ apply frame_modify; intros ?; rewrite Hv; reflexivity | frame_step ].
Qed.

Lemma counting_walk (F : Frame) (s0 : Sys W) (root_source fmt operation : string)
    (dff : ledger_arg) :
  view F = but_source_count_and_cache ->
  preserves (framed F s0)
    (walk_files root_source (fun source_dir source_file =>
       bind (transcode_source_audio (PosixPath.join source_dir [source_file]) fmt
               operation true dff)
            (fun _ => ret tt))).
Proof.
  intros Hv. unfold walk_files.
  apply pres_bind; [apply pres_ask | intros walk].
  apply pres_for_each. intros entry. apply pres_for_each. intros source_file.
  apply pres_bind; [now apply counting_step | intros; apply pres_ret].
Qed.

(** X6. The counting pass counts and does nothing else. Whatever the
    arguments, [process_dir] with [percentage_gather] set runs no tool,
    moves, copies and removes nothing, sends no notification, leaves the
    failure ledger and every counter but the source counter as they are; to
    the outside it can only create the head directory and say so. Over a
    head directory that exists it leaves the world and the trace as they
    are. It returns [None]. *)
Theorem counting_pass_only_counts (s : Sys W) (root_source dir_destination target : string)
    (dir_destination_original transcode : option string) (dff : ledger_arg) :
  let r := process_dir root_source dir_destination dir_destination_original target
             transcode true dff s in
  framed counting_frame_with_mkdir s (fst r) /\
  (os_path_exists (world s) (head_directory root_source dir_destination) = true ->
   framed counting_frame s (fst r)) /\
  (forall code, snd r = Ret code -> code = None).
Proof.
  cbv zeta. split; [| split].
  - assert (Hp : preserves (framed counting_frame_with_mkdir s)
                   (process_dir root_source dir_destination dir_destination_original
                      target transcode true dff)).
    { unfold process_dir. cbv iota. cbn [negb andb]. rewrite Bool.andb_false_r.
      repeat first [ apply counting_walk; reflexivity | frame_step ]. }
    apply Hp, framed_refl.
  - intros Hex. unfold process_dir. cbv iota. rewrite Bool.andb_false_r.
    unfold bind at 1. unfold ask at 1. cbn [fst snd]. rewrite Hex.
    cbv iota. unfold bind at 1. unfold ret at 1. cbv iota beta.
    match goal with
    | |- framed _ _ (fst (?c s)) =>
        assert (Hp : preserves (framed counting_frame s) c)
    end.
    { repeat first [ apply counting_walk; reflexivity | frame_step ]. }
    apply Hp, framed_refl.
  - intros code H.
    exact (process_dir_code root_source dir_destination target
             dir_destination_original transcode true dff s code H).
Qed.

End CountingPass.

Section Passes.
Context {W : Type} {os : OS W}.

(** X7. The transcode step never relocates. Whatever its arguments and
    however it ends, [transcode_source_audio] creates no directory, moves,
    copies and removes nothing, does not change the working directory and
    leaves the counters of the relocation step as they are: to the outside
    it prints, runs the tool and notifies. *)
Theorem transcode_step_never_relocates (s : Sys W) (path fmt operation : string)
    (percentage_gather : bool) (dff : ledger_arg) :
  framed transcode_frame s
    (fst (transcode_source_audio path fmt operation percentage_gather dff s)).
Proof.
  assert (Hp : preserves (framed transcode_frame s)
                 (transcode_source_audio path fmt operation percentage_gather dff)).
  { repeat frame_step. }
  apply Hp, framed_refl.
Qed.

(** X8. A pass in place relocates nothing. When the destination is the
    source root itself, [process_dir] makes no move, no copy and no
    [os.removedirs], in the counting pass and in the real pass, and the
    counters of the relocation step stay as they are. *)
Theorem in_place_pass_relocates_nothing (s : Sys W) (root_source target : string)
    (dir_destination_original transcode : option string) (percentage_gather : bool)
    (dff : ledger_arg) :
  framed relocation_frame s
    (fst (process_dir root_source root_source dir_destination_original target
            transcode percentage_gather dff s)).
Proof.
  assert (Hp : preserves (framed relocation_frame s)
                 (process_dir root_source root_source dir_destination_original target
                    transcode percentage_gather dff)).
  { unfold process_dir, head_directory. cbv zeta.
    rewrite String.eqb_refl. cbn [negb]. cbv iota.
    rewrite String.eqb_refl. cbn [negb]. cbv iota.
    repeat frame_step. }
  apply Hp, framed_refl.
Qed.

(** X9. The functions that report only print: [statistic_print],
    [dir_default_set], [print_and_log_spacer] and the progress report leave
    the world, the attributes and the failure ledger as they are, and add
    nothing but printed lines to the trace, also when they raise. *)
Theorem reports_only_print (s : Sys W) (transcode : option string)
    (root_source dir_destination file size_file operation : string) (count : Z) :
  framed report_frame s (fst (statistic_print transcode root_source dir_destination s)) /\
  framed report_frame s (fst (dir_default_set root_source s)) /\
  framed report_frame s (fst (print_and_log_spacer count file size_file operation s)) /\
  framed report_frame s (fst (report_percentage s)).
Proof.
  split; [| split; [| split]].
  - assert (Hp : preserves (framed report_frame s)
                   (statistic_print transcode root_source dir_destination)).
    { unfold statistic_print. repeat frame_step. }
    apply Hp, framed_refl.
  - assert (Hp : preserves (framed report_frame s) (dir_default_set root_source)).
    { unfold dir_default_set. repeat frame_step. }
    apply Hp, framed_refl.
  - assert (Hp : preserves (framed report_frame s)
                   (print_and_log_spacer count file size_file operation)).
    { repeat frame_step. }
    apply Hp, framed_refl.
  - assert (Hp : preserves (framed report_frame s) report_percentage).
    { repeat frame_step. }
    apply Hp, framed_refl.
Qed.

Lemma for_each_calls {A : Type} (f : W -> A -> W) (ev : A -> event) (l : list A) :
  forall s : Sys W,
    for_each l (fun x => call (fun w => (f w x, tt)) (fun _ => ev x)) s =
    ({| world := fold_left f l (world s); statics := statics s; failed := failed s;
        trace := (rev (map ev l) ++ trace s)%list |}, Ret tt).
Proof.
  induction l as [| x l IH]; intros [w st fl tr]; cbn [for_each].
  - reflexivity.
  - unfold bind, call at 1. cbn [world statics failed trace].
    rewrite IH. cbn [world statics failed trace fold_left map rev].
    rewrite <- app_assoc. reflexivity.
Qed.

(** X10. The clean-up asks [os.removedirs] once for every directory that
    [os.walk] lists under the destination, in the order of the walk, between
    its two lines, and returns; without a destination it raises
    [TypeError] before anything is printed. *)
Theorem cleanup_visits_every_directory (s : Sys W) (dir : string) :
  let walk := map fst (os_walk (world s) dir) in
  delete_empty_directories_in_target (Some dir) s =
  ({| world := fold_left os_removedirs walk (world s);
      statics := statics s; failed := failed s;
      trace := (EvPrint (nl ++ "Done cleaning up '" ++ dir ++ "'" ++ nl)
                :: rev (map EvRemovedirs walk)
                ++ EvPrint ("Cleaning up '" ++ dir ++
                     "' by recursively deleting empty directories created to match the source path...")
                :: trace s)%list |}, Ret tt) /\
  delete_empty_directories_in_target None s = (s, Raise TypeError).
Proof.
  cbv zeta. split; [| reflexivity].
  unfold delete_empty_directories_in_target. destruct s as [w st fl tr].
  unfold need. unfold bind at 1. unfold ret at 1. cbv beta iota.
  unfold bind at 1. unfold print, emit at 1. cbv beta iota.
  unfold bind at 1. unfold ask at 1. cbv beta iota.
  unfold bind at 1. cbn [world statics failed trace].
  rewrite (for_each_calls (fun w e => os_removedirs w (fst e))
             (fun e => EvRemovedirs (fst e))).
  cbn [world statics failed trace]. unfold print, emit. cbn [world statics failed trace].
  f_equal. f_equal.
  - generalize (os_walk w dir). intros l. revert w.
    induction l as [| x l IH]; intros w; cbn; [reflexivity | apply IH].
  - rewrite map_map. reflexivity.
Qed.

End Passes.

(* ------------------------------------------------------------------ *)
(** * The transcode step, path by path *)

Section ToolRuns.
Context {W : Type} {os : OS W}.

(** The first resolution for an extension reads the registry and asks for
    the tool once. *)
Lemma resolve_miss (s : Sys W) (ext fmt operation tgt tool : string) (vs : pyseq)
    (opts : list string) :
  eq_str_opt ext (extension_prev (statics s)) = false ->
  output_extension operation fmt = Some tgt ->
  valid_sources operation fmt = Some vs ->
  tool_for platform_system operation fmt = Some (tool, opts) ->
  resolve ext (PyStr.lower fmt) operation s =
  ({| world := world s;
      statics := with_cache (Some ext) (Some tgt) (Some (py_in (PyStr.lower ext) vs))
                   (Some (os_path_isfile (world s) tool)) (Some tool) (Some opts)
                   (statics s);
      failed := failed s; trace := trace s |},
   Ret (Some tgt, Some (py_in (PyStr.lower ext) vs),
        Some (os_path_isfile (world s) tool), Some tool, Some opts)).
Proof.
  intros Hmiss Ht Hv He. unfold resolve.
  destruct s as [w st fl tr]. run_m. cbn [statics] in Hmiss. rewrite Hmiss.
  rewrite registry_platform_free.
  unfold valid_sources, output_extension, tool_for in *.
  cbv beta iota.
  rewrite Ht. cbv beta iota. rewrite Hv. cbv beta iota. rewrite He. cbv beta iota.
  reflexivity.
Qed.

(** X11. A completed tool run. For an eligible file whose output is
    missing and whose tool is installed, the first call for its extension
    runs the tool once, on the command line made of the tool, the source
    path, the options of the registry and the target path, in this order.
    When the tool completes, the transcode counter grows by one and the
    transcode time by the clock difference around the run; the ledger is
    not touched. *)
Theorem completed_run_is_counted (s : Sys W) (path fmt operation tgt tool : string)
    (vs : pyseq) (opts : list string) (dff : ledger_arg) (stdout : string) :
  eq_str_opt (snd (split_root_extension path)) (extension_prev (statics s)) = false ->
  output_extension operation fmt = Some tgt ->
  valid_sources operation fmt = Some vs ->
  tool_for platform_system operation fmt = Some (tool, opts) ->
  py_in (PyStr.lower (snd (split_root_extension path))) vs = true ->
  os_path_exists (world s) (fst (split_root_extension path) ++ "." ++ tgt) = false ->
  os_path_isfile (world s) tool = true ->
  snd (subprocess_run (world s)
         ((tool :: path :: opts) ++ [(fst (split_root_extension path) ++ "." ++ tgt)%string])%list)
    = Completed stdout ->
  let out := fst (split_root_extension path) ++ "." ++ tgt in
  let command := ((tool :: path :: opts) ++ [out])%list in
  let s' := fst (transcode_source_audio path fmt operation false dff s) in
  world s' = fst (subprocess_run (world s) command) /\
  failed s' = failed s /\
  total_count_transcode (statics s') = total_count_transcode (statics s) + 1 /\
  total_time_ns_transcode (statics s') =
    total_time_ns_transcode (statics s) +
    (time_monotonic_ns (world s') - time_monotonic_ns (world s)) /\
  exists lines,
    trace s' = (map EvPrint lines ++ EvRun command true
                :: EvPrint (transcoding_line path tgt) :: trace s)%list.
Proof.
  intros Hmiss Ht Hv He. unfold transcode_source_audio.
  destruct (split_root_extension path) as [root ext]. cbn [fst snd] in *.
  intros Hvalid Hout Htool Hrun. cbv zeta.
  pose proof (resolve_miss s ext fmt operation tgt tool vs opts Hmiss Ht Hv He) as Hres.
  destruct s as [w st fl tr]. cbn [world statics failed trace] in *.
  run_m. rewrite Hres. cbv beta iota. rewrite Hvalid, Htool. cbn [truthy_bool].
  change (PosixPath.extsep) with ".". rewrite Hout. cbn [negb].
  unfold invoke_tool. run_m. cbn [truthy_bool].
  destruct (subprocess_run w _) as [w' r]. cbn [snd] in Hrun. subst r.
  cbv beta iota. cbn [run_event].
  match goal with
  | |- context [report_percentage ?s0] =>
      destruct (report_percentage_frame s0) as (lines & r & Hrep & _)
  end.
  rewrite Hrep. cbn [world statics failed trace].
  destruct r as [[] | e];
    cbn [fst world statics failed trace count_transcode with_cache
         total_count_transcode total_time_ns_transcode];
    (split; [reflexivity | split; [reflexivity | split; [reflexivity |
       split; [reflexivity | exists lines; reflexivity]]]]).
Qed.

Lemma dict_get_set_same {V : Type} (d : dict V) (k : string) (v : V) :
  dict_get (dict_set d k v) k = Some v.
Proof.
  induction d as [| [k' v'] d IH]; cbn [dict_set dict_get].
  - now rewrite String.eqb_refl.
  - destruct (String.eqb k k') eqn:E; cbn [dict_get]; rewrite E; [reflexivity | exact IH].
Qed.

Lemma dict_get_set_other {V : Type} (d : dict V) (k k0 : string) (v : V) :
  k0 <> k -> dict_get (dict_set d k v) k0 = dict_get d k0.
Proof.
  intros Hne. induction d as [| [k' v'] d IH]; cbn [dict_set dict_get].
  - apply String.eqb_neq in Hne. now rewrite Hne.
  - destruct (String.eqb k k') eqn:E; cbn [dict_get].
    + apply String.eqb_eq in E. subst k'.
      apply String.eqb_neq in Hne. now rewrite Hne.
    + now rewrite IH.
Qed.

(** X12. A failed tool run. Under the same conditions, when the tool exits
    with an error and the ledger is the dictionary of [main], the five
    error lines are printed, the source path is entered in the ledger with
    the fixed hint, the notification is sent, and neither the transcode
    counter nor the transcode time changes. With a ledger argument that is
    no dictionary, as its default is, the step raises [TypeError]. *)
Theorem failed_run_is_recorded (s : Sys W) (path fmt operation tgt tool : string)
    (vs : pyseq) (opts : list string) (err : CalledProcessError) :
  eq_str_opt (snd (split_root_extension path)) (extension_prev (statics s)) = false ->
  output_extension operation fmt = Some tgt ->
  valid_sources operation fmt = Some vs ->
  tool_for platform_system operation fmt = Some (tool, opts) ->
  py_in (PyStr.lower (snd (split_root_extension path))) vs = true ->
  os_path_exists (world s) (fst (split_root_extension path) ++ "." ++ tgt) = false ->
  os_path_isfile (world s) tool = true ->
  snd (subprocess_run (world s)
         ((tool :: path :: opts) ++
          [(fst (split_root_extension path) ++ "." ++ tgt)%string])%list)
    = Failed err ->
  let out := fst (split_root_extension path) ++ "." ++ tgt in
  let command := ((tool :: path :: opts) ++ [out])%list in
  let message := "Failed to convert one or more files. Check the log." in
  let s' := fst (transcode_source_audio path fmt operation false TheLedger s) in
  world s' = toast (fst (subprocess_run (world s) command)) "Error" message /\
  failed s' = dict_set (failed s) path failure_hint /\
  dict_get (failed s') path = Some failure_hint /\
  total_count_transcode (statics s') = total_count_transcode (statics s) /\
  total_time_ns_transcode (statics s') = total_time_ns_transcode (statics s) /\
  (exists lines,
     trace s' = (map EvPrint lines ++ EvToast "Error" message
                 :: map EvPrint (failure_lines path err)
                 ++ EvRun command false
                 :: EvPrint (transcoding_line path tgt) :: trace s)%list) /\
  snd (transcode_source_audio path fmt operation false NotADict s) = Raise TypeError.
Proof.
  intros Hmiss Ht Hv He. unfold transcode_source_audio.
  destruct (split_root_extension path) as [root ext]. cbn [fst snd] in *.
  intros Hvalid Hout Htool Hrun. cbv zeta.
  pose proof (resolve_miss s ext fmt operation tgt tool vs opts Hmiss Ht Hv He) as Hres.
  destruct s as [w st fl tr]. cbn [world statics failed trace] in *.
  run_m. rewrite Hres. cbv beta iota. rewrite Hvalid, Htool. cbn [truthy_bool].
  change (PosixPath.extsep) with ".". rewrite Hout. cbn [negb].
  unfold invoke_tool, record_failure. run_m. cbn [truthy_bool].
  destruct (subprocess_run w _) as [w' r]. cbn [snd] in Hrun. subst r.
  cbv beta iota. cbn [run_event].
  match goal with
  | |- context [report_percentage ?s0] =>
      destruct (report_percentage_frame s0) as (lines & r & Hrep & _)
  end.
  rewrite Hrep. cbn [world statics failed trace].
  destruct r as [[] | e];
    cbn [fst snd world statics failed trace with_cache
         total_count_transcode total_time_ns_transcode];
    (split; [reflexivity | split; [reflexivity | split; [apply dict_get_set_same |
       split; [reflexivity | split; [reflexivity |
         split; [exists lines; reflexivity | reflexivity]]]]]]).
Qed.

(** X13. A tool that is not installed. Under the same conditions but with
    no file at the path of the tool, nothing is run: the step prints that
    there is no such tool, and leaves the world, the ledger and the
    counters as they are. *)
Theorem missing_tool_is_reported (s : Sys W) (path fmt operation tgt tool : string)
    (vs : pyseq) (opts : list string) (dff : ledger_arg) :
  eq_str_opt (snd (split_root_extension path)) (extension_prev (statics s)) = false ->
  output_extension operation fmt = Some tgt ->
  valid_sources operation fmt = Some vs ->
  tool_for platform_system operation fmt = Some (tool, opts) ->
  py_in (PyStr.lower (snd (split_root_extension path))) vs = true ->
  os_path_exists (world s) (fst (split_root_extension path) ++ "." ++ tgt) = false ->
  os_path_isfile (world s) tool = false ->
  let s' := fst (transcode_source_audio path fmt operation false dff s) in
  world s' = world s /\
  failed s' = failed s /\
  tool_runs (trace s') = tool_runs (trace s) /\
  total_count_transcode (statics s') = total_count_transcode (statics s) /\
  total_count_source (statics s') = total_count_source (statics s) /\
  exists lines,
    trace s' = (map EvPrint lines ++ EvPrint (no_tool_line tool) :: trace s)%list.
Proof.
  intros Hmiss Ht Hv He. unfold transcode_source_audio.
  destruct (split_root_extension path) as [root ext]. cbn [fst snd] in *.
  intros Hvalid Hout Htool. cbv zeta.
  pose proof (resolve_miss s ext fmt operation tgt tool vs opts Hmiss Ht Hv He) as Hres.
  destruct s as [w st fl tr]. cbn [world statics failed trace] in *.
  run_m. rewrite Hres. cbv beta iota. rewrite Hvalid, Htool. cbn [truthy_bool].
  change (PosixPath.extsep) with ".". rewrite Hout. cbn [negb].
  unfold invoke_tool. run_m. cbn [truthy_bool].
  match goal with
  | |- context [report_percentage ?s0] =>
      destruct (report_percentage_frame s0) as (lines & r & Hrep & _)
  end.
  rewrite Hrep. cbn [world statics failed trace].
  destruct r as [[] | e];
    cbn [fst snd world statics failed trace with_cache
         total_count_transcode total_count_source];
    (split; [reflexivity | split; [reflexivity | split; [| split; [reflexivity |
       split; [reflexivity | exists lines; reflexivity]]]]]);
    rewrite tool_runs_prints; reflexivity.
Qed.

(** X14. A format the registry does not know. The first call for an
    extension raises [KeyError] at the lookup of the target, for every
    file, eligible or not, after the extension was written to the cache
    and before anything else is done. A second call for the same extension
    then finds the cache, which holds no target, and raises [TypeError]. *)
Theorem unknown_format_raises_KeyError (s : Sys W) (path fmt operation : string)
    (percentage_gather : bool) (dff : ledger_arg) :
  output_extension operation fmt = None ->
  eq_str_opt (snd (split_root_extension path)) (extension_prev (statics s)) = false ->
  target_prev (statics s) = None ->
  let r := transcode_source_audio path fmt operation percentage_gather dff s in
  snd r = Raise KeyError /\
  world (fst r) = world s /\ trace (fst r) = trace s /\ failed (fst r) = failed s /\
  statics (fst r) = set_extension_prev (snd (split_root_extension path)) (statics s) /\
  snd (transcode_source_audio path fmt operation percentage_gather dff (fst r))
    = Raise TypeError.
Proof.
  intros Ht. unfold transcode_source_audio.
  destruct (split_root_extension path) as [root ext]. cbn [fst snd].
  intros Hmiss Hnone. cbv zeta.
  destruct s as [w st fl tr]. cbn [world statics failed trace] in *.
  unfold resolve. run_m. rewrite Hmiss.
  rewrite registry_platform_free. unfold output_extension in Ht.
  cbv beta iota. rewrite Ht. cbv beta iota. cbn [fst snd world statics failed trace].
  repeat split.
  cbn [set_extension_prev with_cache extension_prev eq_str_opt].
  rewrite String.eqb_refl. cbv beta iota.
  change (target_prev (set_extension_prev ext st)) with (target_prev st).
  rewrite Hnone. reflexivity.
Qed.

(** X15. The cache is keyed by the extension alone. Once a resolution has
    returned for an extension, every later resolution for that extension
    returns the same five values and leaves the state as it is, whatever
    the format and the operation asked for and whatever the world has
    become: the registry is not read and the tool is not looked for
    again. *)
Theorem resolution_is_cached_by_extension (s s1 : Sys W) (ext fmt operation : string)
    (vals : option string * option bool * option bool * option string *
            option (list string)) :
  resolve ext fmt operation s = (s1, Ret vals) ->
  forall (w : W) (fl : dict string) (tr : list event) (fmt' operation' : string),
    let s2 := {| world := w; statics := statics s1; failed := fl; trace := tr |} in
    resolve ext fmt' operation' s2 = (s2, Ret vals).
Proof.
  unfold resolve. destruct s as [w0 st fl0 tr0]. run_m.
  destruct (eq_str_opt ext (extension_prev st)) eqn:Hhit.
  - intros H w fl tr fmt' operation'. injection H as <- <-.
    cbn [statics]. rewrite Hhit. reflexivity.
  - destruct (dict_transcode_tool_platform_get platform_system operation)
      as [[tools sources] targets].
    cbv beta iota.
    destruct (dict_get targets fmt) as [t |]; cbv beta iota; [| discriminate].
    destruct (dict_get sources fmt) as [v |]; cbv beta iota; [| discriminate].
    destruct (dict_get tools fmt) as [entry |]; cbv beta iota; [| discriminate].
    intros H w fl tr fmt' operation'. injection H as <- <-.
    cbn [statics set_options_prev set_transcode_tool_prev
         set_does_transcode_tool_exist_prev set_is_valid_source_prev set_target_prev
         set_extension_prev with_cache extension_prev target_prev is_valid_source_prev
         does_transcode_tool_exist_prev transcode_tool_prev options_prev eq_str_opt].
    rewrite String.eqb_refl. reflexivity.
Qed.

(** X16. Relocating a single file without a transcode. With a file as the
    source, no transcode asked for and a destination that exists and is
    not the source path, [process_file] raises [UnboundLocalError] at the
    message that names the transcoded file: nothing is printed and nothing
    is moved. When the destination has to be created first, the exception
    comes after the directory is made. *)
Theorem relocating_one_file_raises (s : Sys W) (root_source dir_destination target : string)
    (dff : ledger_arg) :
  root_source <> dir_destination ->
  (os_path_exists (world s) dir_destination = true ->
   process_file root_source dir_destination target None dff s
   = (s, Raise UnboundLocalError)) /\
  (exists e, snd (process_file root_source dir_destination target None dff s) = Raise e) /\
  relocations (trace (fst (process_file root_source dir_destination target None dff s)))
  = relocations (trace s).
Proof.
  intros Hne. apply String.eqb_neq in Hne.
  unfold process_file. destruct s as [w st fl tr]. run_m.
  destruct (os_path_exists w dir_destination) eqn:Hex.
  - cbv beta iota. rewrite Hne. cbn [negb]. cbv beta iota.
    split; [reflexivity | split; [eexists; reflexivity | reflexivity]].
  - cbv beta iota. split; [discriminate |].
    unfold create_directory. run_m. rewrite Hex. cbn [negb].
    destruct (pathlib_mkdir w dir_destination) as [w' [|]]; cbv beta iota.
    + rewrite Hne. cbn [negb]. cbv beta iota.
      split; [eexists; reflexivity | reflexivity].
    + split; [eexists; reflexivity | reflexivity].
Qed.

End ToolRuns.

(* ------------------------------------------------------------------ *)
(** * The transcode counter and the failure ledger, against the trace *)

Section TranscodeCounter.
Context {W : Type} {os : OS W}.

Lemma runs_ok_other (e : event) (t : list event) :
  is_completed_run e = false -> runs_ok (e :: t) = runs_ok t.
Proof. destruct e as [ | | | | ? [|] | | | | ]; cbn; intros; try discriminate; auto. Qed.

Lemma counts_emit (e : event) :
  is_completed_run e = false -> preserves (W := W) transcodes_inv (emit e).
Proof.
  intros He s H. unfold transcodes_inv, emit in *. cbn [fst trace statics].
  now rewrite runs_ok_other.
Qed.

Lemma counts_call {A : Type} (f : W -> W * A) (ev : A -> event) :
  (forall a, is_completed_run (ev a) = false) ->
  preserves (W := W) transcodes_inv (call f ev).
Proof.
  intros He s H. unfold transcodes_inv, call in *.
  destruct (f (world s)) as [w' a]. cbn [fst trace statics].
  now rewrite runs_ok_other.
Qed.

Lemma counts_modify (f : Statics -> Statics) :
  (forall st, total_count_transcode (f st) = total_count_transcode st) ->
  preserves (W := W) transcodes_inv (modify_statics f).
Proof.
  intros Hf s H. unfold transcodes_inv, modify_statics in *. cbn [fst trace statics].
  now rewrite Hf.
Qed.

Lemma counts_set_failed (d : dict string) :
  preserves (W := W) transcodes_inv (set_failed d).
Proof. intros s H. exact H. Qed.

Lemma counts_show_toast (title message : string) :
  preserves (W := W) transcodes_inv (show_toast title message).
Proof. intros s H. exact H. Qed.

End TranscodeCounter.

Ltac counts_step :=
  match goal with
  | |- preserves _ (bind _ _) => apply pres_bind; [| intros ?]
  | |- preserves _ (for_each _ _) => apply pres_for_each; intros ?
  | |- preserves _ (print _) => apply counts_emit; reflexivity
  | |- preserves _ (print_and_log_spacer _ _ _ _) => apply counts_emit; reflexivity
  | |- preserves _ (call _ _) =>
      apply counts_call; let x := fresh in
      intros x; first [reflexivity | destruct x; reflexivity]
  | |- preserves _ (modify_statics _) => apply counts_modify; intros ?; reflexivity
  | |- preserves _ (set_failed _) => apply counts_set_failed
  | |- preserves _ (show_toast _ _) => apply counts_show_toast
  | |- preserves _ (create_directory _) => unfold create_directory
  | |- preserves _ (walk_files _ _) => unfold walk_files
  | |- preserves _ (report_percentage) => unfold report_percentage
  | |- preserves _ (record_failure _ _) => unfold record_failure
  | |- preserves _ (resolve _ _ _) => unfold resolve
  | |- preserves _ (delete_empty_directories_in_target _) =>
      unfold delete_empty_directories_in_target
  | |- preserves _ (transcode_source_audio _ _ _ _ _) => unfold transcode_source_audio
  | |- preserves _ (move_or_copy_file _ _ _) => unfold move_or_copy_file
  | |- preserves _ (build_target_and_operate _ _ _ _ _) => unfold build_target_and_operate
  | |- preserves _ (process_dir _ _ _ _ _ _ _) => unfold process_dir
  | |- preserves _ (process_file _ _ _ _ _) => unfold process_file
  | |- preserves _ (statistic_print _ _ _) => unfold statistic_print
  | |- preserves _ (dir_default_set _) => unfold dir_default_set
  | |- preserves _ (cwd_change _) => unfold cwd_change
  | |- preserves _ (if ?b then _ else _) => destruct b
  | |- preserves _ (match ?x with _ => _ end) => destruct x
  | |- preserves _ _ => solve [auto with pres]
  end.

Section TranscodeCounterProgram.
Context {W : Type} {os : OS W}.

Lemma counts_invoke_tool (a b c : string) (x : option bool) (tool : option string)
    (opts : option (list string)) (dff : ledger_arg) :
  preserves (W := W) transcodes_inv (invoke_tool a b c x tool opts dff).
Proof.
  intros [w st fl tr] H. unfold transcodes_inv in *. cbn [statics trace] in H.
  unfold invoke_tool, record_failure. run_m.
  destruct (truthy_bool x).
  - destruct tool as [tool |]; [| exact H].
    destruct opts as [opts |]; [| exact H].
    destruct (subprocess_run w _) as [w' [out | err |]]; cbv beta iota.
    + cbn [fst statics trace total_count_transcode count_transcode runs_ok run_event].
      rewrite H. lia.
    + destruct dff; cbn [fst statics trace runs_ok run_event]; exact H.
    + cbn [fst statics trace runs_ok run_event]. exact H.
  - destruct tool; exact H.
Qed.

Hint Resolve counts_invoke_tool : pres.

(** X17. The transcode counter counts the completed tool runs: the
    equality holds where the script starts and is kept by [main], on every
    path and also when an exception ends the run. The number in the line
    "Total time taken for successfully transcoding N files" is the number
    of tool runs that completed. *)
Theorem transcode_counter_counts_completed_runs (args : Args) (w : W) :
  preserves (W := W) transcodes_inv (main args) /\
  transcodes_inv (sys_init w) /\
  total_count_transcode (statics (fst (main args (sys_init w)))) =
  runs_ok (trace (fst (main args (sys_init w)))).
Proof.
  assert (Hp : preserves (W := W) transcodes_inv (main args)).
  { unfold main. repeat counts_step. }
  split; [exact Hp | split; [reflexivity |]].
  apply (Hp (sys_init w)). reflexivity.
Qed.

End TranscodeCounterProgram.

Section Ledger.
Context {W : Type} {os : OS W}.

Lemma ledger_emit (e : event) :
  is_failed_run e = false -> preserves (W := W) ledger_inv (emit e).
Proof.
  intros He [w st fl tr] [H1 H2]. unfold ledger_inv, emit in *.
  cbn [fst trace failed] in *. split.
  - intros command [Heq | Hin]; [subst e; discriminate | now apply H1].
  - intros path Hp. destruct (H2 path Hp) as (tool & rest & Hin).
    exists tool, rest. now right.
Qed.

Lemma ledger_call {A : Type} (f : W -> W * A) (ev : A -> event) :
  (forall a, is_failed_run (ev a) = false) ->
  preserves (W := W) ledger_inv (call f ev).
Proof.
  intros He [w st fl tr] [H1 H2]. unfold ledger_inv, call in *.
  cbn [world] in *. destruct (f w) as [w' a].
  cbn [fst trace failed] in *. split.
  - intros command [Heq | Hin]; [specialize (He a); rewrite Heq in He; discriminate
                                | now apply H1].
  - intros path Hp. destruct (H2 path Hp) as (tool & rest & Hin).
    exists tool, rest. now right.
Qed.

Lemma ledger_modify (f : Statics -> Statics) :
  preserves (W := W) ledger_inv (modify_statics f).
Proof. intros s H. exact H. Qed.

Lemma ledger_show_toast (title message : string) :
  preserves (W := W) ledger_inv (show_toast title message).
Proof.
  intros [w st fl tr] [H1 H2]. unfold ledger_inv, show_toast in *.
  cbn [fst trace failed] in *. split.
  - intros command [Heq | Hin]; [discriminate | now apply H1].
  - intros path Hp. destruct (H2 path Hp) as (tool & rest & Hin).
    exists tool, rest. now right.
Qed.

Lemma dict_keys_set {V : Type} (d : dict V) (k p : string) (v : V) :
  In p (dict_keys (dict_set d k v)) -> p = k \/ In p (dict_keys d).
Proof.
  unfold dict_keys. induction d as [| [k' v'] d IH]; cbn [dict_set map In fst].
  - intros [H | []]. now left.
  - destruct (String.eqb k k') eqn:E; cbn [map In fst].
    + intros H. now right.
    + intros [H | H]; [right; now left |].
      destruct (IH H) as [Hk | Hd]; [now left | right; now right].
Qed.

End Ledger.

Ltac ledger_step :=
  match goal with
  | |- preserves _ (bind _ _) => apply pres_bind; [| intros ?]
  | |- preserves _ (for_each _ _) => apply pres_for_each; intros ?
  | |- preserves _ (print _) => apply ledger_emit; reflexivity
  | |- preserves _ (print_and_log_spacer _ _ _ _) => apply ledger_emit; reflexivity
  | |- preserves _ (call _ _) =>
      apply ledger_call; let x := fresh in
      intros x; first [reflexivity | destruct x; reflexivity]
  | |- preserves _ (modify_statics _) => apply ledger_modify
  | |- preserves _ (show_toast _ _) => apply ledger_show_toast
  | |- preserves _ (create_directory _) => unfold create_directory
  | |- preserves _ (walk_files _ _) => unfold walk_files
  | |- preserves _ (report_percentage) => unfold report_percentage
  | |- preserves _ (resolve _ _ _) => unfold resolve
  | |- preserves _ (delete_empty_directories_in_target _) =>
      unfold delete_empty_directories_in_target
  | |- preserves _ (transcode_source_audio _ _ _ _ _) => unfold transcode_source_audio
  | |- preserves _ (move_or_copy_file _ _ _) => unfold move_or_copy_file
  | |- preserves _ (build_target_and_operate _ _ _ _ _) => unfold build_target_and_operate
  | |- preserves _ (if ?b then _ else _) => destruct b
  | |- preserves _ (match ?x with _ => _ end) => destruct x
  | |- preserves _ _ => solve [auto with pres]
  end.

Section LedgerProgram.
Context {W : Type} {os : OS W}.

Lemma ledger_invoke_tool (a b c : string) (x : option bool) (tool : option string)
    (opts : option (list string)) :
  preserves (W := W) ledger_inv (invoke_tool a b c x tool opts TheLedger).
Proof.
  intros [w st fl tr] [H1 H2]. unfold ledger_inv in *. cbn [failed trace] in H1, H2.
  unfold invoke_tool, record_failure. run_m.
  destruct (truthy_bool x).
  - destruct tool as [tool |]; [| cbn; split; [intros ? [? | ?]; [discriminate | auto] |
                                  intros p Hp; destruct (H2 p Hp) as (t & r & Hin);
                                  exists t, r; now right]].
    destruct opts as [opts |]; [| cbn; split; [intros ? [? | ?]; [discriminate | auto] |
                                  intros p Hp; destruct (H2 p Hp) as (t & r & Hin);
                                  exists t, r; now right]].
    destruct (subprocess_run w _) as [w' [out | err |]]; cbv beta iota.
    + cbn [fst failed trace run_event]. split.
      * intros command [Heq | [Heq | Hin]]; [discriminate | discriminate | auto].
      * intros p Hp. destruct (H2 p Hp) as (t & r & Hin).
        exists t, r. right. now right.
    + cbn [fst failed trace run_event]. split.
      * intros command Hin.
        do 6 (destruct Hin as [Heq | Hin]; [discriminate |]).
        destruct Hin as [Heq | [Heq | Hin]]; [| discriminate |].
        -- injection Heq as <-. exists tool, a, (opts ++ [b])%list.
           split; [reflexivity | apply dict_get_set_same].
        -- destruct (H1 command Hin) as (t & p & r & -> & Hg).
           exists t, p, r. split; [reflexivity |].
           destruct (String.eqb_spec p a) as [-> | Hne].
           ++ apply dict_get_set_same.
           ++ rewrite dict_get_set_other by exact Hne. exact Hg.
      * intros p Hp. apply dict_keys_set in Hp. destruct Hp as [-> | Hp].
        -- exists tool, (opts ++ [b])%list. do 6 right. left. reflexivity.
        -- destruct (H2 p Hp) as (t & r & Hin). exists t, r. do 8 right. exact Hin.
    + cbn [fst failed trace run_event]. split.
      * intros command [Heq | [Heq | Hin]]; [discriminate | discriminate | auto].
      * intros p Hp. destruct (H2 p Hp) as (t & r & Hin).
        exists t, r. right. now right.
  - destruct tool as [tool |]; cbn; split; auto.
    + intros ? [? | ?]; [discriminate | auto].
    + intros p Hp. destruct (H2 p Hp) as (t & r & Hin). exists t, r. now right.
Qed.

Hint Resolve ledger_invoke_tool : pres.

(** X18. The failure ledger lists the files on which the tool failed.
    Through the pass over a directory and through the pass over a single
    file, with the ledger of [main], these two facts are kept, on every
    path and also when an exception ends the pass: every failed tool run
    has its source file in the ledger, with the fixed hint; and every file
    in the ledger is the source file of a failed tool run. They hold where
    [main] has just emptied the ledger and no tool has failed. *)
Theorem ledger_lists_the_failed_runs
    (root_source dir_destination target : string)
    (dir_destination_original transcode : option string) (percentage_gather : bool) :
  preserves (W := W) ledger_inv
    (process_dir root_source dir_destination dir_destination_original target
       transcode percentage_gather TheLedger) /\
  preserves (W := W) ledger_inv
    (process_file root_source dir_destination target transcode TheLedger) /\
  (forall s : Sys W,
     failed s = [] -> filter is_failed_run (trace s) = [] -> ledger_inv s).
Proof.
  split; [| split].
  - unfold process_dir. repeat ledger_step.
  - unfold process_file. repeat ledger_step.
  - intros s Hf Ht. unfold ledger_inv. rewrite Hf. split.
    + intros command Hin.
      assert (Hin' : In (EvRun command false) (filter is_failed_run (trace s))).
      { apply filter_In. split; [exact Hin | reflexivity]. }
      rewrite Ht in Hin'. destruct Hin'.
    + intros path [].
Qed.

End LedgerProgram.

(* ------------------------------------------------------------------ *)
(** * The plan, the formats and the refusals of [main] *)

Section Plans.
Import PyStr PosixPath.

(** X19. Destination mirroring, where it holds. For an absolute
    destination that is not the source root, and a source root that does
    not end in a separator, the head directory is
    [destination/basename(root)]; the files of a directory [root/rel] are
    planned into [destination/basename(root)/rel], and the files of the
    root itself into the head directory. *)
Theorem absolute_destination_is_mirrored (root_source dir_destination rel : string) :
  root_source <> dir_destination ->
  startswith sep dir_destination = true ->
  basename root_source <> EmptyString ->
  startswith sep rel = false ->
  let head := head_directory root_source dir_destination in
  head = dir_destination ++ "/" ++ basename root_source /\
  target_directory root_source (root_source ++ "/" ++ rel) head =
    dir_destination ++ "/" ++ basename root_source ++ "/" ++ rel /\
  same_directory (target_directory root_source root_source head) head.
Proof.
  intros Hne Habs Hbase Hrel. cbv zeta.
  split; [now apply head_directory_absolute | split].
  - now apply plan_mirrors_source.
  - rewrite head_directory_absolute by assumption.
    apply plan_at_root.
    + destruct dir_destination; discriminate.
    + rewrite <- app_assoc_s. rewrite endswith_app by assumption.
      apply no_sep_endswith, basename_no_sep.
Qed.

End Plans.

Lemma forallb_seq (f : nat -> bool) (n : nat) (i : nat) :
  forallb f (seq 0 n) = true -> (i < n)%nat -> f i = true.
Proof.
  intros H Hi. rewrite forallb_forall in H. apply H. apply in_seq. lia.
Qed.

Example sizes_checked : forallb sizeof_fmt_check (seq 0 1024) = true.
Proof. vm_compute. reflexivity. Qed.

Example whole_seconds_checked : forallb hms_check (seq 0 3600) = true.
Proof. vm_compute. reflexivity. Qed.

(** X20. Sizes below 1024 bytes are printed as the number of bytes with
    one decimal, and whole multiples of 1024 bytes up to 1024 times 1024
    as the number of KiB: the division by 1024.0 is exact on them. *)
Theorem small_sizes_are_printed_exactly (n : Z) :
  0 <= n < 1024 ->
  sizeof_fmt n = PyStr.str_int n ++ ".0B" /\
  (n + 1 < 1024 -> sizeof_fmt (1024 * (n + 1)) = PyStr.str_int (n + 1) ++ ".0KiB").
Proof.
  intros Hn.
  assert (Hidx : (Z.to_nat n < 1024)%nat) by lia.
  pose proof (forallb_seq sizeof_fmt_check 1024 (Z.to_nat n) sizes_checked Hidx) as H.
  unfold sizeof_fmt_check in H. cbv zeta in H. rewrite Z2Nat.id in H by lia.
  apply andb_prop in H. destruct H as [H1 H2].
  apply String.eqb_eq in H1. apply String.eqb_eq in H2.
  split; [exact H1 |].
  intros Hlt. apply Z.ltb_lt in Hlt. rewrite Hlt in H2. exact H2.
Qed.

(** X21. Whole seconds within the first hour. The seconds shown are always
    the remainder modulo 60. The minutes shown are the whole minutes
    exactly when the time is below one minute, or the remainder is below
    30 seconds, or it is 30 seconds after an even number of minutes;
    otherwise the minutes are rounded up. *)
Theorem whole_seconds_within_the_hour (k : Z) :
  0 <= k < 3600 ->
  (hms_parts (k * 1000000000) = Some (k / 3600, k mod 3600 / 60, SecInt (k mod 60)) <->
   k < 60 \/ k mod 60 < 30 \/ (k mod 60 = 30 /\ Z.even (k / 60) = true)) /\
  exists hours minutes,
    hms_parts (k * 1000000000) = Some (hours, minutes, SecInt (k mod 60)).
Proof.
  intros Hk.
  assert (Hidx : (Z.to_nat k < 3600)%nat) by lia.
  pose proof (forallb_seq hms_check 3600 (Z.to_nat k) whole_seconds_checked Hidx) as H.
  unfold hms_check in H. cbv zeta in H. rewrite Z2Nat.id in H by lia.
  apply andb_prop in H. destruct H as [H1 H2].
  apply Bool.eqb_prop in H1.
  unfold hms_exact, hms_seconds_exact, rounds_down in *.
  destruct (hms_parts (k * 1000000000)) as [[[h m] [sec | hs]] |]; try discriminate.
  apply Z.eqb_eq in H2. subst sec. split.
  - split.
    + intros Heq. injection Heq as -> ->.
      rewrite !Z.eqb_refl in H1. cbn [andb] in H1. symmetry in H1.
      apply orb_prop in H1. destruct H1 as [H1 | H1].
      * apply orb_prop in H1. destruct H1 as [H1 | H1].
        -- left. now apply Z.ltb_lt.
        -- right. left. now apply Z.ltb_lt.
      * apply andb_prop in H1. destruct H1 as [Ha Hb].
        right. right. split; [now apply Z.eqb_eq | exact Hb].
    + intros Hc.
      assert (Hr : (k <? 60) || (k mod 60 <? 30) || ((k mod 60 =? 30) && Z.even (k / 60))
                   = true).
      { destruct Hc as [Hc | [Hc | [Hc He]]].
        - apply Z.ltb_lt in Hc. now rewrite Hc.
        - apply Z.ltb_lt in Hc. rewrite Hc. now rewrite orb_true_r.
        - apply Z.eqb_eq in Hc. rewrite Hc, He. now rewrite orb_true_r. }
      rewrite Hr in H1. rewrite Z.eqb_refl, andb_true_r in H1.
      apply andb_prop in H1. destruct H1 as [Hh Hm].
      apply Z.eqb_eq in Hh. apply Z.eqb_eq in Hm. now subst.
  - exists h, m. reflexivity.
Qed.

(** X22. The three dictionaries of the registry have the same keys, [opus]
    and [flac], on every platform and for every operation, so a format for
    which one lookup returns is found by all three. Every operation other
    than [encode] selects the decode tables, every platform other than
    Windows the Linux tools, and the options of a tool do not depend on the
    platform. *)
Theorem registry_is_keyed_alike (platform operation : string) :
  let r := dict_transcode_tool_platform_get platform operation in
  dict_keys (fst (fst r)) = [opus; flac] /\
  dict_keys (snd (fst r)) = [opus; flac] /\
  dict_keys (snd r) = [opus; flac] /\
  (operation <> "encode" -> r = dict_transcode_tool_platform_get platform "decode") /\
  (platform <> "Windows" -> r = dict_transcode_tool_platform_get "Linux" operation) /\
  (forall key,
     option_map snd (dict_get (fst (fst r)) key) =
     option_map snd
       (dict_get (fst (fst (dict_transcode_tool_platform_get "Linux" operation))) key)).
Proof.
  cbv zeta.
  split; [| split; [| split; [| split; [| split]]]].
  - unfold dict_transcode_tool_platform_get.
    destruct (String.eqb platform "Windows"), (String.eqb operation "encode"); reflexivity.
  - unfold dict_transcode_tool_platform_get.
    destruct (String.eqb operation "encode"); reflexivity.
  - unfold dict_transcode_tool_platform_get.
    destruct (String.eqb operation "encode"); reflexivity.
  - intros H. apply String.eqb_neq in H. unfold dict_transcode_tool_platform_get.
    rewrite H. reflexivity.
  - intros H. apply String.eqb_neq in H. now apply registry_not_windows.
  - intros key. destruct (String.eqb platform "Windows") eqn:E.
    + unfold dict_transcode_tool_platform_get. rewrite E.
      change (String.eqb "Linux" "Windows") with false. cbv iota.
      destruct (String.eqb operation "encode"); cbn [fst snd];
        unfold dict_encode_tool_windows, dict_encode_tool_linux,
               dict_decode_tool_windows, dict_decode_tool_linux;
        cbn [dict_get];
        destruct (String.eqb key "opus"); try reflexivity;
        destruct (String.eqb key "flac"); reflexivity.
    + now rewrite (registry_not_windows platform operation E).
Qed.

Section Refusals.
Context {W : Type} {os : OS W}.


End Refusals.

Section MoreSteps.
Context {W : Type} {os : OS W}.

Lemma move_or_copy_file_time (s : Sys W) (file dst target : string) :
  total_time_ns_relocate (statics (fst (move_or_copy_file file dst target s)))
  = total_time_ns_relocate (statics s).
Proof.
  rewrite move_or_copy_file_eq.
  destruct (os_path_getsize (world s) file) as [size |]; [| reflexivity].
  cbv zeta. destruct (PyStr.in_tuple _ [opus; flac]).
  - destruct (snd (shutil_move (world s) file dst)); reflexivity.
  - destruct (PyStr.in_tuple _ companion_extensions); [| reflexivity].
    destruct (snd (shutil_copy2 (world s) file dst)); reflexivity.
Qed.

(** X24. The relocation time. When [build_target_and_operate] hands the
    file on and the relocation returns, the relocation time grows by the
    difference of the clock between its start and its end, the creation of
    the directory included; when the creation or the relocation raises, and
    when the file is not handed on, the time keeps its value. *)
Theorem relocation_time_is_added_on_return (s : Sys W)
    (root_source dir_source file_source dir_destination extension_target : string) :
  let r := build_target_and_operate root_source dir_source file_source dir_destination
             extension_target s in
  let before := total_time_ns_relocate (statics s) in
  let after := total_time_ns_relocate (statics (fst r)) in
  (PyStr.in_tuple (snd (split_root_extension file_source))
     (main_and_relevant_files_for_audio_get extension_target) = true ->
   snd r = Ret tt ->
   after = before + (time_monotonic_ns (world (fst r)) - time_monotonic_ns (world s))) /\
  (PyStr.in_tuple (snd (split_root_extension file_source))
     (main_and_relevant_files_for_audio_get extension_target) = false ->
   fst r = s) /\
  (forall e, snd r = Raise e -> after = before).
Proof.
  cbv zeta. rewrite build_target_and_operate_eq.
  pose proof (relocation_state_quiet s root_source dir_source dir_destination) as Hq.
  cbv zeta in Hq. destruct Hq as (_ & _ & Hst).
  destruct (PyStr.in_tuple _ (main_and_relevant_files_for_audio_get extension_target)).
  - destruct (relocation_state root_source dir_source dir_destination s) as [s1 [b | e1]];
      cbn [fst] in Hst.
    + pose proof (move_or_copy_file_time s1
                    (PosixPath.join dir_source [file_source])
                    (relocation_directory root_source dir_source dir_destination)
                    extension_target) as Ht.
      destruct (move_or_copy_file _ _ _ s1) as [s2 [[] | e2]]; cbn [fst snd] in *.
      * split; [| split; [discriminate | discriminate]].
        intros _ _. cbn [statics world add_time_relocate total_time_ns_relocate].
        rewrite Ht, Hst. reflexivity.
      * split; [discriminate | split; [discriminate |]].
        intros e _. now rewrite Ht, Hst.
    + cbn [fst snd]. split; [discriminate | split; [discriminate |]].
      intros e _. now rewrite Hst.
  - cbn [fst snd]. split; [discriminate | split; [reflexivity | discriminate]].
Qed.

Lemma decode_sources (fmt : string) (vs : pyseq) :
  valid_sources "decode" fmt = Some vs ->
  vs = PyString "opus" \/ vs = PyString "flac".
Proof.
  unfold valid_sources, dict_transcode_tool_platform_get.
  change (String.eqb "decode" "encode") with false. cbv iota. cbn [snd fst dict_get].
  unfold opus, flac, valid_decode_source_for_opus, valid_decode_source_for_flac, opus, flac.
  destruct (String.eqb (PyStr.lower fmt) "opus");
    [intros H; injection H as <-; now left |].
  destruct (String.eqb (PyStr.lower fmt) "flac");
    [intros H; injection H as <-; now right | discriminate].
Qed.

(** X25. To decode, the valid source of a format is one string, and the
    test of the extension is a substring test: the empty extension passes
    it. A file without extension is counted as a source to decode in the
    counting pass, when the path with the output extension added does not
    exist; to encode, the valid sources are a tuple and the empty extension
    is not in it. *)
Theorem decode_takes_files_without_extension (s : Sys W) (root fmt tgt : string)
    (vs : pyseq) (dff : ledger_arg) :
  output_extension "decode" fmt = Some tgt ->
  valid_sources "decode" fmt = Some vs ->
  cache_ok fmt "decode" (statics s) = true ->
  well_split root None = true ->
  os_path_exists (world s) (root ++ "." ++ tgt) = false ->
  let s' := fst (transcode_source_audio root fmt "decode" true dff s) in
  py_in EmptyString vs = true /\
  total_count_source (statics s') = total_count_source (statics s) + 1 /\
  (forall vs', valid_sources "encode" fmt = Some vs' -> py_in EmptyString vs' = false).
Proof.
  intros Ht Hv Hc Hparts Hout. cbv zeta.
  assert (Hin : py_in EmptyString vs = true).
  { destruct (decode_sources fmt vs Hv) as [-> | ->]; reflexivity. }
  split; [exact Hin | split].
  - unfold transcode_source_audio.
    change root with (path_of root None) at 1.
    rewrite (split_root_extension_parts root None Hparts). cbv iota.
    destruct (resolve_ok s (extension_of None) fmt "decode" tgt vs Ht Hv Hc)
      as (x & tool & opts & Hres).
    cbn [extension_of PyStr.lower] in Hres. rewrite Hin in Hres.
    run_m. cbn [extension_of]. rewrite Hres. cbv beta iota. cbn [truthy_bool].
    change (PosixPath.extsep) with ".". rewrite Hout. cbn [negb].
    reflexivity.
  - intros vs'. unfold valid_sources, dict_transcode_tool_platform_get.
    change (String.eqb "encode" "encode") with true. cbv iota. cbn [snd fst dict_get].
    unfold opus, flac.
    destruct (String.eqb (PyStr.lower fmt) "opus");
      [intros H; injection H as <-; reflexivity |].
    destruct (String.eqb (PyStr.lower fmt) "flac");
      [intros H; injection H as <-; reflexivity | discriminate].
Qed.

End MoreSteps.

(* ------------------------------------------------------------------ *)
(** * The further properties at concrete inputs *)

Lemma extension_is_split_and_lowered_witness :
  PosixPath.all_dots (PosixPath.basename "/music/Album/track") = false /\
  PyStr.has_char "." "WAV" = false /\ PyStr.has_char "/" "WAV" = false /\
  split_root_extension "/music/Album/track.WAV" = ("/music/Album/track", "wav").
Proof.
  split; [reflexivity | split; [reflexivity | split; [reflexivity |]]].
  apply (extension_is_split_and_lowered "/music/Album/track" "WAV"); reflexivity.
Defined.

Lemma output_is_never_the_source_witness :
  let path := "/music/Album/track.wav" in
  output_extension "encode" "flac" = Some "flac" /\
  valid_sources "encode" "flac" = Some valid_encode_source_for_flac /\
  py_in (PyStr.lower (snd (split_root_extension path))) valid_encode_source_for_flac
  = true /\
  fst (split_root_extension path) ++ "." ++ "flac" <> path.
Proof.
  cbv zeta. split; [reflexivity | split; [reflexivity | split; [reflexivity |]]].
  apply (output_is_never_the_source "/music/Album/track.wav" "encode" "flac" "flac"
           valid_encode_source_for_flac); reflexivity.
Defined.

Lemma completed_run_is_counted_witness :
  let s := sys_init album in
  let path := "/music/Album/track.wav" in
  let s' := fst (transcode_source_audio (os := linux) path "flac" "encode" false
                   TheLedger s) in
  tool_for (platform_system (OS := linux)) "encode" "flac"
  = Some ("/usr/bin/flac", options_encode_flac) /\
  os_path_exists (OS := linux) (world s) "/music/Album/track.flac" = false /\
  total_count_transcode (statics s') = total_count_transcode (statics s) + 1 /\
  failed s' = failed s.
Proof.
  cbv zeta. split; [reflexivity | split; [reflexivity |]].
  assert (H := completed_run_is_counted (os := linux) (sys_init album)
                 "/music/Album/track.wav" "flac" "encode" "flac" "/usr/bin/flac"
                 valid_encode_source_for_flac options_encode_flac TheLedger EmptyString
                 ltac:(reflexivity) ltac:(reflexivity) ltac:(reflexivity)
                 ltac:(reflexivity) ltac:(reflexivity) ltac:(reflexivity)
                 ltac:(reflexivity) ltac:(reflexivity)).
  cbv zeta in H. destruct H as (_ & Hledger & Hcount & _).
  split; [exact Hcount | exact Hledger].
Defined.

Lemma failed_run_is_recorded_witness :
  let s := sys_init album_badtool in
  let path := "/music/Album/track.wav" in
  let s' := fst (transcode_source_audio (os := linux) path "flac" "encode" false
                   TheLedger s) in
  snd (subprocess_run (OS := linux) (world s)
         (("/usr/bin/flac" :: path :: options_encode_flac)
          ++ ["/music/Album/track.flac"])%list)
  = Failed {| cpe_stderr := "None"; cpe_output := "ERROR: unsupported format";
              cpe_cmd := "(...)"; cpe_exc_info := "(...)" |} /\
  dict_get (failed s') path = Some failure_hint /\
  total_count_transcode (statics s') = total_count_transcode (statics s) /\
  snd (transcode_source_audio (os := linux) path "flac" "encode" false NotADict s)
  = Raise TypeError.
Proof.
  cbv zeta. split; [reflexivity |].
  assert (H := failed_run_is_recorded (os := linux) (sys_init album_badtool)
                 "/music/Album/track.wav" "flac" "encode" "flac" "/usr/bin/flac"
                 valid_encode_source_for_flac options_encode_flac
                 {| cpe_stderr := "None"; cpe_output := "ERROR: unsupported format";
                    cpe_cmd := "(...)"; cpe_exc_info := "(...)" |}
                 ltac:(reflexivity) ltac:(reflexivity) ltac:(reflexivity)
                 ltac:(reflexivity) ltac:(reflexivity) ltac:(reflexivity)
                 ltac:(reflexivity) ltac:(reflexivity)).
  cbv zeta in H. destruct H as (_ & _ & Hget & Hcount & _ & _ & Hraise).
  split; [exact Hget | split; [exact Hcount | exact Hraise]].
Defined.

Lemma missing_tool_is_reported_witness :
  let s := sys_init album in
  let path := "/music/Album/track.wav" in
  let s' := fst (transcode_source_audio (os := windows) path "flac" "encode" false
                   TheLedger s) in
  tool_for (platform_system (OS := windows)) "encode" "flac"
  = Some ("flac.exe", options_encode_flac) /\
  os_path_isfile (OS := windows) (world s) "flac.exe" = false /\
  world s' = world s /\
  tool_runs (trace s') = tool_runs (trace s) /\
  total_count_transcode (statics s') = total_count_transcode (statics s).
Proof.
  cbv zeta. split; [reflexivity | split; [reflexivity |]].
  assert (H := missing_tool_is_reported (os := windows) (sys_init album)
                 "/music/Album/track.wav" "flac" "encode" "flac" "flac.exe"
                 valid_encode_source_for_flac options_encode_flac TheLedger
                 ltac:(reflexivity) ltac:(reflexivity) ltac:(reflexivity)
                 ltac:(reflexivity) ltac:(reflexivity) ltac:(reflexivity)
                 ltac:(reflexivity)).
  cbv zeta in H. destruct H as (Hworld & _ & Hruns & Hcount & _).
  split; [exact Hworld | split; [exact Hruns | exact Hcount]].
Defined.

Lemma unknown_format_raises_KeyError_witness :
  let s := sys_init album in
  let path := "/music/Album/track.wav" in
  let r := transcode_source_audio (os := linux) path "mp3" "encode" false TheLedger s in
  output_extension "encode" "mp3" = None /\
  snd r = Raise KeyError /\
  snd (transcode_source_audio (os := linux) path "mp3" "encode" false TheLedger (fst r))
  = Raise TypeError.
Proof.
  cbv zeta. split; [reflexivity |].
  assert (H := unknown_format_raises_KeyError (os := linux) (sys_init album)
                 "/music/Album/track.wav" "mp3" "encode" false TheLedger
                 ltac:(reflexivity) ltac:(reflexivity) ltac:(reflexivity)).
  cbv zeta in H. destruct H as (Hfirst & _ & _ & _ & _ & Hsecond).
  split; [exact Hfirst | exact Hsecond].
Defined.

Lemma resolution_is_cached_by_extension_witness :
  let first := resolve (os := linux) "wav" "flac" "encode" (sys_init album) in
  let vals := (Some "flac", Some true, Some true, Some "/usr/bin/flac",
               Some options_encode_flac) in
  let later := {| world := album_noexec; statics := statics (fst first);
                  failed := []; trace := [] |} in
  first = (fst first, Ret vals) /\
  resolve (os := linux) "wav" "opus" "decode" later = (later, Ret vals).
Proof.
  cbv zeta. split; [reflexivity |].
  apply (resolution_is_cached_by_extension (os := linux) (sys_init album)
           (fst (resolve (os := linux) "wav" "flac" "encode" (sys_init album)))
           "wav" "flac" "encode").
  reflexivity.
Defined.

Lemma relocating_one_file_raises_witness :
  let s := sys_init album in
  "/music/Album/intro.opus" <> "/out" /\
  os_path_exists (OS := linux) (world s) "/out" = true /\
  process_file (os := linux) "/music/Album/intro.opus" "/out" "opus" None TheLedger s
  = (s, Raise UnboundLocalError).
Proof.
  cbv zeta. split; [discriminate | split; [reflexivity |]].
  assert (H := relocating_one_file_raises (os := linux) (sys_init album)
                 "/music/Album/intro.opus" "/out" "opus" TheLedger
                 ltac:(discriminate)).
  destruct H as (Hraise & _). apply Hraise. reflexivity.
Defined.

Lemma absolute_destination_is_mirrored_witness :
  "/music/Album" <> "/out" /\
  PyStr.startswith PosixPath.sep "/out" = true /\
  PosixPath.basename "/music/Album" <> EmptyString /\
  PyStr.startswith PosixPath.sep "a/b" = false /\
  head_directory "/music/Album" "/out" = "/out/Album" /\
  target_directory "/music/Album" "/music/Album/a/b" (head_directory "/music/Album" "/out")
  = "/out/Album/a/b".
Proof.
  split; [discriminate | split; [reflexivity | split; [discriminate |
    split; [reflexivity |]]]].
  assert (H := absolute_destination_is_mirrored "/music/Album" "/out" "a/b"
                 ltac:(discriminate) ltac:(reflexivity) ltac:(discriminate)
                 ltac:(reflexivity)).
  cbv zeta in H. destruct H as (Hhead & Hplan & _).
  split; [exact Hhead | exact Hplan].
Defined.

Lemma small_sizes_are_printed_exactly_witness :
  0 <= 512 < 1024 /\
  sizeof_fmt 512 = "512.0B" /\ sizeof_fmt (1024 * 513) = "513.0KiB".
Proof.
  split; [lia |].
  assert (H := small_sizes_are_printed_exactly 512 ltac:(lia)).
  destruct H as (Hbytes & Hkib).
  split; [exact Hbytes | apply Hkib; lia].
Defined.

Lemma whole_seconds_within_the_hour_witness :
  0 <= 90 < 3600 /\
  hms_parts (90 * 1000000000) <> Some (90 / 3600, 90 mod 3600 / 60, SecInt (90 mod 60)) /\
  exists hours minutes,
    hms_parts (90 * 1000000000) = Some (hours, minutes, SecInt (90 mod 60)).
Proof.
  split; [lia |].
  assert (H := whole_seconds_within_the_hour 90 ltac:(lia)).
  destruct H as ((Hexact & _) & Hseconds).
  split; [| exact Hseconds].
  intros Heq. destruct (Hexact Heq) as [Hlt | [Hlt | [_ Heven]]].
  - lia.
  - vm_compute in Hlt. discriminate.
  - vm_compute in Heven. discriminate.
Defined.


Lemma decode_takes_files_without_extension_witness :
  let s := sys_init album in
  let root := "/music/Album/README" in
  output_extension "decode" "opus" = Some "wav" /\
  valid_sources "decode" "opus" = Some valid_decode_source_for_opus /\
  cache_ok "opus" "decode" (statics s) = true /\
  well_split root None = true /\
  os_path_exists (OS := linux) (world s) (root ++ "." ++ "wav") = false /\
  total_count_source
    (statics (fst (transcode_source_audio (os := linux) root "opus" "decode" true
                     NotADict s))) = total_count_source (statics s) + 1.
Proof.
  cbv zeta.
  split; [reflexivity | split; [reflexivity | split; [reflexivity |
    split; [reflexivity | split; [reflexivity |]]]]].
  assert (H := decode_takes_files_without_extension (os := linux) (sys_init album)
                 "/music/Album/README" "opus" "wav" valid_decode_source_for_opus
                 NotADict ltac:(reflexivity) ltac:(reflexivity) ltac:(reflexivity)
                 ltac:(reflexivity) ltac:(reflexivity)).
  cbv zeta in H. destruct H as (_ & Hcount & _). exact Hcount.
Defined.
